(** * Quotation Desktop: data-access layer, reports and financial rules

    A shallow embedding of the storage service ([src/lib/storage.ts]), of the
    item editing and the totals of the quotation pages ([NewQuotation],
    [EditQuotation], [ViewQuotation]), of the dashboard's profit figure
    ([Index]) and of the report aggregation ([ReportsIndex]), followed by the
    properties the specification states about them.

    Modelling conventions.
    - A quantity, a price or an amount is an integer of [Z], on which the
      arithmetic of doubles is exact below 2^53.  The one formula that
      divides (the percentage discount of the view and edit pages) is
      computed in [Q].  A number that is parsed from text, counted up or
      printed (quotation numbers, the amount fields of the forms) is a
      [double], with the rounding of [parseInt], [parseFloat] and [+].
    - A string is a [string] of bytes; [toLowerCase] and the white space of
      [parseInt] are modelled on their ASCII part.
    - A JSON collection file is a list of records; the nine files together
      form the [Store], which every operation of the storage service takes
      and returns.  Reads and writes of the file store succeed.
    - The values of [crypto.randomUUID()], of [now()], of the current year
      and of date parsing are inputs of the operations that use them.  Where
      an array is sorted by a time that may be [NaN], the model gives the
      order only when the language fixes it ([Determined]).
    - [null] and [undefined] are [None].
    - Each page component is a module, so that its constants keep the names
      they have in the source. *)

From Stdlib Require Import ZArith List String Ascii Bool Lia.
From Stdlib Require Import Permutation Sorted QArith.
Import ListNotations.

Open Scope string_scope.
Open Scope Z_scope.

(** ** Data model ([src/types/database.ts]) *)

Inductive BudgetType : Type := korek_communication | ma.
Inductive CurrencyType : Type := usd | iqd.
Inductive QuotationStatus : Type := draft | pending | rejected | approved | invoiced.
Inductive DocumentType : Type := doc_quotation | doc_invoice | doc_other.


Definition QuotationStatus_eqb (a b : QuotationStatus) : bool :=
  match a, b with
  | draft, draft | pending, pending | rejected, rejected
  | approved, approved | invoiced, invoiced => true
  | _, _ => false
  end.

(** [Category], [ItemType], [Vendor] and [Recipient] are four interfaces with
    the same four fields; they share one record. *)
Module Lookup.
Record t : Type := mk {
  id : string;
  name : string;
  created_at : string;
  updated_at : string }.
End Lookup.

Definition Category : Type := Lookup.t.
Definition ItemType : Type := Lookup.t.
Definition Vendor : Type := Lookup.t.
Definition Recipient : Type := Lookup.t.

Module ExchangeRate.
Record t : Type := mk {
  id : string;
  rate : Z;
  date : string;
  created_at : string;
  updated_at : string }.
End ExchangeRate.

Module Settings.
Record t : Type := mk {
  id : string;
  company_address : option string;
  logo_url : option string;
  created_at : string;
  updated_at : string }.
End Settings.

Module QuotationItemRecord.
Record t : Type := mk {
  id : string;
  quotation_id : string;
  name : string;
  description : option string;
  quantity : Z;
  type_id : option string;
  category_id : option string;
  unit_price : Z;
  price : Z;
  total_price : Z;
  created_at : string;
  updated_at : string }.
End QuotationItemRecord.

Module Quotation.
Record t : Type := mk {
  id : string;
  quotation_number : string;
  project_name : string;
  date : string;
  validity_date : string;
  budget_type : BudgetType;
  recipient : string;
  currency_type : CurrencyType;
  vendor_id : option string;
  vendor_cost : Z;
  vendor_currency_type : CurrencyType;
  discount : Z;
  note : option string;
  description : option string;
  status : QuotationStatus;
  created_at : string;
  updated_at : string }.
End Quotation.

Module VendorDocument.
Record t : Type := mk {
  id : string;
  quotation_id : string;
  file_name : string;
  file_path : string;
  file_size : Z;
  file_type : string;
  document_type : DocumentType;
  created_at : string;
  updated_at : string }.
End VendorDocument.

(** [QuotationWithItems extends Quotation]: the quotation and its relations. *)
Module QuotationWithItems.
Record t : Type := mk {
  base : Quotation.t;
  quotation_items : list QuotationItemRecord.t;
  vendor : option Vendor;
  vendor_documents : list VendorDocument.t }.
End QuotationWithItems.

(** [Omit<Quotation, "id" | "created_at" | "updated_at">]. *)
Module QuotationFields.
Record t : Type := mk {
  quotation_number : string;
  project_name : string;
  date : string;
  validity_date : string;
  budget_type : BudgetType;
  recipient : string;
  currency_type : CurrencyType;
  vendor_id : option string;
  vendor_cost : Z;
  vendor_currency_type : CurrencyType;
  discount : Z;
  note : option string;
  description : option string;
  status : QuotationStatus }.
End QuotationFields.

(** [Omit<QuotationItemRecord, "id" | "quotation_id" | "created_at" |
    "updated_at">]. *)
Module ItemFields.
Record t : Type := mk {
  name : string;
  description : option string;
  quantity : Z;
  type_id : option string;
  category_id : option string;
  unit_price : Z;
  price : Z;
  total_price : Z }.
End ItemFields.

(** The import/export bundle.  A key of the JSON object may be missing, so
    every collection is optional here although the TypeScript interface only
    marks [vendor_documents] so. *)
Module ExportData.
Record t : Type := mk {
  quotations : option (list Quotation.t);
  quotation_items : option (list QuotationItemRecord.t);
  vendors : option (list Vendor);
  recipients : option (list Recipient);
  categories : option (list Category);
  item_types : option (list ItemType);
  exchange_rates : option (list ExchangeRate.t);
  settings : option (list Settings.t);
  vendor_documents : option (list VendorDocument.t);
  exported_at : string;
  version : string }.
End ExportData.

(** ** The store: one list per [DataFile] *)

Record Store : Type := mkStore {
  quotations_json : list Quotation.t;
  quotation_items_json : list QuotationItemRecord.t;
  vendors_json : list Vendor;
  recipients_json : list Recipient;
  categories_json : list Category;
  item_types_json : list ItemType;
  exchange_rates_json : list ExchangeRate.t;
  settings_json : list Settings.t;
  vendor_documents_json : list VendorDocument.t }.

(** [writeData(file, data)] replaces one whole collection. *)
Definition write_quotations (d : list Quotation.t) (s : Store) : Store :=
  mkStore d (quotation_items_json s) (vendors_json s) (recipients_json s)
    (categories_json s) (item_types_json s) (exchange_rates_json s)
    (settings_json s) (vendor_documents_json s).

Definition write_quotation_items (d : list QuotationItemRecord.t) (s : Store) : Store :=
  mkStore (quotations_json s) d (vendors_json s) (recipients_json s)
    (categories_json s) (item_types_json s) (exchange_rates_json s)
    (settings_json s) (vendor_documents_json s).

Definition write_vendors (d : list Vendor) (s : Store) : Store :=
  mkStore (quotations_json s) (quotation_items_json s) d (recipients_json s)
    (categories_json s) (item_types_json s) (exchange_rates_json s)
    (settings_json s) (vendor_documents_json s).

Definition write_recipients (d : list Recipient) (s : Store) : Store :=
  mkStore (quotations_json s) (quotation_items_json s) (vendors_json s) d
    (categories_json s) (item_types_json s) (exchange_rates_json s)
    (settings_json s) (vendor_documents_json s).

Definition write_categories (d : list Category) (s : Store) : Store :=
  mkStore (quotations_json s) (quotation_items_json s) (vendors_json s)
    (recipients_json s) d (item_types_json s) (exchange_rates_json s)
    (settings_json s) (vendor_documents_json s).

Definition write_item_types (d : list ItemType) (s : Store) : Store :=
  mkStore (quotations_json s) (quotation_items_json s) (vendors_json s)
    (recipients_json s) (categories_json s) d (exchange_rates_json s)
    (settings_json s) (vendor_documents_json s).

Definition write_exchange_rates (d : list ExchangeRate.t) (s : Store) : Store :=
  mkStore (quotations_json s) (quotation_items_json s) (vendors_json s)
    (recipients_json s) (categories_json s) (item_types_json s) d
    (settings_json s) (vendor_documents_json s).

Definition write_settings (d : list Settings.t) (s : Store) : Store :=
  mkStore (quotations_json s) (quotation_items_json s) (vendors_json s)
    (recipients_json s) (categories_json s) (item_types_json s)
    (exchange_rates_json s) d (vendor_documents_json s).

Definition write_vendor_documents (d : list VendorDocument.t) (s : Store) : Store :=
  mkStore (quotations_json s) (quotation_items_json s) (vendors_json s)
    (recipients_json s) (categories_json s) (item_types_json s)
    (exchange_rates_json s) (settings_json s) d.

(** ** String primitives of the host language *)

(** [a === b] on a nullable string and a string. *)
Definition opt_string_eqb (a : option string) (b : string) : bool :=
  match a with
  | Some x => String.eqb x b
  | None => false
  end.

(** [String.prototype.toLowerCase], on the ASCII letters. *)
Definition ascii_toLowerCase (c : ascii) : ascii :=
  let n := nat_of_ascii c in
  if (Nat.leb 65 n && Nat.leb n 90)%bool then ascii_of_nat (n + 32) else c.

Fixpoint toLowerCase (s : string) : string :=
  match s with
  | EmptyString => EmptyString
  | String c r => String (ascii_toLowerCase c) (toLowerCase r)
  end.

(** [s.startsWith(p)]. *)
Definition startsWith (s p : string) : bool := String.prefix p s.

Fixpoint string_drop (n : nat) (s : string) : string :=
  match n, s with
  | O, _ => s
  | S k, EmptyString => EmptyString
  | S k, String _ r => string_drop k r
  end.

(** [s.replace(pat, rep)] with a string pattern: the first occurrence only. *)
Fixpoint replace (pat rep s : string) : string :=
  if String.prefix pat s then rep ++ string_drop (String.length pat) s
  else match s with
       | EmptyString => EmptyString
       | String c r => String c (replace pat rep r)
       end.

Definition is_digit (c : ascii) : bool :=
  let n := nat_of_ascii c in (Nat.leb 48 n && Nat.leb n 57)%bool.

Definition digit_value (c : ascii) : Z := Z.of_nat (nat_of_ascii c) - 48.

Definition digit_char (d : Z) : ascii := ascii_of_nat (Z.to_nat d + 48).

(** White space skipped by [parseInt] (the ASCII part of it). *)
Definition is_space (c : ascii) : bool :=
  let n := nat_of_ascii c in
  ((Nat.leb 9 n && Nat.leb n 13) || Nat.eqb n 32)%bool.

Fixpoint trimStart (s : string) : string :=
  match s with
  | String c r => if is_space c then trimStart r else s
  | EmptyString => EmptyString
  end.

(** Value of the longest prefix of decimal digits, continuing from [acc]. *)
Fixpoint digits_value (acc : Z) (s : string) : Z :=
  match s with
  | String c r => if is_digit c then digits_value (10 * acc + digit_value c) r else acc
  | EmptyString => acc
  end.

Definition starts_with_digit (s : string) : bool :=
  match s with
  | String c _ => is_digit c
  | EmptyString => false
  end.

(** ** Numbers

    A number that is parsed from text, counted up or printed is an IEEE
    double: [NaN], an infinity, or [finite n] for a double whose value is the
    integer [n] (the model has no fractions, and the zero of negative sign is
    not told apart from [0], to which it is equal).  The constructor [finite]
    is applied to integers that are doubles; [to_double] is what makes them
    so. *)
Inductive double : Type :=
| NaN
| finite (n : Z)
| infinite (negative : bool).

(** The double nearest to the integer [n], ties going to the even
    significand; it is [n] itself up to 2^53 in magnitude, and an infinity
    from 2^1024 - 2^970 on. *)
Definition to_double (n : Z) : double :=
  let a := Z.abs n in
  if a <? 2 ^ 53 then finite n
  else
    let e := Z.log2 a - 52 in
    let q := a / 2 ^ e in
    let r := a mod 2 ^ e in
    let half := 2 ^ (e - 1) in
    let q' := if (half <? r) || ((r =? half) && Z.odd q) then q + 1 else q in
    let v := q' * 2 ^ e in
    if 2 ^ 1024 <=? v then infinite (n <? 0) else finite (Z.sgn n * v).

(** [isNaN(x)], [x > y] and [x + y]. *)
Definition isNaN (x : double) : bool :=
  match x with
  | NaN => true
  | _ => false
  end.

Definition double_gt (x y : double) : bool :=
  match x, y with
  | finite a, finite b => a >? b
  | infinite false, finite _ => true
  | infinite false, infinite true => true
  | finite _, infinite true => true
  | _, _ => false
  end.

Definition double_add (x y : double) : double :=
  match x, y with
  | finite a, finite b => to_double (a + b)
  | infinite n, finite _ => infinite n
  | finite _, infinite n => infinite n
  | infinite n, infinite m => if Bool.eqb n m then infinite n else NaN
  | _, _ => NaN
  end.

(** [parseInt(s, 10)]: the double nearest to the integer that the digits
    spell. *)
Definition parseInt (s : string) : double :=
  match trimStart s with
  | String "-" r => if starts_with_digit r then to_double (- digits_value 0 r) else NaN
  | String "+" r => if starts_with_digit r then to_double (digits_value 0 r) else NaN
  | r => if starts_with_digit r then to_double (digits_value 0 r) else NaN
  end.

(** Decimal digits of a non-negative integer, most significant first, put in
    front of [acc]. *)
Fixpoint digits_of (fuel : nat) (n : Z) (acc : string) : string :=
  match fuel with
  | O => acc
  | S f =>
      let acc' := String (digit_char (n mod 10)) acc in
      if n / 10 =? 0 then acc' else digits_of f (n / 10) acc'
  end.

Definition digits_fuel (n : Z) : nat := S (Z.to_nat (Z.log2 n)).

(** The decimal numeral of a non-negative integer. *)
Definition decimal (n : Z) : string := digits_of (digits_fuel n) n "".

(** The decimal [c] reads as the double [x]. *)
Definition reads_as (x c : Z) : bool :=
  match to_double c with
  | finite y => y =? x
  | _ => false
  end.

(** The two multiples of [10^j] next to [x], the nearer one first. *)
Definition candidates (x : Z) (j : nat) : list Z :=
  let p := 10 ^ Z.of_nat j in
  let below := x / p * p in
  let above := below + p in
  if (x - below <? above - x) || ((x - below =? above - x) && Z.even (x / p))
  then [below; above] else [above; below].

(** The integer with the most trailing zeros, at most [j], that reads as the
    double [x], the nearest to [x] of them. *)
Fixpoint shortest_from (x : Z) (j : nat) : Z :=
  match find (reads_as x) (candidates x j) with
  | Some c => c
  | None =>
      match j with
      | O => x
      | S k => shortest_from x k
      end
  end.

(** The digits that [Number::toString] and [toLocaleString] print for a
    positive double [x]: the integer of fewest significant digits that reads
    as [x]; up to 2^53 it is [x] itself. *)
Definition shortest_decimal (x : Z) : Z :=
  if x <=? 2 ^ 53 then x else shortest_from x (Z.to_nat (Z.log2 x)).

(** [c] without its trailing zeros. *)
Fixpoint significand (fuel : nat) (c : Z) : Z :=
  match fuel with
  | O => c
  | S f => if (c mod 10 =? 0) && negb (c =? 0) then significand f (c / 10) else c
  end.

(** The form [d.ddde+n] that numbers from 10^21 on are printed in. *)
Definition exponential (c : Z) : string :=
  let digits := decimal (significand (digits_fuel c) c) in
  let e := decimal (Z.of_nat (String.length (decimal c)) - 1) in
  match digits with
  | String d EmptyString => String d ("e+" ++ e)
  | String d rest => String d ("." ++ rest ++ "e+" ++ e)
  | EmptyString => EmptyString
  end.

Definition Number_toString_positive (x : Z) : string :=
  let c := shortest_decimal x in
  if c <? 10 ^ 21 then decimal c else exponential c.

(** [String(x)], which is also how a number enters a template literal. *)
Definition Number_toString (x : double) : string :=
  match x with
  | NaN => "NaN"
  | infinite false => "Infinity"
  | infinite true => "-Infinity"
  | finite n =>
      if n <? 0 then String "-" (Number_toString_positive (- n))
      else Number_toString_positive n
  end.

Fixpoint repeat_string (n : nat) (p : string) : string :=
  match n with
  | O => ""
  | S k => p ++ repeat_string k p
  end.

(** [s.padStart(len, pad)] for a one-character [pad]. *)
Definition padStart (len : nat) (pad : string) (s : string) : string :=
  repeat_string (len - String.length s) pad ++ s.

(** ** Storage service ([src/lib/storage.ts]) *)

(** [getQuotations]: every quotation joined with its items, its vendor and
    its documents. *)
Definition getQuotations (s : Store) : list QuotationWithItems.t :=
  map (fun q =>
         QuotationWithItems.mk q
           (filter (fun i => String.eqb (QuotationItemRecord.quotation_id i) (Quotation.id q))
                   (quotation_items_json s))
           (find (fun v => opt_string_eqb (Quotation.vendor_id q) (Lookup.id v))
                 (vendors_json s))
           (filter (fun d => String.eqb (VendorDocument.quotation_id d) (Quotation.id q))
                   (vendor_documents_json s)))
      (quotations_json s).

Definition getQuotation (id : string) (s : Store) : option QuotationWithItems.t :=
  find (fun q => String.eqb (Quotation.id (QuotationWithItems.base q)) id) (getQuotations s).

(** [items.map(f)] with the position of each element. *)
Fixpoint map_indexed {A B : Type} (f : nat -> A -> B) (k : nat) (l : list A) : list B :=
  match l with
  | [] => []
  | x :: r => f k x :: map_indexed f (S k) r
  end.

(** [createQuotation(quotation, items)]; [uuid k] and [now k] are the values
    of the [k]-th call of [generateId()] and of [now()]. *)
Definition createQuotation (quotation : QuotationFields.t) (items : list ItemFields.t)
    (uuid now : nat -> string) (s : Store) : Quotation.t * Store :=
  let quotations := quotations_json s in
  let existingItems := quotation_items_json s in
  let newQuotation :=
    Quotation.mk (uuid 0%nat)
      (QuotationFields.quotation_number quotation) (QuotationFields.project_name quotation)
      (QuotationFields.date quotation) (QuotationFields.validity_date quotation)
      (QuotationFields.budget_type quotation) (QuotationFields.recipient quotation)
      (QuotationFields.currency_type quotation) (QuotationFields.vendor_id quotation)
      (QuotationFields.vendor_cost quotation)
      (QuotationFields.vendor_currency_type quotation)
      (QuotationFields.discount quotation) (QuotationFields.note quotation)
      (QuotationFields.description quotation) (QuotationFields.status quotation)
      (now 0%nat) (now 1%nat) in
  let newItems :=
    map_indexed
      (fun k item =>
         QuotationItemRecord.mk (uuid (S k)) (Quotation.id newQuotation)
           (ItemFields.name item) (ItemFields.description item)
           (ItemFields.quantity item) (ItemFields.type_id item)
           (ItemFields.category_id item) (ItemFields.unit_price item)
           (ItemFields.price item) (ItemFields.total_price item)
           (now (2 + 2 * k)%nat) (now (3 + 2 * k)%nat))
      0 items in
  let s1 := write_quotations (quotations ++ [newQuotation]) s in
  (newQuotation, write_quotation_items (existingItems ++ newItems) s1).

(** [deleteQuotation(id)]: the result flag and the store afterwards. *)
Definition deleteQuotation (id : string) (s : Store) : bool * Store :=
  let quotations := quotations_json s in
  let filtered := filter (fun q => negb (String.eqb (Quotation.id q) id)) quotations in
  if Nat.eqb (List.length filtered) (List.length quotations) then (false, s)
  else
    let s1 := write_quotations filtered s in
    let items := quotation_items_json s1 in
    let filteredItems :=
      filter (fun i => negb (String.eqb (QuotationItemRecord.quotation_id i) id)) items in
    (true, write_quotation_items filteredItems s1).

(** The test of the four creators:
    [x.name.toLowerCase() === name.toLowerCase()]. *)
Definition same_name (name : string) (x : Lookup.t) : bool :=
  String.eqb (toLowerCase (Lookup.name x)) (toLowerCase name).

(** [createVendor(name)]; [uuid] is the value of [generateId()], [t1] and
    [t2] are the two values of [now()]. *)
Definition createVendor (name uuid t1 t2 : string) (s : Store) : Vendor * Store :=
  let vendors := vendors_json s in
  match find (same_name name) vendors with
  | Some existing => (existing, s)
  | None =>
      let newVendor := Lookup.mk uuid name t1 t2 in
      (newVendor, write_vendors (vendors ++ [newVendor]) s)
  end.

Definition createRecipient (name uuid t1 t2 : string) (s : Store) : Recipient * Store :=
  let recipients := recipients_json s in
  match find (same_name name) recipients with
  | Some existing => (existing, s)
  | None =>
      let newRecipient := Lookup.mk uuid name t1 t2 in
      (newRecipient, write_recipients (recipients ++ [newRecipient]) s)
  end.

Definition createCategory (name uuid t1 t2 : string) (s : Store) : Category * Store :=
  let categories := categories_json s in
  match find (same_name name) categories with
  | Some existing => (existing, s)
  | None =>
      let newCategory := Lookup.mk uuid name t1 t2 in
      (newCategory, write_categories (categories ++ [newCategory]) s)
  end.

Definition createItemType (name uuid t1 t2 : string) (s : Store) : ItemType * Store :=
  let itemTypes := item_types_json s in
  match find (same_name name) itemTypes with
  | Some existing => (existing, s)
  | None =>
      let newItemType := Lookup.mk uuid name t1 t2 in
      (newItemType, write_item_types (itemTypes ++ [newItemType]) s)
  end.

(** [Array.prototype.sort(cmp)], a stable sort: [x] goes in front of [y]
    unless the comparator puts [y] strictly first ([cmp x y > 0]). *)
Fixpoint sort_insert {A : Type} (cmp : A -> A -> Z) (x : A) (l : list A) : list A :=
  match l with
  | [] => [x]
  | y :: r => if cmp x y >? 0 then y :: sort_insert cmp x r else x :: y :: r
  end.

Fixpoint sort {A : Type} (cmp : A -> A -> Z) (l : list A) : list A :=
  match l with
  | [] => []
  | x :: r => sort_insert cmp x (sort cmp r)
  end.

(** What the language fixes of a computation: its result, or nothing when
    the result is left to the engine. *)
Inductive Determined (A : Type) : Type :=
| determined (a : A)
| implementation_defined.

Arguments determined {A} a.
Arguments implementation_defined {A}.

Definition Determined_map {A B : Type} (f : A -> B) (x : Determined A) : Determined B :=
  match x with
  | determined a => determined (f a)
  | implementation_defined => implementation_defined
  end.

(** [d !== NaN], for a time value [d]. *)
Definition is_time (d : option Z) : bool :=
  match d with
  | Some _ => true
  | None => false
  end.

Definition time_value (d : option Z) : Z :=
  match d with
  | Some t => t
  | None => 0
  end.

(** [l.sort((a, b) => f(b) - f(a))] for an [f] that may give [NaN] ([None]).
    When every [f(x)] is a number the comparator is a consistent comparison
    function and the array is sorted, stably, in descending order of [f].
    When some [f(x)] is [NaN] the comparator returns [NaN], it is not a
    consistent comparison function, and the language leaves the order to the
    engine (ECMA-262, Array.prototype.sort). *)
Definition sort_descending {A : Type} (f : A -> option Z) (l : list A)
  : Determined (list A) :=
  if forallb (fun x => is_time (f x)) l
  then determined (sort (fun a b => time_value (f b) - time_value (f a)) l)
  else implementation_defined.

(** [getLatestExchangeRate]; [getTime d] stands for
    [new Date(d).getTime()], which is [NaN] ([None]) when [d] is not a
    date. *)
Definition getLatestExchangeRate (getTime : string -> option Z) (s : Store)
  : Determined (option ExchangeRate.t) :=
  let rates := exchange_rates_json s in
  if Nat.eqb (List.length rates) 0 then determined None
  else
    Determined_map (fun sorted => hd_error sorted)
      (sort_descending (fun r => getTime (ExchangeRate.date r)) rates).

Definition createExchangeRate (rate : Z) (date uuid t1 t2 : string) (s : Store)
  : ExchangeRate.t * Store :=
  let rates := exchange_rates_json s in
  let newRate := ExchangeRate.mk uuid rate date t1 t2 in
  (newRate, write_exchange_rates (rates ++ [newRate]) s).

(** [exportAllData]; [t] is the value of [now()]. *)
Definition exportAllData (t : string) (s : Store) : ExportData.t :=
  ExportData.mk
    (Some (quotations_json s))
    (Some (quotation_items_json s))
    (Some (vendors_json s))
    (Some (recipients_json s))
    (Some (categories_json s))
    (Some (item_types_json s))
    (Some (exchange_rates_json s))
    (Some (settings_json s))
    None
    t
    "1.0.0".

(** [data.settings || []]. *)
Definition or_empty {A : Type} (o : option (list A)) : list A :=
  match o with
  | Some l => l
  | None => []
  end.

Record ImportResult : Type := mkImportResult {
  success : bool;
  message : string }.

(** [importData(data)].  The eight [writeData] calls are independent of each
    other, so the order they are applied in is immaterial. *)
Definition importData (data : ExportData.t) (s : Store) : ImportResult * Store :=
  match ExportData.quotations data, ExportData.quotation_items data,
        ExportData.vendors data, ExportData.recipients data,
        ExportData.categories data, ExportData.item_types data,
        ExportData.exchange_rates data with
  | Some quotations, Some quotation_items, Some vendors, Some recipients,
    Some categories, Some item_types, Some exchange_rates =>
      (mkImportResult true "Data imported successfully",
       write_settings (or_empty (ExportData.settings data))
         (write_exchange_rates exchange_rates
           (write_item_types item_types
             (write_categories categories
               (write_recipients recipients
                 (write_vendors vendors
                   (write_quotation_items quotation_items
                     (write_quotations quotations s))))))))
  | _, _, _, _, _, _, _ => (mkImportResult false "Invalid data format", s)
  end.

(** The prefix [`QT-${year}-`]. *)
Definition quotation_prefix (year : Z) : string :=
  "QT-" ++ Number_toString (finite year) ++ "-".

(** The loop body of [generateQuotationNumber]. *)
Definition maxNum_step (prefix : string) (maxNum : double) (q : Quotation.t) : double :=
  let numStr := replace prefix "" (Quotation.quotation_number q) in
  let num := parseInt numStr in
  if negb (isNaN num) && double_gt num maxNum then num else maxNum.

Definition yearQuotations (prefix : string) (quotations : list Quotation.t)
  : list Quotation.t :=
  filter (fun q => startsWith (Quotation.quotation_number q) prefix) quotations.

Definition maxNum (prefix : string) (quotations : list Quotation.t) : double :=
  fold_left (maxNum_step prefix) (yearQuotations prefix quotations) (finite 0).

(** [generateQuotationNumber]; [year] is [new Date().getFullYear()]. *)
Definition generateQuotationNumber (year : Z) (s : Store) : string :=
  let quotations := quotations_json s in
  let prefix := quotation_prefix year in
  prefix
  ++ padStart 4 "0" (Number_toString (double_add (maxNum prefix quotations) (finite 1))).

(** ** Storage service: the remaining operations *)

(** [a.findIndex(p)]; [None] is [-1]. *)
Fixpoint findIndex {A : Type} (p : A -> bool) (l : list A) : option nat :=
  match l with
  | [] => None
  | x :: r => if p x then Some O else option_map S (findIndex p r)
  end.

(** [a[n] = x] for an index of the array. *)
Fixpoint set_nth {A : Type} (n : nat) (x : A) (l : list A) : list A :=
  match n, l with
  | _, [] => []
  | O, _ :: r => x :: r
  | S k, y :: r => y :: set_nth k x r
  end.

(** [o ?? d] for a key of a partial record: the value when the key is
    there. *)
Definition or_else {A : Type} (o : option A) (d : A) : A :=
  match o with
  | Some x => x
  | None => d
  end.

(** [Partial<Omit<Quotation, "id" | "created_at">>]: [None] is a key that is
    not there. *)
Module QuotationUpdates.
Record t : Type := mk {
  quotation_number : option string;
  project_name : option string;
  date : option string;
  validity_date : option string;
  budget_type : option BudgetType;
  recipient : option string;
  currency_type : option CurrencyType;
  vendor_id : option (option string);
  vendor_cost : option Z;
  vendor_currency_type : option CurrencyType;
  discount : option Z;
  note : option (option string);
  description : option (option string);
  status : option QuotationStatus;
  updated_at : option string }.
End QuotationUpdates.

(** [{ ...q, ...updates, updated_at: t }]. *)
Definition merge_quotation (q : Quotation.t) (updates : QuotationUpdates.t) (t : string)
  : Quotation.t :=
  Quotation.mk (Quotation.id q)
    (or_else (QuotationUpdates.quotation_number updates) (Quotation.quotation_number q))
    (or_else (QuotationUpdates.project_name updates) (Quotation.project_name q))
    (or_else (QuotationUpdates.date updates) (Quotation.date q))
    (or_else (QuotationUpdates.validity_date updates) (Quotation.validity_date q))
    (or_else (QuotationUpdates.budget_type updates) (Quotation.budget_type q))
    (or_else (QuotationUpdates.recipient updates) (Quotation.recipient q))
    (or_else (QuotationUpdates.currency_type updates) (Quotation.currency_type q))
    (or_else (QuotationUpdates.vendor_id updates) (Quotation.vendor_id q))
    (or_else (QuotationUpdates.vendor_cost updates) (Quotation.vendor_cost q))
    (or_else (QuotationUpdates.vendor_currency_type updates)
             (Quotation.vendor_currency_type q))
    (or_else (QuotationUpdates.discount updates) (Quotation.discount q))
    (or_else (QuotationUpdates.note updates) (Quotation.note q))
    (or_else (QuotationUpdates.description updates) (Quotation.description q))
    (or_else (QuotationUpdates.status updates) (Quotation.status q))
    (Quotation.created_at q)
    t.

(** The records [updateQuotation] builds for the items it is given; [now 0]
    has gone to the quotation. *)
Definition updated_items (id : string) (items : list ItemFields.t)
    (uuid now : nat -> string) : list QuotationItemRecord.t :=
  map_indexed
    (fun k item =>
       QuotationItemRecord.mk (uuid k) id
         (ItemFields.name item) (ItemFields.description item)
         (ItemFields.quantity item) (ItemFields.type_id item)
         (ItemFields.category_id item) (ItemFields.unit_price item)
         (ItemFields.price item) (ItemFields.total_price item)
         (now (1 + 2 * k)%nat) (now (2 + 2 * k)%nat))
    0 items.

(** [updateQuotation(id, updates, items?)]; [None] for [items] is the
    argument left out, [None] as a result is [null]. *)
Definition updateQuotation (id : string) (updates : QuotationUpdates.t)
    (items : option (list ItemFields.t)) (uuid now : nat -> string) (s : Store)
  : option Quotation.t * Store :=
  let quotations := quotations_json s in
  match findIndex (fun q => String.eqb (Quotation.id q) id) quotations with
  | None => (None, s)
  | Some index =>
      match nth_error quotations index with
      | None => (None, s)
      | Some old =>
          let updated := merge_quotation old updates (now 0%nat) in
          let quotations' := set_nth index updated quotations in
          let s1 := write_quotations quotations' s in
          match items with
          | None => (Some updated, s1)
          | Some items =>
              let existingItems := quotation_items_json s1 in
              let filteredItems :=
                filter (fun i => negb (String.eqb (QuotationItemRecord.quotation_id i) id))
                       existingItems in
              let newItems := updated_items id items uuid now in
              (Some updated, write_quotation_items (filteredItems ++ newItems) s1)
          end
      end
  end.

Definition getVendors (s : Store) : list Vendor := vendors_json s.


Definition getRecipients (s : Store) : list Recipient := recipients_json s.


Definition getExchangeRates (s : Store) : list ExchangeRate.t := exchange_rates_json s.


(** [Partial<Settings>]. *)
Module SettingsUpdates.
Record t : Type := mk {
  id : option string;
  company_address : option (option string);
  logo_url : option (option string);
  created_at : option string;
  updated_at : option string }.
End SettingsUpdates.





Definition deleteVendorDocument (id : string) (s : Store) : bool * Store :=
  let documents := vendor_documents_json s in
  let filtered := filter (fun d => negb (String.eqb (VendorDocument.id d) id)) documents in
  if Nat.eqb (List.length filtered) (List.length documents) then (false, s)
  else (true, write_vendor_documents filtered s).

(** ** Quotation forms ([NewQuotation] and [EditQuotation]) *)

(** The forms' own [QuotationItem]; both pages declare it, and [addItem],
    [updateItem] and [removeItem], with the same text. *)
Module QuotationItem.
Record t : Type := mk {
  id : string;
  name : string;
  description : string;
  quantity : Z;
  type_id : option string;
  unit_price : Z;
  price : Z;
  total_price : Z }.
End QuotationItem.

(** A [field]/[value] pair passed to [updateItem]. *)
Inductive ItemUpdate : Type :=
| set_id (v : string)
| set_name (v : string)
| set_description (v : string)
| set_quantity (v : Z)
| set_type_id (v : option string)
| set_unit_price (v : Z)
| set_price (v : Z)
| set_total_price (v : Z).

(** [field === 'quantity' || field === 'unit_price']. *)
Definition recalculates (u : ItemUpdate) : bool :=
  match u with
  | set_quantity _ | set_unit_price _ => true
  | _ => false
  end.

(** [{ ...item, [field]: value }]. *)
Definition assign_field (u : ItemUpdate) (item : QuotationItem.t) : QuotationItem.t :=
  let '(QuotationItem.mk i n d q ty up p tp) := item in
  match u with
  | set_id v => QuotationItem.mk v n d q ty up p tp
  | set_name v => QuotationItem.mk i v d q ty up p tp
  | set_description v => QuotationItem.mk i n v q ty up p tp
  | set_quantity v => QuotationItem.mk i n d v ty up p tp
  | set_type_id v => QuotationItem.mk i n d q v up p tp
  | set_unit_price v => QuotationItem.mk i n d q ty v p tp
  | set_price v => QuotationItem.mk i n d q ty up v tp
  | set_total_price v => QuotationItem.mk i n d q ty up p v
  end.

(** [updated.price = updated.quantity * updated.unit_price;
     updated.total_price = updated.price]. *)
Definition recalculate (updated : QuotationItem.t) : QuotationItem.t :=
  let price := QuotationItem.quantity updated * QuotationItem.unit_price updated in
  QuotationItem.mk (QuotationItem.id updated) (QuotationItem.name updated)
    (QuotationItem.description updated) (QuotationItem.quantity updated)
    (QuotationItem.type_id updated) (QuotationItem.unit_price updated)
    price price.

(** [addItem]; [uuid] is the value of [crypto.randomUUID()]. *)
Definition newItem (uuid : string) : QuotationItem.t :=
  QuotationItem.mk uuid "" "" 1 None 0 0 0.

Definition addItem (uuid : string) (items : list QuotationItem.t) : list QuotationItem.t :=
  items ++ [newItem uuid].

Definition updateItem (id : string) (u : ItemUpdate) (items : list QuotationItem.t)
  : list QuotationItem.t :=
  map (fun item =>
         if negb (String.eqb (QuotationItem.id item) id) then item
         else
           let updated := assign_field u item in
           if recalculates u then recalculate updated else updated)
      items.

Definition removeItem (id : string) (items : list QuotationItem.t) : list QuotationItem.t :=
  filter (fun item => negb (String.eqb (QuotationItem.id item) id)) items.

(** The items as [handleSubmit] passes them to [createQuotation] and to
    [updateQuotation]; [item.description || null]. *)
Definition submitted_items (items : list QuotationItem.t) : list ItemFields.t :=
  map (fun item =>
         ItemFields.mk (QuotationItem.name item)
           (if String.eqb (QuotationItem.description item) "" then None
            else Some (QuotationItem.description item))
           (QuotationItem.quantity item) (QuotationItem.type_id item) None
           (QuotationItem.unit_price item) (QuotationItem.price item)
           (QuotationItem.total_price item))
      items.

(** *** The amount fields of the forms *)

(** [value.replace(/,/g, '')]. *)
Fixpoint remove_commas (s : string) : string :=
  match s with
  | EmptyString => EmptyString
  | String c r => if Ascii.eqb c "," then remove_commas r else String c (remove_commas r)
  end.

(** [value.replace(/[^\d,]/g, '')]. *)
Fixpoint keep_digits_and_commas (s : string) : string :=
  match s with
  | EmptyString => EmptyString
  | String c r =>
      if is_digit c || Ascii.eqb c "," then String c (keep_digits_and_commas r)
      else keep_digits_and_commas r
  end.

(** What [parseFloat] returns: a number of the model, or a number that is
    not modelled here (a literal with a fraction or an exponent). *)
Inductive FloatParse : Type :=
| float_number (x : double)
| float_beyond.

Fixpoint drop_digits (s : string) : string :=
  match s with
  | String c r => if is_digit c then drop_digits r else s
  | EmptyString => EmptyString
  end.

(** The literal after the sign: digits read as the nearest double, and
    [Infinity].  A dot or an exponent mark after the digits, and a leading
    dot, send the result out of the model. *)
Definition parseFloat_unsigned (t : string) : FloatParse :=
  if starts_with_digit t then
    match drop_digits t with
    | String c _ =>
        if Ascii.eqb c "." || Ascii.eqb c "e" || Ascii.eqb c "E" then float_beyond
        else float_number (to_double (digits_value 0 t))
    | EmptyString => float_number (to_double (digits_value 0 t))
    end
  else if String.prefix "Infinity" t then float_number (infinite false)
  else
    match t with
    | String c _ => if Ascii.eqb c "." then float_beyond else float_number NaN
    | EmptyString => float_number NaN
    end.

Definition double_opp (x : double) : double :=
  match x with
  | NaN => NaN
  | finite n => finite (- n)
  | infinite negative => infinite (negb negative)
  end.

Definition float_opp (r : FloatParse) : FloatParse :=
  match r with
  | float_number x => float_number (double_opp x)
  | float_beyond => float_beyond
  end.

(** [parseFloat(s)]. *)
Definition parseFloat (s : string) : FloatParse :=
  match trimStart s with
  | String "-" r => float_opp (parseFloat_unsigned r)
  | String "+" r => parseFloat_unsigned r
  | r => parseFloat_unsigned r
  end.

(** [parseFormattedNumber(value)]: [NaN] becomes 0; [None] is a number
    outside the model. *)
Definition parseFormattedNumber (value : string) : option double :=
  match parseFloat (remove_commas value) with
  | float_number num => Some (if isNaN num then finite 0 else num)
  | float_beyond => None
  end.

(** Digits in groups of three, counted from the right. *)
Fixpoint group_digits (s : string) : string :=
  match s with
  | EmptyString => EmptyString
  | String c r =>
      if (Nat.eqb (Nat.modulo (String.length r) 3) 0 && negb (Nat.eqb (String.length r) 0))%bool
      then String c (String "," (group_digits r))
      else String c (group_digits r)
  end.

(** The sign for infinity, in UTF-8. *)
Definition infinity_sign : string :=
  String (ascii_of_nat 226) (String (ascii_of_nat 136) (String (ascii_of_nat 158) "")).

(** [num.toLocaleString('en-US')]: the digits of [String(num)], never in
    exponential form, in groups of three. *)
Definition toLocaleString (num : double) : string :=
  match num with
  | NaN => "NaN"
  | infinite false => infinity_sign
  | infinite true => String "-" infinity_sign
  | finite n =>
      if n <? 0 then String "-" (group_digits (decimal (shortest_decimal (- n))))
      else group_digits (decimal (shortest_decimal n))
  end.

(** [formatNumberWithCommas(value)] for a [number]. *)
Definition formatNumberWithCommas (value : double) : string :=
  if isNaN value then "" else toLocaleString value.

(** The value the [onChange] handler of an amount field (unit price, vendor
    cost, discount) stores for the text [raw] of the field. *)
Definition amount_onChange (raw : string) : option double :=
  let value := keep_digits_and_commas raw in
  parseFormattedNumber value.

(** [s.trimEnd()] and [s.trim()], with the white space of [trimStart]. *)
Fixpoint trimEnd (s : string) : string :=
  match s with
  | EmptyString => EmptyString
  | String c r =>
      match trimEnd r with
      | EmptyString => if is_space c then EmptyString else String c EmptyString
      | r' => String c r'
      end
  end.

Definition trim (s : string) : string := trimEnd (trimStart s).

(** The state of the new-quotation form; the two dates as
    [toISOString()] gives them. *)
Module FormState.
Record t : Type := mk {
  projectName : string;
  date : string;
  validityDate : string;
  budgetType : BudgetType;
  recipient : string;
  currencyType : CurrencyType;
  vendorName : string;
  vendorCost : Z;
  vendorCurrencyType : CurrencyType;
  discount : Z;
  note : string;
  items : list QuotationItem.t }.
End FormState.

(** The values of [generateId()] and [now()] that a submission may consume
    (for the vendor, for the recipient, and for the quotation with its
    items) and the current year. *)
Module SubmitClock.
Record t : Type := mk {
  vendor_uuid : string;
  vendor_t1 : string;
  vendor_t2 : string;
  recipient_uuid : string;
  recipient_t1 : string;
  recipient_t2 : string;
  quotation_uuid : nat -> string;
  quotation_now : nat -> string;
  year : Z }.
End SubmitClock.

(** How [handleSubmit] ends: with one of its two validation messages, or
    with the quotation created. *)
Inductive SubmitOutcome : Type :=
| project_name_required
| add_at_least_one_item
| quotation_created (q : Quotation.t).

Module NewQuotation.

Definition total (items : list QuotationItem.t) : Z :=
  fold_left (fun sum item => sum + QuotationItem.total_price item) items 0.

Definition finalTotal (items : list QuotationItem.t) (discount : Z) : Z :=
  total items - discount.


(** [handleSubmit]; [recipients] is the list the page has queried. *)
Definition handleSubmit (form : FormState.t) (recipients : list Recipient)
    (clock : SubmitClock.t) (s : Store) : SubmitOutcome * Store :=
  if String.eqb (trim (FormState.projectName form)) "" then (project_name_required, s)
  else if Nat.eqb (List.length (FormState.items form)) 0 then (add_at_least_one_item, s)
  else
    let '(vendorId, s1) :=
      if String.eqb (trim (FormState.vendorName form)) "" then (None, s)
      else
        let '(vendor, s') :=
          createVendor (FormState.vendorName form) (SubmitClock.vendor_uuid clock)
            (SubmitClock.vendor_t1 clock) (SubmitClock.vendor_t2 clock) s in
        (Some (Lookup.id vendor), s') in
    let s2 :=
      if String.eqb (trim (FormState.recipient form)) "" then s1
      else
        match find (same_name (FormState.recipient form)) recipients with
        | Some _ => s1
        | None =>
            snd (createRecipient (FormState.recipient form)
                   (SubmitClock.recipient_uuid clock) (SubmitClock.recipient_t1 clock)
                   (SubmitClock.recipient_t2 clock) s1)
        end in
    let quotationNumber := generateQuotationNumber (SubmitClock.year clock) s2 in
    let '(created, s3) :=
      createQuotation
        (QuotationFields.mk quotationNumber (FormState.projectName form)
           (FormState.date form) (FormState.validityDate form)
           (FormState.budgetType form) (FormState.recipient form)
           (FormState.currencyType form) vendorId (FormState.vendorCost form)
           (FormState.vendorCurrencyType form) (FormState.discount form)
           (if String.eqb (FormState.note form) "" then None
            else Some (FormState.note form))
           None draft)
        (submitted_items (FormState.items form))
        (SubmitClock.quotation_uuid clock) (SubmitClock.quotation_now clock) s2 in
    (quotation_created created, s3).

End NewQuotation.

Module EditQuotation.

Definition total (items : list QuotationItem.t) : Z :=
  fold_left (fun sum item => sum + QuotationItem.total_price item) items 0.

Definition discountAmount (items : list QuotationItem.t) (discount : Z) : Q :=
  (inject_Z (total items) * inject_Z discount / 100)%Q.

Definition finalTotal (items : list QuotationItem.t) (discount : Z) : Q :=
  (inject_Z (total items) - discountAmount items discount)%Q.

End EditQuotation.

(** ** Quotation view ([ViewQuotation]) *)

Module ViewQuotation.

Definition subtotal (quotation : QuotationWithItems.t) : Z :=
  fold_left (fun sum item => sum + QuotationItemRecord.total_price item)
            (QuotationWithItems.quotation_items quotation) 0.

Definition discountAmount (quotation : QuotationWithItems.t) : Q :=
  (inject_Z (subtotal quotation)
   * inject_Z (Quotation.discount (QuotationWithItems.base quotation)) / 100)%Q.

Definition total (quotation : QuotationWithItems.t) : Q :=
  (inject_Z (subtotal quotation) - discountAmount quotation)%Q.

End ViewQuotation.

(** ** Dashboard ([Index]) *)

Module Dashboard.






End Dashboard.

(** ** Reports ([ReportsIndex]) *)

(** The status filter, a string of the URL: ["all"], the name of a status,
    or anything else (which no quotation matches). *)
Inductive StatusFilter : Type :=
| filter_all
| filter_status (st : QuotationStatus)
| filter_other (v : string).

(** One aggregation bucket. *)
Record TypeStats : Type := mkTypeStats {
  typeName : string;
  quantity : Z;
  totalAmount : Z;
  quotationCount : Z }.

(** [typeStats], an object used as a map from type id to bucket: the keys in
    insertion order, each once.  Type ids are record identifiers: a key is
    taken not to be the name of a member of [Object.prototype], and the
    reordering of integer-like keys by [Object.entries], which only affects
    the order of rows with equal amounts, is left out. *)
Definition StatsTable : Type := list (string * TypeStats).

Fixpoint table_get (k : string) (t : StatsTable) : option TypeStats :=
  match t with
  | [] => None
  | (k', v) :: r => if String.eqb k' k then Some v else table_get k r
  end.

(** [typeStats[k] = v]: an existing key keeps its place, a new one goes
    last. *)
Fixpoint table_set (k : string) (v : TypeStats) (t : StatsTable) : StatsTable :=
  match t with
  | [] => [(k, v)]
  | (k', v') :: r =>
      if String.eqb k' k then (k, v) :: r else (k', v') :: table_set k v r
  end.

Definition empty_stats (name : string) : TypeStats := mkTypeStats name 0 0 0.

(** State of the two nested [forEach] loops: the buckets and the set
    [quotationsWithType]. *)
Record ReportState : Type := mkReportState {
  typeStats : StatsTable;
  quotationsWithType : list string }.

(** [quotationsWithType.has(k)]. *)
Definition set_has (k : string) (s : list string) : bool :=
  existsb (String.eqb k) s.

(** A row of [reportData]: [{ id, ...stats }]. *)
Record ReportRow : Type := mkReportRow {
  row_id : string;
  row_typeName : string;
  row_quantity : Z;
  row_totalAmount : Z;
  row_quotationCount : Z }.




Module ReportsIndex.

(** [filteredQuotations]: [parseISO] gives the instant of a date string and
    [isWithinInterval] is inclusive at both ends. *)
Definition filteredQuotations (parseISO : string -> Z) (startDate endDate : Z)
    (statusFilter : StatusFilter) (quotations : list QuotationWithItems.t)
  : list QuotationWithItems.t :=
  filter (fun q =>
            let quotationDate := parseISO (Quotation.date (QuotationWithItems.base q)) in
            let inDateRange := (startDate <=? quotationDate) && (quotationDate <=? endDate) in
            let matchesStatus :=
              match statusFilter with
              | filter_all => true
              | filter_status st =>
                  QuotationStatus_eqb (Quotation.status (QuotationWithItems.base q)) st
              | filter_other _ => false
              end in
            inDateRange && matchesStatus)
         quotations.

(** The buckets before any quotation is read: one per item type, then
    ["no_type"]. *)
Definition initial_typeStats (itemTypes : list ItemType) : StatsTable :=
  table_set "no_type" (empty_stats "No Type")
    (fold_left (fun t type => table_set (Lookup.id type) (empty_stats (Lookup.name type)) t)
               itemTypes []).

(** [item.type_id || 'no_type']: [null] and the empty string are falsy. *)
Definition typeId_of (item : QuotationItemRecord.t) : string :=
  match QuotationItemRecord.type_id item with
  | Some s => if String.eqb s "" then "no_type" else s
  | None => "no_type"
  end.

(** The body of the inner loop, for item [item] of quotation [q]. *)
Definition report_item (q : QuotationWithItems.t) (st : ReportState)
    (item : QuotationItemRecord.t) : ReportState :=
  let typeId := typeId_of item in
  let t0 := typeStats st in
  let t1 :=
    match table_get typeId t0 with
    | Some _ => t0
    | None => table_set typeId (empty_stats "Unknown") t0
    end in
  let b1 :=
    match table_get typeId t1 with
    | Some b => b
    | None => empty_stats "Unknown"
    end in
  let b2 := mkTypeStats (typeName b1) (quantity b1 + QuotationItemRecord.quantity item)
              (totalAmount b1 + QuotationItemRecord.total_price item) (quotationCount b1) in
  let key := Quotation.id (QuotationWithItems.base q) ++ "-" ++ typeId in
  if set_has key (quotationsWithType st) then
    mkReportState (table_set typeId b2 t1) (quotationsWithType st)
  else
    let b3 := mkTypeStats (typeName b2) (quantity b2) (totalAmount b2)
                (quotationCount b2 + 1) in
    mkReportState (table_set typeId b3 t1) (quotationsWithType st ++ [key]).

(** The body of the outer loop. *)
Definition report_quotation (st : ReportState) (q : QuotationWithItems.t) : ReportState :=
  fold_left (report_item q) (QuotationWithItems.quotation_items q) st.

(** The state after both loops. *)
Definition report_state (itemTypes : list ItemType)
    (filteredQuotations : list QuotationWithItems.t) : ReportState :=
  fold_left report_quotation filteredQuotations
            (mkReportState (initial_typeStats itemTypes) []).

(** [stats.quantity > 0 || stats.totalAmount > 0]. *)
Definition non_empty (e : string * TypeStats) : bool :=
  (quantity (snd e) >? 0) || (totalAmount (snd e) >? 0).

Definition to_row (e : string * TypeStats) : ReportRow :=
  mkReportRow (fst e) (typeName (snd e)) (quantity (snd e)) (totalAmount (snd e))
    (quotationCount (snd e)).

Definition reportData (itemTypes : list ItemType)
    (filteredQuotations : list QuotationWithItems.t) : list ReportRow :=
  sort (fun a b => row_totalAmount b - row_totalAmount a)
       (map to_row (filter non_empty (typeStats (report_state itemTypes filteredQuotations)))).





(** [selectedTypeName]; [type?.name || "Unknown"]. *)
Definition selectedTypeName (selectedItemType : string) (itemTypes : list ItemType)
  : string :=
  if String.eqb selectedItemType "all" then "All Types"
  else if String.eqb selectedItemType "no_type" then "No Type"
  else
    match find (fun t => String.eqb (Lookup.id t) selectedItemType) itemTypes with
    | Some type => if String.eqb (Lookup.name type) "" then "Unknown" else Lookup.name type
    | None => "Unknown"
    end.


End ReportsIndex.

(** ** Quotation list ([QuotationsIndex]) *)

(** [s.includes(sub)]. *)
Fixpoint includes (s sub : string) : bool :=
  if String.prefix sub s then true
  else match s with
       | EmptyString => false
       | String _ r => includes r sub
       end.

(** The budget filter, a string: ["all"], the name of a budget type, or
    anything else. *)
Inductive BudgetFilter : Type :=
| budget_all
| budget_type_is (b : BudgetType)
| budget_other (v : string).

Definition BudgetType_eqb (a b : BudgetType) : bool :=
  match a, b with
  | korek_communication, korek_communication | ma, ma => true
  | _, _ => false
  end.

Module QuotationsIndex.

(** The test of [filteredQuotations]. *)
Definition matches (search : string) (statusFilter : StatusFilter)
    (budgetFilter : BudgetFilter) (q : QuotationWithItems.t) : bool :=
  let matchesSearch :=
    includes (toLowerCase (Quotation.project_name (QuotationWithItems.base q)))
             (toLowerCase search)
    || includes (toLowerCase (Quotation.quotation_number (QuotationWithItems.base q)))
                (toLowerCase search) in
  let matchesStatus :=
    match statusFilter with
    | filter_all => true
    | filter_status st =>
        QuotationStatus_eqb (Quotation.status (QuotationWithItems.base q)) st
    | filter_other _ => false
    end in
  let matchesBudget :=
    match budgetFilter with
    | budget_all => true
    | budget_type_is b =>
        BudgetType_eqb (Quotation.budget_type (QuotationWithItems.base q)) b
    | budget_other _ => false
    end in
  matchesSearch && matchesStatus && matchesBudget.

(** [filteredQuotations]: filtered, then the most recently created first;
    [getTime d] stands for [new Date(d).getTime()], [NaN] ([None]) when [d]
    is not a date. *)
Definition filteredQuotations (getTime : string -> option Z) (search : string)
    (statusFilter : StatusFilter) (budgetFilter : BudgetFilter)
    (quotations : list QuotationWithItems.t) : Determined (list QuotationWithItems.t) :=
  sort_descending
    (fun q => getTime (Quotation.created_at (QuotationWithItems.base q)))
    (filter (matches search statusFilter budgetFilter) quotations).

Definition calculateTotal (q : QuotationWithItems.t) : Z :=
  fold_left (fun sum item => sum + QuotationItemRecord.total_price item)
            (QuotationWithItems.quotation_items q) 0.

End QuotationsIndex.

(** ** Specification-side notions *)

(** Sum of [total_price] over the items of a quotation, and over a list of
    quotations. *)
Definition items_sum (items : list QuotationItemRecord.t) : Z :=
  fold_right (fun item acc => QuotationItemRecord.total_price item + acc) 0 items.




(** Two lists of identifiers with the same members. *)
Definition set_equal (a b : list string) : Prop := forall x, In x a <-> In x b.

(** Every collection of [s'] holds the identifiers of the same collection of
    [s]. *)
Definition collections_set_equal (s s' : Store) : Prop :=
  set_equal (map Quotation.id (quotations_json s')) (map Quotation.id (quotations_json s)) /\
  set_equal (map QuotationItemRecord.id (quotation_items_json s'))
            (map QuotationItemRecord.id (quotation_items_json s)) /\
  set_equal (map Lookup.id (vendors_json s')) (map Lookup.id (vendors_json s)) /\
  set_equal (map Lookup.id (recipients_json s')) (map Lookup.id (recipients_json s)) /\
  set_equal (map Lookup.id (categories_json s')) (map Lookup.id (categories_json s)) /\
  set_equal (map Lookup.id (item_types_json s')) (map Lookup.id (item_types_json s)) /\
  set_equal (map ExchangeRate.id (exchange_rates_json s'))
            (map ExchangeRate.id (exchange_rates_json s)) /\
  set_equal (map Settings.id (settings_json s')) (map Settings.id (settings_json s)) /\
  set_equal (map VendorDocument.id (vendor_documents_json s'))
            (map VendorDocument.id (vendor_documents_json s)).

(** The seven mandatory collections of a bundle are all there. *)
Definition mandatory_present (data : ExportData.t) : Prop :=
  ExportData.quotations data <> None /\
  ExportData.quotation_items data <> None /\
  ExportData.vendors data <> None /\
  ExportData.recipients data <> None /\
  ExportData.categories data <> None /\
  ExportData.item_types data <> None /\
  ExportData.exchange_rates data <> None.

(** The outcome of calling a lookup creator twice, first with [name] and then
    with a case variation of it: [first] and [second] are the record and the
    store each call returns, [s] is the store before the first call and
    [coll] reads the creator's collection off a store. *)
Definition created_once (coll : Store -> list Lookup.t) (name : string)
    (first second : Lookup.t * Store) (s : Store) : Prop :=
  Lookup.id (fst second) = Lookup.id (fst first) /\
  snd second = snd first /\
  In (fst first) (coll (snd first)) /\
  (find (same_name name) (coll s) = None ->
   List.length (coll (snd second)) = S (List.length (coll s))) /\
  (find (same_name name) (coll s) <> None ->
   List.length (coll (snd second)) = List.length (coll s)).

(** The totals of a form item agree with its quantity and unit price. *)
Definition item_totals_ok (item : QuotationItem.t) : Prop :=
  QuotationItem.price item = QuotationItem.quantity item * QuotationItem.unit_price item /\
  QuotationItem.total_price item = QuotationItem.price item.

(** Net total of a quotation with a flat discount. *)
Definition net_total (q : QuotationWithItems.t) : Z :=
  items_sum (QuotationWithItems.quotation_items q)
  - Quotation.discount (QuotationWithItems.base q).








(** A table whose buckets are all still empty. *)
Definition table_zero (t : StatsTable) : Prop :=
  Forall (fun e => quantity (snd e) = 0 /\ totalAmount (snd e) = 0) t.


(** A string of decimal digits only. *)
Fixpoint all_digits (s : string) : bool :=
  match s with
  | EmptyString => true
  | String c r => is_digit c && all_digits r
  end.

(** The numeric suffix of a quotation number that carries [prefix], as
    [generateQuotationNumber] reads it; [NaN] when there is none. *)
Definition quotation_suffix (prefix number : string) : double :=
  if startsWith number prefix then parseInt (replace prefix "" number) else NaN.

(** The finite numeric suffixes of the stored quotation numbers that carry
    [prefix]. *)
Fixpoint suffixes (prefix : string) (quotations : list Quotation.t) : list Z :=
  match quotations with
  | [] => []
  | q :: rest =>
      match quotation_suffix prefix (Quotation.quotation_number q) with
      | finite n => n :: suffixes prefix rest
      | _ => suffixes prefix rest
      end
  end.

(** [Number.MAX_SAFE_INTEGER], 2^53 - 1: up to it, and one step beyond,
    counting in doubles is counting in integers. *)
Definition MAX_SAFE_INTEGER : Z := 9007199254740991.

(** The quotation number of [q] has no numeric suffix under [prefix], or one
    that is at most [bound]. *)
Definition suffix_at_most (bound : Z) (prefix : string) (q : Quotation.t) : Prop :=
  match quotation_suffix prefix (Quotation.quotation_number q) with
  | NaN => True
  | finite m => m <= bound
  | infinite _ => False
  end.

(** The greatest of a list of suffixes, [0] when there is none. *)
Definition max_suffix (l : list Z) : Z := fold_right Z.max 0 l.

(** The fields of a stored item that the caller chose. *)
Definition fields_of (r : QuotationItemRecord.t) : ItemFields.t :=
  ItemFields.mk (QuotationItemRecord.name r) (QuotationItemRecord.description r)
    (QuotationItemRecord.quantity r) (QuotationItemRecord.type_id r)
    (QuotationItemRecord.category_id r) (QuotationItemRecord.unit_price r)
    (QuotationItemRecord.price r) (QuotationItemRecord.total_price r).

(** The items of the store that belong to quotation [id], and the others. *)
Definition items_of (id : string) (s : Store) : list QuotationItemRecord.t :=
  filter (fun i => String.eqb (QuotationItemRecord.quotation_id i) id)
         (quotation_items_json s).

Definition items_not_of (id : string) (s : Store) : list QuotationItemRecord.t :=
  filter (fun i => negb (String.eqb (QuotationItemRecord.quotation_id i) id))
         (quotation_items_json s).

(** No stored quotation has identifier [id] and no stored item refers to
    it. *)
Definition fresh_quotation_id (id : string) (s : Store) : Prop :=
  ~ In id (map Quotation.id (quotations_json s)) /\
  ~ In id (map QuotationItemRecord.quotation_id (quotation_items_json s)).

(** No two records of a lookup collection have the same name up to case. *)
Definition names_unique (l : list Lookup.t) : Prop :=
  NoDup (map (fun x => toLowerCase (Lookup.name x)) l).

(** What a lookup creator called with [name] on store [s] has done when it
    returns [r]: the record returned is stored and has the name asked for up
    to case, the records of before are kept in place with at most one record
    put after them, and names stay unique if they were. *)
Definition creator_outcome (coll : Store -> list Lookup.t) (name : string)
    (r : Lookup.t * Store) (s : Store) : Prop :=
  toLowerCase (Lookup.name (fst r)) = toLowerCase name /\
  In (fst r) (coll (snd r)) /\
  (coll (snd r) = coll s \/ coll (snd r) = (coll s ++ [fst r])%list) /\
  (names_unique (coll s) -> names_unique (coll (snd r))).

(** The first of the elements of greatest key. *)
Fixpoint first_greatest {A : Type} (key : A -> Z) (l : list A) : option A :=
  match l with
  | [] => None
  | x :: r =>
      match first_greatest key r with
      | Some y => if key y >? key x then Some y else Some x
      | None => Some x
      end
  end.

(** The quantity and the amount that the items of type [k] of a list of
    quotations add up to. *)
Definition type_quantity (k : string) (qs : list QuotationWithItems.t) : Z :=
  fold_right
    (fun q acc =>
       fold_right (fun item acc' =>
                     if String.eqb (ReportsIndex.typeId_of item) k
                     then QuotationItemRecord.quantity item + acc' else acc')
                  0 (QuotationWithItems.quotation_items q) + acc)
    0 qs.

Definition type_amount (k : string) (qs : list QuotationWithItems.t) : Z :=
  fold_right
    (fun q acc =>
       fold_right (fun item acc' =>
                     if String.eqb (ReportsIndex.typeId_of item) k
                     then QuotationItemRecord.total_price item + acc' else acc')
                  0 (QuotationWithItems.quotation_items q) + acc)
    0 qs.

(** The label a bucket of key [k] may carry: the name of an item type of
    that id, ["No Type"] for the key ["no_type"], or ["Unknown"] for a key
    that is neither. *)
Definition label_ok (itemTypes : list ItemType) (k name : string) : Prop :=
  (k = "no_type" /\ name = "No Type") \/
  (k <> "no_type" /\
   exists type, In type itemTypes /\ Lookup.id type = k /\ Lookup.name type = name) \/
  (k <> "no_type" /\ ~ In k (map Lookup.id itemTypes) /\ name = "Unknown").

(** The quantity and the amount of the bucket of key [k], zero when there is
    no such bucket. *)
Definition quantity_at (k : string) (t : StatsTable) : Z :=
  match table_get k t with
  | Some b => quantity b
  | None => 0
  end.

Definition amount_at (k : string) (t : StatsTable) : Z :=
  match table_get k t with
  | Some b => totalAmount b
  | None => 0
  end.



(** The digits of a text, all other characters left out. *)
Fixpoint keep_digits (s : string) : string :=
  match s with
  | EmptyString => EmptyString
  | String c r => if is_digit c then String c (keep_digits r) else keep_digits r
  end.

(** The integer [n] is a double. *)
Definition is_double (n : Z) : Prop := to_double n = finite n.

(** The text [sub] occurs in [s]. *)
Definition occurs (sub s : string) : Prop :=
  exists before after, s = (before ++ sub ++ after)%string.

(** What the quotation list is meant to show for a search text and the two
    filters: the quotations with the text in their project name or in their
    number, letters compared without case, whose status and budget type are
    the ones selected, if any is. *)
Definition listed (search : string) (statusFilter : StatusFilter)
    (budgetFilter : BudgetFilter) (q : QuotationWithItems.t) : Prop :=
  let base := QuotationWithItems.base q in
  (occurs (toLowerCase search) (toLowerCase (Quotation.project_name base)) \/
   occurs (toLowerCase search) (toLowerCase (Quotation.quotation_number base))) /\
  (statusFilter = filter_all \/ statusFilter = filter_status (Quotation.status base)) /\
  (budgetFilter = budget_all \/ budgetFilter = budget_type_is (Quotation.budget_type base)).

(** The time of creation of [a] is a date not earlier than the one of [b]. *)
Definition created_not_before (getTime : string -> option Z)
    (a b : QuotationWithItems.t) : Prop :=
  exists ta tb,
    getTime (Quotation.created_at (QuotationWithItems.base a)) = Some ta /\
    getTime (Quotation.created_at (QuotationWithItems.base b)) = Some tb /\
    tb <= ta.

(** ** Sample data *)

Definition empty_store : Store := mkStore [] [] [] [] [] [] [] [] [].

Definition sample_document : VendorDocument.t :=
  VendorDocument.mk "d1" "q1" "offer.pdf" "/docs/q1/offer.pdf" 1024
    "application/pdf" doc_quotation "2024-01-01" "2024-01-01".

Definition acme_store : Store :=
  mkStore [] [] [Lookup.mk "v1" "acme" "2024-01-01" "2024-01-01"] [] [] [] [] [] [].

Definition store_with_document : Store :=
  mkStore [] [] [] [] [] [] [] [] [sample_document].

(** A bundle with the seven mandatory collections and neither [settings] nor
    [vendor_documents]. *)
Definition minimal_bundle : ExportData.t :=
  ExportData.mk (Some []) (Some []) (Some []) (Some []) (Some []) (Some [])
    (Some []) None None "2024-01-01" "1.0.0".

Definition sample_item (id : string) (quantity unit_price : Z) : QuotationItemRecord.t :=
  QuotationItemRecord.mk id "q1" "item" None quantity None None unit_price
    (quantity * unit_price) (quantity * unit_price) "2024-01-01" "2024-01-01".

(** Quantities {2,1,3} at unit prices {100,50,20}. *)
Definition sample_items : list QuotationItemRecord.t :=
  [sample_item "i1" 2 100; sample_item "i2" 1 50; sample_item "i3" 3 20].

(** A quotation over [sample_items] with discount 10 and vendor cost 100. *)
Definition sample_quotation (currency vendor_currency : CurrencyType)
    (status : QuotationStatus) : QuotationWithItems.t :=
  QuotationWithItems.mk
    (Quotation.mk "q1" "QT-2024-0001" "Project" "2024-03-01" "2024-04-01" ma "Client"
       currency None 100 vendor_currency 10 None None status "2024-03-01" "2024-03-01")
    sample_items None [].

(** The same three items as the new-quotation form holds them. *)
Definition sample_form_items : list QuotationItem.t :=
  [QuotationItem.mk "i1" "item" "" 2 None 100 200 200;
   QuotationItem.mk "i2" "item" "" 1 None 50 50 50;
   QuotationItem.mk "i3" "item" "" 3 None 20 60 60].


(** [new Date(d).getTime()] on the dates of the samples; any other text is
    not a date. *)
Definition sample_Date_getTime (d : string) : option Z :=
  if String.eqb d "2024-01-01" then Some 1704067200000
  else if String.eqb d "2024-06-01" then Some 1717200000000
  else None.

Definition sample_rates : list ExchangeRate.t :=
  [ExchangeRate.mk "r1" 1460 "2024-01-01" "2024-01-01" "2024-01-01";
   ExchangeRate.mk "r2" 1500 "2024-06-01" "2024-06-01" "2024-06-01"].

(** A store with one invoiced quotation in USD (items [sample_items],
    discount 10, vendor cost 100 USD) and the exchange rates [rates]. *)
Definition profit_store (rates : list ExchangeRate.t) : Store :=
  mkStore [QuotationWithItems.base (sample_quotation usd usd invoiced)] sample_items
    [] [] [] [] rates [] [].

Definition sample_types : list ItemType :=
  [Lookup.mk "t1" "Hardware" "2024-01-01" "2024-01-01";
   Lookup.mk "t2" "Software" "2024-01-01" "2024-01-01"].

Definition typed_item (id qid : string) (type : option string) (quantity unit_price : Z)
  : QuotationItemRecord.t :=
  QuotationItemRecord.mk id qid "item" None quantity type None unit_price
    (quantity * unit_price) (quantity * unit_price) "2024-01-01" "2024-01-01".

(** Two quotations: items of an unused type, of a listed type, of a stale
    type id and without type. *)
Definition report_quotations : list QuotationWithItems.t :=
  [QuotationWithItems.mk
     (Quotation.mk "q1" "QT-2024-0001" "Alpha" "2024-01-01" "2024-02-01" ma "Client"
        iqd None 0 iqd 0 None None draft "2024-01-01" "2024-01-01")
     [typed_item "i1" "q1" (Some "t1") 2 100; typed_item "i2" "q1" None 1 50] None [];
   QuotationWithItems.mk
     (Quotation.mk "q2" "QT-2024-0002" "Beta" "2024-06-01" "2024-07-01" ma "Client"
        iqd None 0 iqd 0 None None approved "2024-06-01" "2024-06-01")
     [typed_item "i3" "q2" (Some "t1") 3 20; typed_item "i4" "q2" (Some "gone") 4 200]
     None []].

Definition numbered (number : string) : Quotation.t :=
  Quotation.mk number number "Project" "2024-03-01" "2024-04-01" ma "Client"
    iqd None 0 iqd 0 None None draft "2024-03-01" "2024-03-01".

(** Numbers of two years, one of them with a suffix that is not a number. *)
Definition numbered_store : Store :=
  mkStore [numbered "QT-2024-0007"; numbered "QT-2023-0042"; numbered "QT-2024-0012";
           numbered "QT-2024-draft"]
    [] [] [] [] [] [] [] [].

Definition sample_fields : QuotationFields.t :=
  QuotationFields.mk "QT-2024-0002" "Second" "2024-03-02" "2024-04-02" ma "Client"
    iqd None 0 iqd 0 None None draft.

Definition sample_item_fields : list ItemFields.t :=
  [ItemFields.mk "cable" None 2 None None 100 200 200;
   ItemFields.mk "plug" None 1 None None 50 50 50].

Definition sample_uuid (k : nat) : string :=
  match k with
  | O => "u0"
  | S O => "u1"
  | S (S O) => "u2"
  | _ => "u3"
  end.

Definition sample_now (k : nat) : string := "2024-03-02".

Definition no_updates : QuotationUpdates.t :=
  QuotationUpdates.mk None None None None None None None None None None None None None
    None None.

Definition status_update (st : QuotationStatus) : QuotationUpdates.t :=
  QuotationUpdates.mk None None None None None None None None None None None None None
    (Some st) None.

Definition sample_form : FormState.t :=
  FormState.mk "Fibre rollout" "2024-03-02T00:00:00.000Z" "2024-04-01T00:00:00.000Z"
    ma "Head Office" usd "ACME" 1000 usd 10 "" sample_form_items.

Definition sample_clock : SubmitClock.t :=
  SubmitClock.mk "v2" "2024-03-02" "2024-03-02" "r1" "2024-03-02" "2024-03-02"
    sample_uuid sample_now 2024.

(** A store whose only quotation of 2024 carries the suffix 2^53, and one
    whose only quotation of 2024 carries a negative suffix. *)
Definition store_at_2_53 : Store :=
  mkStore [numbered "QT-2024-9007199254740992"] [] [] [] [] [] [] [] [].

Definition store_negative_suffix : Store :=
  mkStore [numbered "QT-2024--5"] [] [] [] [] [] [] [] [].


(** * Properties *)

(** ** Lists and filters *)

Lemma filter_length_le {A : Type} (f : A -> bool) (l : list A) :
  (List.length (filter f l) <= List.length l)%nat.
Proof.
  induction l as [|x l IH]; simpl; [lia|].
  destruct (f x); simpl; lia.
Qed.

Lemma filter_length_eq {A : Type} (f : A -> bool) (l : list A) :
  List.length (filter f l) = List.length l -> filter f l = l.
Proof.
  induction l as [|x l IH]; simpl; intros H; [reflexivity|].
  destruct (f x); simpl in H.
  - f_equal. apply IH. lia.
  - pose proof (filter_length_le f l). lia.
Qed.

Lemma filter_id_iff {A : Type} (f : A -> bool) (l : list A) :
  filter f l = l <-> forall x, In x l -> f x = true.
Proof.
  split.
  - intros H x Hx. rewrite <- H in Hx. apply filter_In in Hx. tauto.
  - induction l as [|x l IH]; simpl; intros H; [reflexivity|].
    rewrite (H x (or_introl eq_refl)). f_equal. apply IH. intros y Hy. apply H. now right.
Qed.

Lemma store_eta (s : Store) :
  mkStore (quotations_json s) (quotation_items_json s) (vendors_json s)
    (recipients_json s) (categories_json s) (item_types_json s)
    (exchange_rates_json s) (settings_json s) (vendor_documents_json s) = s.
Proof. destruct s; reflexivity. Qed.

(** ** Deleting a quotation *)

Lemma deleteQuotation_absent (id : string) (s : Store) :
  ~ In id (map Quotation.id (quotations_json s)) -> deleteQuotation id s = (false, s).
Proof.
  intros Hno. unfold deleteQuotation.
  assert (Hf : filter (fun q => negb (String.eqb (Quotation.id q) id)) (quotations_json s)
               = quotations_json s).
  { apply filter_id_iff. intros q Hq.
    destruct (String.eqb_spec (Quotation.id q) id) as [E|E]; [|reflexivity].
    exfalso. apply Hno. rewrite <- E. now apply in_map. }
  rewrite Hf, Nat.eqb_refl. reflexivity.
Qed.

Lemma deleteQuotation_present (id : string) (s : Store) :
  In id (map Quotation.id (quotations_json s)) ->
  deleteQuotation id s =
  (true,
   write_quotation_items
     (filter (fun i => negb (String.eqb (QuotationItemRecord.quotation_id i) id))
             (quotation_items_json s))
     (write_quotations
        (filter (fun q => negb (String.eqb (Quotation.id q) id)) (quotations_json s)) s)).
Proof.
  intros Hin. unfold deleteQuotation.
  destruct (Nat.eqb_spec
              (List.length (filter (fun q => negb (String.eqb (Quotation.id q) id))
                                   (quotations_json s)))
              (List.length (quotations_json s))) as [E|E]; [|reflexivity].
  exfalso. apply filter_length_eq in E.
  apply in_map_iff in Hin. destruct Hin as [q [Hid Hq]].
  pose proof (proj1 (filter_id_iff _ _) E q Hq) as Hc. simpl in Hc.
  rewrite Hid, String.eqb_refl in Hc. discriminate.
Qed.

Lemma getQuotation_filtered (id : string) (s : Store) (items : list QuotationItemRecord.t) :
  getQuotation id
    (write_quotation_items items
       (write_quotations
          (filter (fun q => negb (String.eqb (Quotation.id q) id)) (quotations_json s)) s))
  = None.
Proof.
  unfold getQuotation, getQuotations. simpl.
  induction (quotations_json s) as [|q l IH]; simpl; [reflexivity|].
  destruct (String.eqb (Quotation.id q) id) eqn:E; simpl; [exact IH|].
  rewrite E. exact IH.
Qed.

(** C5.  [deleteQuotation(id)] on an id of the store returns [true], removes
    every quotation with that id and every item whose [quotation_id] is that
    id, keeps all other quotations and items, so that the listing has no
    quotation of that id any more, and leaves the vendor documents (and
    every other collection) as they were; on an id that is not in the store
    it returns [false] and the store is unchanged. *)
Theorem deleteQuotation_cascade (id : string) (s : Store) :
  (In id (map Quotation.id (quotations_json s)) ->
   let r := deleteQuotation id s in
   fst r = true /\
   (forall q, In q (quotations_json (snd r)) <->
              In q (quotations_json s) /\ Quotation.id q <> id) /\
   (forall i, In i (quotation_items_json (snd r)) <->
              In i (quotation_items_json s) /\ QuotationItemRecord.quotation_id i <> id) /\
   getQuotation id (snd r) = None /\
   vendor_documents_json (snd r) = vendor_documents_json s /\
   vendors_json (snd r) = vendors_json s /\
   recipients_json (snd r) = recipients_json s /\
   categories_json (snd r) = categories_json s /\
   item_types_json (snd r) = item_types_json s /\
   exchange_rates_json (snd r) = exchange_rates_json s /\
   settings_json (snd r) = settings_json s) /\
  (~ In id (map Quotation.id (quotations_json s)) ->
   deleteQuotation id s = (false, s)).
Proof.
  split.
  - intros Hin r. subst r. rewrite (deleteQuotation_present id s Hin). simpl.
    split; [reflexivity|].
    split; [|split; [|split; [|repeat split; reflexivity]]].
    + intros q. rewrite filter_In.
      destruct (String.eqb_spec (Quotation.id q) id); simpl; intuition congruence.
    + intros i. rewrite filter_In.
      destruct (String.eqb_spec (QuotationItemRecord.quotation_id i) id); simpl;
        intuition congruence.
    + apply getQuotation_filtered.
  - apply deleteQuotation_absent.
Qed.

Lemma deleteQuotation_cascade_witness :
  In "q1" (map Quotation.id (quotations_json (profit_store []))) /\
  fst (deleteQuotation "q1" (profit_store [])) = true /\
  snd (deleteQuotation "q1" (profit_store [])) = empty_store /\
  deleteQuotation "q9" (profit_store []) = (false, profit_store []).
Proof.
  assert (Hin : In "q1" (map Quotation.id (quotations_json (profit_store []))))
    by (left; reflexivity).
  split; [exact Hin|].
  split; [exact (proj1 (proj1 (deleteQuotation_cascade "q1" (profit_store [])) Hin))|].
  split; [reflexivity|].
  apply (proj2 (deleteQuotation_cascade "q9" (profit_store []))).
  simpl. intros [H|[]]. discriminate.
Defined.

(** ** Export and import *)

Lemma collections_set_equal_refl (s : Store) : collections_set_equal s s.
Proof. unfold collections_set_equal, set_equal. repeat split; auto. Qed.

Lemma importData_rejects (data : ExportData.t) (s : Store) :
  ~ mandatory_present data ->
  importData data s = (mkImportResult false "Invalid data format", s).
Proof.
  unfold mandatory_present, importData.
  destruct (ExportData.quotations data), (ExportData.quotation_items data),
    (ExportData.vendors data), (ExportData.recipients data),
    (ExportData.categories data), (ExportData.item_types data),
    (ExportData.exchange_rates data); intros H; try reflexivity.
  exfalso. apply H. repeat split; discriminate.
Qed.

Lemma importData_accepts (data : ExportData.t) (s : Store) :
  mandatory_present data ->
  importData data s =
  (mkImportResult true "Data imported successfully",
   mkStore (or_empty (ExportData.quotations data))
     (or_empty (ExportData.quotation_items data))
     (or_empty (ExportData.vendors data))
     (or_empty (ExportData.recipients data))
     (or_empty (ExportData.categories data))
     (or_empty (ExportData.item_types data))
     (or_empty (ExportData.exchange_rates data))
     (or_empty (ExportData.settings data))
     (vendor_documents_json s)).
Proof.
  unfold mandatory_present, importData.
  intros [H1 [H2 [H3 [H4 [H5 [H6 H7]]]]]].
  destruct (ExportData.quotations data); [|contradiction].
  destruct (ExportData.quotation_items data); [|contradiction].
  destruct (ExportData.vendors data); [|contradiction].
  destruct (ExportData.recipients data); [|contradiction].
  destruct (ExportData.categories data); [|contradiction].
  destruct (ExportData.item_types data); [|contradiction].
  destruct (ExportData.exchange_rates data); [|contradiction].
  reflexivity.
Qed.

Lemma mandatory_present_dec (data : ExportData.t) :
  mandatory_present data \/ ~ mandatory_present data.
Proof.
  unfold mandatory_present.
  destruct (ExportData.quotations data), (ExportData.quotation_items data),
    (ExportData.vendors data), (ExportData.recipients data),
    (ExportData.categories data), (ExportData.item_types data),
    (ExportData.exchange_rates data);
    try (left; repeat split; discriminate); right; intros H; tauto.
Qed.

Lemma exportAllData_mandatory (t : string) (s : Store) :
  mandatory_present (exportAllData t s).
Proof. unfold mandatory_present. simpl. repeat split; discriminate. Qed.

(** C4.  Importing the bundle that [exportAllData] has just produced succeeds
    and gives back the store it was exported from: every collection has the
    same set of record identifiers as before (indeed the same records in the
    same order). *)
Theorem import_export_roundtrip (t : string) (s : Store) :
  let r := importData (exportAllData t s) s in
  success (fst r) = true /\
  collections_set_equal s (snd r) /\
  snd r = s.
Proof.
  intros r. subst r.
  rewrite importData_accepts by apply exportAllData_mandatory. simpl.
  rewrite store_eta. split; [reflexivity|]. split; [|reflexivity].
  apply collections_set_equal_refl.
Qed.

(** C9, as the code has it.  [importData] succeeds exactly when the seven
    mandatory collections are present; when one is missing it returns a
    failure with the message ["Invalid data format"] and the store is
    untouched; when it succeeds, an absent [settings] collection is written
    as the empty list, and the vendor documents are never written: they stay
    as they were, whether the bundle carries vendor documents or not. *)
Theorem importData_validation (data : ExportData.t) (s : Store) :
  let r := importData data s in
  (success (fst r) = true <-> mandatory_present data) /\
  (~ mandatory_present data ->
   r = (mkImportResult false "Invalid data format", s)) /\
  (mandatory_present data ->
   ExportData.quotations data = Some (quotations_json (snd r)) /\
   ExportData.quotation_items data = Some (quotation_items_json (snd r)) /\
   ExportData.vendors data = Some (vendors_json (snd r)) /\
   ExportData.recipients data = Some (recipients_json (snd r)) /\
   ExportData.categories data = Some (categories_json (snd r)) /\
   ExportData.item_types data = Some (item_types_json (snd r)) /\
   ExportData.exchange_rates data = Some (exchange_rates_json (snd r)) /\
   settings_json (snd r) = or_empty (ExportData.settings data) /\
   (ExportData.settings data = None -> settings_json (snd r) = []) /\
   vendor_documents_json (snd r) = vendor_documents_json s).
Proof.
  intros r. subst r.
  destruct (mandatory_present_dec data) as [M|M].
  - rewrite (importData_accepts data s M). simpl.
    split; [tauto|]. split; [tauto|]. intros _.
    destruct M as [H1 [H2 [H3 [H4 [H5 [H6 H7]]]]]].
    destruct (ExportData.quotations data); [|contradiction].
    destruct (ExportData.quotation_items data); [|contradiction].
    destruct (ExportData.vendors data); [|contradiction].
    destruct (ExportData.recipients data); [|contradiction].
    destruct (ExportData.categories data); [|contradiction].
    destruct (ExportData.item_types data); [|contradiction].
    destruct (ExportData.exchange_rates data); [|contradiction].
    simpl. repeat split; try reflexivity.
    intros E. rewrite E. reflexivity.
  - rewrite (importData_rejects data s M). simpl.
    split; [split; [discriminate|contradiction]|]. split; [reflexivity|contradiction].
Qed.

(** C9, the claim as stated fails: a bundle without [vendor_documents] is
    imported successfully over a store holding a vendor document, and the
    vendor documents collection is not empty afterwards. *)
Lemma importData_vendor_documents_not_defaulted :
  ExportData.vendor_documents minimal_bundle = None /\
  success (fst (importData minimal_bundle store_with_document)) = true /\
  vendor_documents_json (snd (importData minimal_bundle store_with_document))
  = [sample_document] /\
  vendor_documents_json (snd (importData minimal_bundle store_with_document)) <> [].
Proof.
  simpl. repeat split; try reflexivity. discriminate.
Qed.

Lemma importData_validation_witness :
  mandatory_present minimal_bundle /\
  settings_json (snd (importData minimal_bundle store_with_document)) = [] /\
  vendor_documents_json (snd (importData minimal_bundle store_with_document))
  = [sample_document].
Proof.
  assert (M : mandatory_present minimal_bundle).
  { unfold mandatory_present. simpl. repeat split; discriminate. }
  split; [exact M|].
  pose proof (importData_validation minimal_bundle store_with_document) as H.
  cbv zeta in H. destruct H as [_ [_ H]].
  specialize (H M).
  destruct H as [_ [_ [_ [_ [_ [_ [_ [_ [Hs Hd]]]]]]]]].
  split; [apply Hs; reflexivity | exact Hd].
Defined.

(** ** Lookup creators *)

Lemma same_name_variation (name name' : string) (x : Lookup.t) :
  toLowerCase name' = toLowerCase name -> same_name name' x = same_name name x.
Proof. intros E. unfold same_name. rewrite E. reflexivity. Qed.

Lemma find_same_name_variation (name name' : string) (l : list Lookup.t) :
  toLowerCase name' = toLowerCase name ->
  find (same_name name') l = find (same_name name) l.
Proof.
  intros E. induction l as [|x l IH]; simpl; [reflexivity|].
  rewrite (same_name_variation name name' x E), IH. reflexivity.
Qed.

Lemma find_app_none {A : Type} (f : A -> bool) (l : list A) (x : A) :
  find f l = None -> f x = true -> find f (l ++ [x]) = Some x.
Proof.
  induction l as [|y l IH]; simpl; intros Hn Hx.
  - rewrite Hx. reflexivity.
  - destruct (f y); [discriminate|]. now apply IH.
Qed.

Lemma find_some_holds {A : Type} (f : A -> bool) (l : list A) (x : A) :
  find f l = Some x -> f x = true.
Proof. intros H. apply find_some in H. tauto. Qed.

(** The shared body of the four creators, on the collection alone. *)
Lemma create_twice (coll : list Lookup.t) (name name' uuid t1 t2 : string) :
  toLowerCase name' = toLowerCase name ->
  match find (same_name name) coll with
  | Some existing =>
      find (same_name name') coll = Some existing /\
      toLowerCase (Lookup.name existing) = toLowerCase name
  | None =>
      find (same_name name') (coll ++ [Lookup.mk uuid name t1 t2])
      = Some (Lookup.mk uuid name t1 t2)
  end.
Proof.
  intros E. destruct (find (same_name name) coll) as [e|] eqn:F.
  - split.
    + rewrite (find_same_name_variation name name' coll E). exact F.
    + apply find_some_holds in F. unfold same_name in F.
      now apply String.eqb_eq in F.
  - apply find_app_none.
    + rewrite (find_same_name_variation name name' coll E). exact F.
    + unfold same_name. simpl. rewrite E. apply String.eqb_refl.
Qed.

Ltac creator_twice coll name name' uuid t1 t2 E :=
  pose proof (create_twice coll name name' uuid t1 t2 E) as Hc;
  destruct (find (same_name name) coll) as [e|] eqn:F;
  [ destruct Hc as [Hc Hl]; simpl;
    unfold Vendor, Recipient, Category, ItemType in *; rewrite Hc; simpl;
    split; [reflexivity|]; split; [reflexivity|];
    split; [apply find_some in F; tauto|];
    split; [discriminate | reflexivity]
  | simpl; unfold Vendor, Recipient, Category, ItemType in *; rewrite Hc; simpl;
    split; [reflexivity|]; split; [reflexivity|];
    split; [apply in_or_app; right; left; reflexivity|];
    split; [intros _; rewrite length_app; simpl; lia | congruence] ].

(** C6.  Calling [createVendor] with a name and then with any case variation
    of it returns records with the same id, and the second call leaves the
    store as the first left it; over the two calls the vendor collection
    grows by exactly one record when no vendor of that name (compared in
    lower case) was stored before, and not at all when one was.  The same
    holds for [createRecipient], [createCategory] and [createItemType]. *)
Theorem create_lookup_idempotent
    (name name' u1 a1 b1 u2 a2 b2 : string) (s : Store) :
  toLowerCase name' = toLowerCase name ->
  (let first := createVendor name u1 a1 b1 s in
   created_once vendors_json name first (createVendor name' u2 a2 b2 (snd first)) s) /\
  (let first := createRecipient name u1 a1 b1 s in
   created_once recipients_json name first (createRecipient name' u2 a2 b2 (snd first)) s) /\
  (let first := createCategory name u1 a1 b1 s in
   created_once categories_json name first (createCategory name' u2 a2 b2 (snd first)) s) /\
  (let first := createItemType name u1 a1 b1 s in
   created_once item_types_json name first (createItemType name' u2 a2 b2 (snd first)) s).
Proof.
  intros E. unfold created_once.
  split; [|split; [|split]]; cbv zeta.
  - unfold createVendor. creator_twice (vendors_json s) name name' u1 a1 b1 E.
  - unfold createRecipient. creator_twice (recipients_json s) name name' u1 a1 b1 E.
  - unfold createCategory. creator_twice (categories_json s) name name' u1 a1 b1 E.
  - unfold createItemType. creator_twice (item_types_json s) name name' u1 a1 b1 E.
Qed.

Lemma create_lookup_idempotent_witness :
  toLowerCase "ACME" = toLowerCase "Acme" /\
  Lookup.id (fst (createVendor "ACME" "id-2" "t3" "t4"
                    (snd (createVendor "Acme" "id-1" "t1" "t2" empty_store))))
  = "id-1" /\
  List.length (vendors_json
                 (snd (createVendor "ACME" "id-2" "t3" "t4"
                         (snd (createVendor "Acme" "id-1" "t1" "t2" empty_store)))))
  = 1%nat /\
  List.length (vendors_json
                 (snd (createVendor "ACME" "id-2" "t3" "t4"
                         (snd (createVendor "Acme" "id-1" "t1" "t2" acme_store)))))
  = 1%nat.
Proof.
  split; [reflexivity|].
  destruct (create_lookup_idempotent "Acme" "ACME" "id-1" "t1" "t2" "id-2" "t3" "t4"
              empty_store eq_refl) as [[H1 [_ [_ [H2 _]]]] _].
  destruct (create_lookup_idempotent "Acme" "ACME" "id-1" "t1" "t2" "id-2" "t3" "t4"
              acme_store eq_refl) as [[_ [_ [_ [_ H3]]]] _].
  split; [exact H1|]. split; [apply H2; reflexivity|].
  apply H3. discriminate.
Defined.

(** ** Item totals in the quotation form *)

Lemma recalculate_ok (item : QuotationItem.t) : item_totals_ok (recalculate item).
Proof. unfold item_totals_ok, recalculate. simpl. split; reflexivity. Qed.

Lemma assign_field_id (u : ItemUpdate) (item : QuotationItem.t) :
  recalculates u = true ->
  QuotationItem.id (assign_field u item) = QuotationItem.id item.
Proof. destruct item, u; simpl; intros H; try discriminate; reflexivity. Qed.

Lemma map_indexed_map {A B C : Type} (f : nat -> B -> C) (g : A -> B) (k : nat)
    (l : list A) :
  map_indexed f k (map g l) = map_indexed (fun i x => f i (g x)) k l.
Proof.
  revert k. induction l as [|x l IH]; intros k; simpl; [reflexivity|].
  rewrite IH. reflexivity.
Qed.

Lemma in_map_indexed {A B : Type} (f : nat -> A -> B) (k : nat) (l : list A) (y : B) :
  In y (map_indexed f k l) -> exists i x, In x l /\ y = f i x.
Proof.
  revert k. induction l as [|x l IH]; intros k; simpl; [contradiction|].
  intros [<-|H].
  - exists k, x. split; [left; reflexivity|reflexivity].
  - destruct (IH _ H) as [i [x' [Hin ->]]]. exists i, x'. split; [right; exact Hin|reflexivity].
Qed.

(** C1.  A freshly added item has [price = quantity * unit_price] and
    [total_price = price]; after [updateItem] has set the quantity or the
    unit price of the items with a given id, these items carry the new value
    and again have [price = quantity * unit_price] and [total_price = price],
    while the items with another id are those of before; and the records
    that [createQuotation] stores for the submitted items of a form have
    [price = quantity * unit_price] and [total_price = price] whenever the
    form items have. *)
Theorem item_totals_invariant :
  (forall uuid, item_totals_ok (newItem uuid)) /\
  (forall uuid items, addItem uuid items = (items ++ [newItem uuid])%list) /\
  (forall id u items item',
     recalculates u = true ->
     In item' (updateItem id u items) ->
     (QuotationItem.id item' = id ->
      item_totals_ok item' /\
      (forall v, u = set_quantity v -> QuotationItem.quantity item' = v) /\
      (forall v, u = set_unit_price v -> QuotationItem.unit_price item' = v)) /\
     (QuotationItem.id item' <> id -> In item' items)) /\
  (forall id u items,
     recalculates u = true ->
     Forall item_totals_ok items -> Forall item_totals_ok (updateItem id u items)) /\
  (forall quotation items uuid now s r,
     Forall item_totals_ok items ->
     In r (quotation_items_json
             (snd (createQuotation quotation (submitted_items items) uuid now s))) ->
     In r (quotation_items_json s) \/
     (QuotationItemRecord.price r
      = QuotationItemRecord.quantity r * QuotationItemRecord.unit_price r /\
      QuotationItemRecord.total_price r = QuotationItemRecord.price r)).
Proof.
  split; [|split; [|split; [|split]]].
  - intros uuid. unfold item_totals_ok, newItem. simpl. split; reflexivity.
  - reflexivity.
  - intros id u items item' Hu Hin.
    unfold updateItem in Hin. apply in_map_iff in Hin.
    destruct Hin as [item [Heq Hin]]. rewrite Hu in Heq.
    destruct (String.eqb_spec (QuotationItem.id item) id) as [E|E]; simpl in Heq.
    + subst item'. split.
      * intros _. split; [apply recalculate_ok|].
        split; intros v Hv; subst u; destruct item; reflexivity.
      * intros Hne. exfalso. apply Hne.
        unfold recalculate. simpl. rewrite assign_field_id by assumption. exact E.
    + subst item'. split; [intros; contradiction | intros _; exact Hin].
  - intros id u items Hu Hall. unfold updateItem. rewrite Hu.
    induction Hall as [|x l Hx Hl IH]; simpl; constructor; try assumption.
    destruct (String.eqb (QuotationItem.id x) id); simpl;
      [apply recalculate_ok | assumption].
  - intros quotation items uuid now s r Hall Hr. simpl in Hr.
    apply in_app_or in Hr. destruct Hr as [Hr|Hr]; [left; exact Hr|right].
    rewrite Forall_forall in Hall.
    unfold submitted_items in Hr. rewrite map_indexed_map in Hr.
    apply in_map_indexed in Hr. destruct Hr as [k [item [Hin ->]]].
    simpl. exact (Hall item Hin).
Qed.

Lemma item_totals_invariant_witness :
  recalculates (set_quantity 4) = true /\
  In (QuotationItem.mk "i2" "item" "" 4 None 50 200 200)
     (updateItem "i2" (set_quantity 4) sample_form_items) /\
  item_totals_ok (QuotationItem.mk "i2" "item" "" 4 None 50 200 200).
Proof.
  split; [reflexivity|].
  assert (Hin : In (QuotationItem.mk "i2" "item" "" 4 None 50 200 200)
                   (updateItem "i2" (set_quantity 4) sample_form_items)).
  { simpl. right. left. reflexivity. }
  split; [exact Hin|].
  destruct item_totals_invariant as [_ [_ [H _]]].
  exact (proj1 (proj1 (H "i2" (set_quantity 4) sample_form_items _ eq_refl Hin) eq_refl)).
Defined.

(** ** Net total and discount *)

Lemma fold_left_add_shift {A : Type} (f : A -> Z) (l : list A) (a : Z) :
  fold_left (fun sum x => sum + f x) l a = a + fold_left (fun sum x => sum + f x) l 0.
Proof.
  revert a. induction l as [|x l IH]; intros a; simpl; [lia|].
  rewrite (IH (a + f x)), (IH (f x)). lia.
Qed.

Lemma fold_left_add_right {A : Type} (f : A -> Z) (l : list A) :
  fold_left (fun sum x => sum + f x) l 0 = fold_right (fun x acc => f x + acc) 0 l.
Proof.
  induction l as [|x l IH]; simpl; [reflexivity|].
  rewrite fold_left_add_shift, IH. lia.
Qed.

Lemma subtotal_items_sum (q : QuotationWithItems.t) :
  ViewQuotation.subtotal q = items_sum (QuotationWithItems.quotation_items q).
Proof. unfold ViewQuotation.subtotal, items_sum. apply fold_left_add_right. Qed.

(** The new-quotation form and the dashboard subtract the discount as a flat
    amount. *)
Lemma finalTotal_flat (items : list QuotationItem.t) (discount : Z) :
  NewQuotation.finalTotal items discount
  = fold_right (fun item acc => QuotationItem.total_price item + acc) 0 items - discount.
Proof.
  unfold NewQuotation.finalTotal, NewQuotation.total.
  rewrite fold_left_add_right. reflexivity.
Qed.

(** C3, the failing case.  For the items with totals {200, 50, 60} and a
    discount of 10 the new-quotation form and the dashboard give the net total
    300 = 310 - 10, whereas the quotation view and the edit form take the
    discount as a percentage of the subtotal and give 279 = 310 - 31. *)
Theorem discount_flat_versus_percentage :
  NewQuotation.finalTotal sample_form_items 10 = 300 /\
  net_total (sample_quotation iqd iqd draft) = 300 /\
  ViewQuotation.subtotal (sample_quotation iqd iqd draft) = 310 /\
  (ViewQuotation.discountAmount (sample_quotation iqd iqd draft) == 31)%Q /\
  (ViewQuotation.total (sample_quotation iqd iqd draft) == 279)%Q /\
  ~ (ViewQuotation.total (sample_quotation iqd iqd draft) == 300)%Q /\
  (EditQuotation.finalTotal sample_form_items 10 == 279)%Q.
Proof.
  repeat split; try reflexivity.
  intros H. vm_compute in H. discriminate.
Qed.

(** ** Dashboard profit *)




Lemma getLatestExchangeRate_empty (getTime : string -> option Z) (s : Store) :
  exchange_rates_json s = [] -> getLatestExchangeRate getTime s = determined None.
Proof. intros He. unfold getLatestExchangeRate. rewrite He. reflexivity. Qed.







(** ** Report aggregation *)

Lemma table_get_set_same (k : string) (v : TypeStats) (t : StatsTable) :
  table_get k (table_set k v t) = Some v.
Proof.
  induction t as [|[k' v'] t IH]; simpl.
  - rewrite String.eqb_refl. reflexivity.
  - destruct (String.eqb k' k) eqn:E; simpl.
    + rewrite String.eqb_refl. reflexivity.
    + rewrite E. exact IH.
Qed.









Lemma table_zero_set (k : string) (n : string) (t : StatsTable) :
  table_zero t -> table_zero (table_set k (empty_stats n) t).
Proof.
  intros Hz. induction Hz as [|[k' v'] t Hv Ht IH]; simpl.
  - constructor; [split; reflexivity|constructor].
  - destruct (String.eqb k' k); constructor; try assumption. split; reflexivity.
Qed.


Lemma initial_typeStats_zero (itemTypes : list ItemType) :
  table_zero (ReportsIndex.initial_typeStats itemTypes).
Proof.
  unfold ReportsIndex.initial_typeStats. apply table_zero_set.
  assert (H : forall t, table_zero t ->
              table_zero (fold_left (fun t type => table_set (Lookup.id type)
                                                     (empty_stats (Lookup.name type)) t)
                                    itemTypes t)).
  { induction itemTypes as [|ty l IH]; intros t Hz; simpl; [assumption|].
    apply IH. apply table_zero_set. exact Hz. }
  apply H. constructor.
Qed.




(** The sort, for a comparator [fun a b => key b - key a]. *)
Section SortByKey.
Context {A : Type} (key : A -> Z).

Lemma sort_insert_perm (x : A) (l : list A) :
  Permutation (sort_insert (fun a b => key b - key a) x l) (x :: l).
Proof.
  induction l as [|y l IH]; simpl; [apply Permutation_refl|].
  destruct (key y - key x >? 0).
  - apply perm_trans with (y :: x :: l); [now apply perm_skip | apply perm_swap].
  - apply Permutation_refl.
Qed.

Lemma sort_perm (l : list A) : Permutation (sort (fun a b => key b - key a) l) l.
Proof.
  induction l as [|x l IH]; simpl; [apply perm_nil|].
  apply perm_trans with (x :: sort (fun a b => key b - key a) l);
    [apply sort_insert_perm | now apply perm_skip].
Qed.

Lemma sort_insert_sorted (x : A) (l : list A) :
  StronglySorted (fun a b => key a >= key b) l ->
  StronglySorted (fun a b => key a >= key b) (sort_insert (fun a b => key b - key a) x l).
Proof.
  intros Hs. induction Hs as [|y l Hl IH Hy]; simpl.
  - constructor; [constructor|constructor].
  - destruct (Z.gtb_spec (key y - key x) 0) as [Hgt|Hle].
    + constructor; [exact IH|].
      apply (Permutation_Forall (Permutation_sym (sort_insert_perm x l))).
      constructor; [lia|exact Hy].
    + constructor; [constructor; assumption|].
      constructor; [lia|].
      apply Forall_impl with (P := fun b => key y >= key b); [intros b Hb; lia|exact Hy].
Qed.

Lemma sort_sorted (l : list A) :
  StronglySorted (fun a b => key a >= key b) (sort (fun a b => key b - key a) l).
Proof.
  induction l as [|x l IH]; simpl; [constructor|].
  apply sort_insert_sorted. exact IH.
Qed.

End SortByKey.






Lemma reportData_perm (itemTypes : list ItemType) (qs : list QuotationWithItems.t) :
  Permutation (ReportsIndex.reportData itemTypes qs)
    (map ReportsIndex.to_row
         (filter ReportsIndex.non_empty
                 (typeStats (ReportsIndex.report_state itemTypes qs)))).
Proof. unfold ReportsIndex.reportData. apply (sort_perm row_totalAmount). Qed.




(** ** Strings and decimal numerals *)

Lemma string_length_app (a b : string) :
  String.length (a ++ b) = (String.length a + String.length b)%nat.
Proof. induction a as [|c a IH]; simpl; [reflexivity|]. rewrite IH. reflexivity. Qed.

Lemma prefix_app (p s : string) : String.prefix p (p ++ s) = true.
Proof.
  induction p as [|c p IH]; simpl.
  - destruct s; reflexivity.
  - destruct (ascii_dec c c) as [_|N]; [exact IH|contradiction].
Qed.

Lemma string_drop_app (p s : string) : string_drop (String.length p) (p ++ s) = s.
Proof. induction p as [|c p IH]; simpl; [reflexivity|exact IH]. Qed.

Lemma replace_unfold (pat rep s : string) :
  replace pat rep s =
  if String.prefix pat s then (rep ++ string_drop (String.length pat) s)%string
  else match s with
       | EmptyString => EmptyString
       | String c r => String c (replace pat rep r)
       end.
Proof. destruct s; reflexivity. Qed.

Lemma replace_prefix (p s : string) : replace p "" (p ++ s) = s.
Proof. rewrite replace_unfold, prefix_app, string_drop_app. reflexivity. Qed.

Lemma digit_char_spec (d : Z) :
  0 <= d < 10 -> is_digit (digit_char d) = true /\ digit_value (digit_char d) = d.
Proof.
  intros H.
  assert (C : d = 0 \/ d = 1 \/ d = 2 \/ d = 3 \/ d = 4 \/ d = 5 \/ d = 6 \/ d = 7
              \/ d = 8 \/ d = 9) by lia.
  repeat (destruct C as [C|C]; [subst d; split; reflexivity|]).
  subst d; split; reflexivity.
Qed.

Lemma mod10_digit (n : Z) : 0 <= n mod 10 < 10.
Proof. apply Z.mod_pos_bound. lia. Qed.

Lemma digits_of_all_digits (f : nat) (n : Z) (acc : string) :
  all_digits acc = true -> all_digits (digits_of f n acc) = true.
Proof.
  revert n acc. induction f as [|f IH]; intros n acc Hacc; simpl; [exact Hacc|].
  assert (Hacc' : all_digits (String (digit_char (n mod 10)) acc) = true).
  { simpl. rewrite (proj1 (digit_char_spec _ (mod10_digit n))). exact Hacc. }
  destruct (n / 10 =? 0); [exact Hacc'|]. apply IH. exact Hacc'.
Qed.

Lemma digits_of_length_ge (f : nat) (n : Z) (acc : string) :
  (String.length acc <= String.length (digits_of f n acc))%nat.
Proof.
  revert n acc. induction f as [|f IH]; intros n acc; simpl; [lia|].
  destruct (n / 10 =? 0); simpl; [lia|].
  pose proof (IH (n / 10) (String (digit_char (n mod 10)) acc)) as H. simpl in H. lia.
Qed.

Lemma digits_of_nonempty (f : nat) (n : Z) (acc : string) :
  (1 <= String.length (digits_of (S f) n acc))%nat.
Proof.
  simpl. destruct (n / 10 =? 0); simpl; [lia|].
  pose proof (digits_of_length_ge f (n / 10) (String (digit_char (n mod 10)) acc)) as H.
  simpl in H. lia.
Qed.

Lemma digits_of_length_le (f : nat) (n : Z) (acc : string) (k : nat) :
  (1 <= k)%nat -> 0 <= n < 10 ^ Z.of_nat k ->
  (String.length (digits_of f n acc) <= k + String.length acc)%nat.
Proof.
  revert n acc k. induction f as [|f IH]; intros n acc k Hk Hn; simpl; [lia|].
  destruct (Z.eqb_spec (n / 10) 0) as [E|E]; simpl; [lia|].
  destruct k as [|[|k]]; [lia| |].
  - exfalso. apply E. apply Z.div_small. simpl in Hn. lia.
  - assert (Hd : 0 <= n / 10 < 10 ^ Z.of_nat (S k)).
    { split; [apply Z.div_pos; lia|].
      apply Z.div_lt_upper_bound; [lia|].
      replace (Z.of_nat (S (S k))) with (Z.succ (Z.of_nat (S k))) in Hn by lia.
      rewrite Z.pow_succ_r in Hn by lia. lia. }
    pose proof (IH (n / 10) (String (digit_char (n mod 10)) acc) (S k) ltac:(lia) Hd) as H.
    simpl in H. simpl. lia.
Qed.

Lemma digits_value_cons (a : Z) (c : ascii) (r : string) :
  digits_value a (String c r)
  = if is_digit c then digits_value (10 * a + digit_value c) r else a.
Proof. reflexivity. Qed.

Lemma digits_value_digits_of (f : nat) (n : Z) (acc : string) :
  0 <= n < 10 ^ Z.of_nat f ->
  exists e, 0 <= e /\
    forall a, digits_value a (digits_of f n acc) = digits_value (a * 10 ^ e + n) acc.
Proof.
  revert n acc. induction f as [|f IH]; intros n acc Hn.
  - exists 0. split; [lia|]. intros a. simpl in *. f_equal. lia.
  - simpl digits_of.
    destruct (digit_char_spec _ (mod10_digit n)) as [Hd Hv].
    pose proof (Z.div_mod n 10 ltac:(lia)) as Hdm.
    destruct (Z.eqb_spec (n / 10) 0) as [E|E].
    + exists 1. split; [lia|]. intros a. rewrite digits_value_cons, Hd, Hv.
      f_equal. rewrite Z.pow_1_r. lia.
    + assert (Hq : 0 <= n / 10 < 10 ^ Z.of_nat f).
      { split; [apply Z.div_pos; lia|].
        apply Z.div_lt_upper_bound; [lia|].
        replace (Z.of_nat (S f)) with (Z.succ (Z.of_nat f)) in Hn by lia.
        rewrite Z.pow_succ_r in Hn by lia. lia. }
      destruct (IH (n / 10) (String (digit_char (n mod 10)) acc) Hq) as [e [He Hval]].
      exists (Z.succ e). split; [lia|]. intros a. rewrite Hval.
      rewrite digits_value_cons, Hd, Hv. f_equal.
      rewrite Z.pow_succ_r by lia. lia.
Qed.

Lemma digits_fuel_enough (n : Z) : 0 <= n -> n < 10 ^ Z.of_nat (digits_fuel n).
Proof.
  intros Hn. unfold digits_fuel.
  destruct (Z.eq_dec n 0) as [->|Hz]; [reflexivity|].
  pose proof (Z.log2_spec n ltac:(lia)) as [_ Hlt].
  pose proof (Z.log2_nonneg n) as Hl.
  replace (Z.of_nat (S (Z.to_nat (Z.log2 n)))) with (Z.succ (Z.log2 n)) by lia.
  pose proof (Z.pow_le_mono_l 2 10 (Z.succ (Z.log2 n)) ltac:(lia)). lia.
Qed.

Lemma to_double_safe (n : Z) : Z.abs n <= 2 ^ 53 -> to_double n = finite n.
Proof.
  intros H. unfold to_double.
  destruct (Z.ltb_spec (Z.abs n) (2 ^ 53)) as [_|Hge]; [reflexivity|].
  change (2 ^ 53) with 9007199254740992 in H, Hge.
  assert (C : n = 9007199254740992 \/ n = -9007199254740992) by lia.
  destruct C as [-> | ->]; reflexivity.
Qed.

Lemma Number_toString_safe (n : Z) :
  0 <= n <= 2 ^ 53 -> Number_toString (finite n) = decimal n.
Proof.
  intros [H0 H1]. unfold Number_toString, Number_toString_positive, shortest_decimal.
  destruct (Z.ltb_spec n 0) as [Hneg|_]; [lia|].
  destruct (Z.leb_spec n (2 ^ 53)) as [_|Hgt]; [|lia].
  change (2 ^ 53) with 9007199254740992 in H1.
  destruct (Z.ltb_spec n (10 ^ 21)) as [_|Hge]; [reflexivity|].
  change (10 ^ 21) with 1000000000000000000000 in Hge. lia.
Qed.

Lemma parseInt_all_digits (s : string) :
  all_digits s = true -> (1 <= String.length s)%nat ->
  parseInt s = to_double (digits_value 0 s).
Proof.
  destruct s as [|c r]; simpl; intros Hd Hl; [lia|].
  apply andb_prop in Hd. destruct Hd as [Hc _].
  unfold parseInt.
  assert (Hs : is_space c = false).
  { destruct c as [[] [] [] [] [] [] [] []]; try discriminate Hc; reflexivity. }
  simpl trimStart. rewrite Hs.
  destruct c as [[] [] [] [] [] [] [] []]; try discriminate Hc; reflexivity.
Qed.

Lemma repeat_zero_digits (k : nat) (s : string) :
  all_digits s = true ->
  all_digits (repeat_string k "0" ++ s) = true /\
  digits_value 0 (repeat_string k "0" ++ s) = digits_value 0 s /\
  String.length (repeat_string k "0" ++ s) = (k + String.length s)%nat.
Proof.
  intros Hs. induction k as [|k [IH1 [IH2 IH3]]]; simpl.
  - repeat split. exact Hs.
  - repeat split; [exact IH1 | exact IH2 | rewrite IH3; reflexivity].
Qed.

Lemma decimal_digits (n : Z) :
  0 <= n ->
  all_digits (decimal n) = true /\
  (1 <= String.length (decimal n))%nat /\
  digits_value 0 (decimal n) = n.
Proof.
  intros Hn. unfold decimal.
  split; [apply digits_of_all_digits; reflexivity|].
  split; [apply digits_of_nonempty|].
  destruct (digits_value_digits_of (digits_fuel n) n ""
              (conj Hn (digits_fuel_enough n Hn))) as [e [_ H]].
  rewrite H. simpl. lia.
Qed.

(** [String(n).padStart(4, "0")] for an integer [n] from 0 to 2^53. *)
Lemma padded_number (n : Z) :
  0 <= n <= 2 ^ 53 ->
  let digits := padStart 4 "0" (Number_toString (finite n)) in
  all_digits digits = true /\
  (4 <= String.length digits)%nat /\
  (n < 10000 -> String.length digits = 4%nat) /\
  digits_value 0 digits = n /\
  parseInt digits = finite n.
Proof.
  intros Hn digits. subst digits. rewrite (Number_toString_safe n Hn).
  destruct Hn as [Hn Hb].
  destruct (decimal_digits n Hn) as [Hall [Hlen Hval]].
  set (s := decimal n) in *.
  unfold padStart.
  destruct (repeat_zero_digits (4 - String.length s) s Hall) as [P1 [P2 P3]].
  assert (P4 : (4 <= String.length (repeat_string (4 - String.length s) "0" ++ s))%nat)
    by (rewrite P3; lia).
  split; [exact P1|]. split; [exact P4|]. split; [|split].
  - intros Hsmall. rewrite P3.
    pose proof (digits_of_length_le (digits_fuel n) n "" 4 ltac:(lia)
                  (conj Hn Hsmall)) as H.
    fold (decimal n) in H. fold s in H. simpl in H. lia.
  - rewrite P2. exact Hval.
  - rewrite parseInt_all_digits by (try assumption; lia). rewrite P2, Hval.
    apply to_double_safe. lia.
Qed.

(** ** Quotation numbers *)

Lemma maxNum_step_suffix (bound : Z) (p : string) (a : Z) (q : Quotation.t) :
  startsWith (Quotation.quotation_number q) p = true ->
  suffix_at_most bound p q ->
  maxNum_step p (finite a) q
  = finite match quotation_suffix p (Quotation.quotation_number q) with
           | finite m => Z.max a m
           | _ => a
           end.
Proof.
  intros Hp. unfold maxNum_step, suffix_at_most, quotation_suffix. rewrite Hp.
  destruct (parseInt (replace p "" (Quotation.quotation_number q))) as [|m|neg];
    simpl; intros Hb; [reflexivity| |contradiction].
  destruct (Z.gtb_spec m a); f_equal; lia.
Qed.

Lemma fold_max_shift (l : list Z) (a m : Z) :
  fold_right Z.max (Z.max a m) l = Z.max m (fold_right Z.max a l).
Proof. induction l as [|x l IH]; simpl; [lia|]. rewrite IH. lia. Qed.

Lemma fold_maxNum_step (bound : Z) (p : string) (qs : list Quotation.t) (a : Z) :
  Forall (suffix_at_most bound p) qs ->
  fold_left (maxNum_step p) (yearQuotations p qs) (finite a)
  = finite (fold_right Z.max a (suffixes p qs)).
Proof.
  intros Hb. revert a. induction Hb as [|q qs Hq Hqs IH]; intros a; simpl; [reflexivity|].
  destruct (startsWith (Quotation.quotation_number q) p) eqn:Hp.
  - simpl. rewrite (maxNum_step_suffix bound p a q Hp Hq).
    unfold suffix_at_most in Hq.
    destruct (quotation_suffix p (Quotation.quotation_number q)) as [|m|neg];
      [apply IH| |contradiction].
    rewrite IH. simpl. f_equal. apply fold_max_shift.
  - unfold quotation_suffix. rewrite Hp. apply IH.
Qed.

Lemma maxNum_max_suffix (bound : Z) (p : string) (qs : list Quotation.t) :
  Forall (suffix_at_most bound p) qs ->
  maxNum p qs = finite (max_suffix (suffixes p qs)).
Proof. intros Hb. unfold maxNum, max_suffix. now apply (fold_maxNum_step bound). Qed.

Lemma max_suffix_bounds (l : list Z) :
  0 <= max_suffix l /\ (forall m, In m l -> m <= max_suffix l) /\
  (max_suffix l = 0 \/ In (max_suffix l) l).
Proof.
  unfold max_suffix. induction l as [|x l [IH1 [IH2 IH3]]]; simpl.
  - split; [lia|]. split; [intros m []|left; reflexivity].
  - split; [lia|]. split.
    + intros m [<-|Hm]; [lia|]. specialize (IH2 m Hm). lia.
    + destruct (Z.max_spec x (fold_right Z.max 0 l)) as [[_ ->]|[_ ->]].
      * destruct IH3 as [H|H]; [left; exact H|right; right; exact H].
      * right. left. reflexivity.
Qed.

Lemma suffixes_In (p : string) (qs : list Quotation.t) (q : Quotation.t) (m : Z) :
  In q qs -> quotation_suffix p (Quotation.quotation_number q) = finite m ->
  In m (suffixes p qs).
Proof.
  induction qs as [|q' qs IH]; simpl; intros Hin Hs; [contradiction|].
  destruct Hin as [->|Hin].
  - rewrite Hs. left. reflexivity.
  - destruct (quotation_suffix p (Quotation.quotation_number q')); [|right|]; now apply IH.
Qed.

Lemma suffixes_from_store (p : string) (qs : list Quotation.t) (m : Z) :
  In m (suffixes p qs) ->
  exists q, In q qs /\ quotation_suffix p (Quotation.quotation_number q) = finite m.
Proof.
  induction qs as [|q' qs IH]; simpl; intros Hin; [contradiction|].
  destruct (quotation_suffix p (Quotation.quotation_number q')) as [|m'|neg] eqn:E.
  - destruct (IH Hin) as [q [Hq Hs]]. exists q. split; [right; exact Hq|exact Hs].
  - destruct Hin as [<-|Hin].
    + exists q'. split; [left; reflexivity|exact E].
    + destruct (IH Hin) as [q [Hq Hs]]. exists q. split; [right; exact Hq|exact Hs].
  - destruct (IH Hin) as [q [Hq Hs]]. exists q. split; [right; exact Hq|exact Hs].
Qed.

Lemma max_suffix_at_most (bound : Z) (p : string) (qs : list Quotation.t) :
  0 <= bound -> Forall (suffix_at_most bound p) qs ->
  max_suffix (suffixes p qs) <= bound.
Proof.
  intros H0 Hb.
  destruct (max_suffix_bounds (suffixes p qs)) as [_ [_ [E|Hin]]]; [lia|].
  destruct (suffixes_from_store _ _ _ Hin) as [q [Hq Hs]].
  pose proof (proj1 (Forall_forall _ _) Hb q Hq) as Hm.
  unfold suffix_at_most in Hm. rewrite Hs in Hm. exact Hm.
Qed.

(** The number generated when every stored suffix of the year is a safe
    integer. *)
Lemma generated_number (year : Z) (s : Store) :
  Forall (suffix_at_most MAX_SAFE_INTEGER (quotation_prefix year)) (quotations_json s) ->
  let next := max_suffix (suffixes (quotation_prefix year) (quotations_json s)) + 1 in
  0 <= next <= 2 ^ 53 /\
  generateQuotationNumber year s
  = (quotation_prefix year ++ padStart 4 "0" (Number_toString (finite next)))%string.
Proof.
  intros Hb next.
  assert (H0 : 0 <= MAX_SAFE_INTEGER) by (unfold MAX_SAFE_INTEGER; lia).
  pose proof (max_suffix_at_most _ _ _ H0 Hb) as Hm.
  destruct (max_suffix_bounds (suffixes (quotation_prefix year) (quotations_json s)))
    as [B1 _].
  unfold MAX_SAFE_INTEGER in Hm. change (2 ^ 53) with 9007199254740992.
  split; [unfold next; lia|].
  unfold generateQuotationNumber. rewrite (maxNum_max_suffix _ _ _ Hb).
  unfold double_add. rewrite to_double_safe; [reflexivity|].
  change (2 ^ 53) with 9007199254740992. lia.
Qed.

Lemma generated_suffix (year : Z) (s : Store) :
  Forall (suffix_at_most MAX_SAFE_INTEGER (quotation_prefix year)) (quotations_json s) ->
  quotation_suffix (quotation_prefix year) (generateQuotationNumber year s)
  = finite (max_suffix (suffixes (quotation_prefix year) (quotations_json s)) + 1).
Proof.
  intros Hb. destruct (generated_number year s Hb) as [Hn Hgen].
  destruct (padded_number _ Hn) as [_ [_ [_ [_ P]]]].
  rewrite Hgen. unfold quotation_suffix, startsWith.
  rewrite prefix_app, replace_prefix. exact P.
Qed.

(** C2.  When every numeric suffix among the stored quotation numbers of the
    year is at most 2^53 - 1, [generateQuotationNumber] returns the prefix
    [QT-<year>-] followed by decimal digits, at least four of them (exactly
    four up to 9999, the number being padded with zeros on the left); read
    back as a number the suffix is one more than the greatest of 0 and the
    numeric suffixes of the stored quotation numbers that carry the year's
    prefix, so [1] when there is none; that greatest suffix is the suffix of
    a stored quotation unless it is 0; and the new number is strictly greater
    than the numeric suffix of every stored quotation number of the year. *)
Theorem generateQuotationNumber_next (year : Z) (s : Store) :
  let prefix := quotation_prefix year in
  let previous := suffixes prefix (quotations_json s) in
  let next := max_suffix previous + 1 in
  Forall (suffix_at_most MAX_SAFE_INTEGER prefix) (quotations_json s) ->
  exists digits,
    generateQuotationNumber year s = (prefix ++ digits)%string /\
    prefix = ("QT-" ++ Number_toString (finite year) ++ "-")%string /\
    all_digits digits = true /\
    (4 <= String.length digits)%nat /\
    (next <= 9999 -> String.length digits = 4%nat) /\
    digits_value 0 digits = next /\
    quotation_suffix prefix (generateQuotationNumber year s) = finite next /\
    (previous = [] -> next = 1) /\
    (max_suffix previous = 0 \/
     exists q, In q (quotations_json s) /\
               quotation_suffix prefix (Quotation.quotation_number q)
               = finite (max_suffix previous)) /\
    (forall q m, In q (quotations_json s) ->
                 quotation_suffix prefix (Quotation.quotation_number q) = finite m ->
                 m < next).
Proof.
  intros prefix previous next Hb.
  destruct (max_suffix_bounds previous) as [B1 [B2 B3]].
  destruct (generated_number year s Hb) as [Hnext Hgen].
  fold prefix in Hgen. fold previous in Hgen, Hnext. fold next in Hgen, Hnext.
  destruct (padded_number next Hnext) as [P1 [P2 [P3 [P4 P5]]]].
  exists (padStart 4 "0" (Number_toString (finite next))).
  split; [exact Hgen|]. split; [reflexivity|]. split; [exact P1|].
  split; [exact P2|]. split; [intros H; apply P3; lia|]. split; [exact P4|].
  split; [|split; [|split]].
  - exact (generated_suffix year s Hb).
  - intros E. unfold next. rewrite E. reflexivity.
  - destruct B3 as [H|H]; [left; exact H|right].
    apply suffixes_from_store. exact H.
  - intros q m Hq Hs. pose proof (B2 m (suffixes_In _ _ _ _ Hq Hs)). unfold next. lia.
Qed.

Lemma generateQuotationNumber_next_witness :
  Forall (suffix_at_most MAX_SAFE_INTEGER (quotation_prefix 2024))
         (quotations_json numbered_store) /\
  generateQuotationNumber 2024 numbered_store = "QT-2024-0013" /\
  suffixes (quotation_prefix 2024) (quotations_json numbered_store) = [7; 12] /\
  quotation_suffix (quotation_prefix 2024) (generateQuotationNumber 2024 numbered_store)
  = finite 13.
Proof.
  assert (Hb : Forall (suffix_at_most MAX_SAFE_INTEGER (quotation_prefix 2024))
                      (quotations_json numbered_store)).
  { repeat constructor; vm_compute; try discriminate; exact I. }
  split; [exact Hb|]. split; [reflexivity|]. split; [reflexivity|].
  destruct (generateQuotationNumber_next 2024 numbered_store Hb)
    as [digits [_ [_ [_ [_ [_ [_ [H _]]]]]]]].
  exact H.
Defined.

(** C2, the claim as stated fails: with the suffix 2^53 stored, the counter
    2^53 + 1 is rounded back to 2^53 and the number returned is the stored
    one again, neither one more than the maximum nor greater than it; and
    with a negative suffix as the only one stored, the number returned is
    0001 and not one more than that suffix. *)
Theorem generateQuotationNumber_repeats_number :
  quotation_suffix (quotation_prefix 2024) "QT-2024-9007199254740992"
  = finite 9007199254740992 /\
  generateQuotationNumber 2024 store_at_2_53 = "QT-2024-9007199254740992" /\
  (exists q, In q (quotations_json store_at_2_53) /\
             Quotation.quotation_number q = generateQuotationNumber 2024 store_at_2_53) /\
  suffixes (quotation_prefix 2024) (quotations_json store_negative_suffix) = [-5] /\
  generateQuotationNumber 2024 store_negative_suffix = "QT-2024-0001".
Proof.
  split; [vm_compute; reflexivity|]. split; [vm_compute; reflexivity|].
  split; [|split; vm_compute; reflexivity].
  exists (numbered "QT-2024-9007199254740992"). split; [left; reflexivity|].
  vm_compute. reflexivity.
Qed.

(** * Further properties of the storage service *)

(** ** Array helpers *)

Lemma findIndex_none {A : Type} (p : A -> bool) (l : list A) :
  findIndex p l = None <-> forall x, In x l -> p x = false.
Proof.
  induction l as [|y l IH]; simpl.
  - split; [intros _ x []|reflexivity].
  - destruct (p y) eqn:E.
    + split; [discriminate|]. intros H. rewrite (H y (or_introl eq_refl)) in E. discriminate.
    + destruct (findIndex p l) as [i|] eqn:F; simpl.
      * split; [discriminate|]. intros H.
        assert (Hn : Some i = None) by (apply IH; intros x Hx; apply H; now right).
        discriminate.
      * split; [|reflexivity]. intros _ x [<-|Hx]; [exact E|].
        apply (proj1 IH eq_refl). exact Hx.
Qed.

Lemma findIndex_some {A : Type} (p : A -> bool) (l : list A) (i : nat) :
  findIndex p l = Some i ->
  exists x, nth_error l i = Some x /\ p x = true /\ find p l = Some x.
Proof.
  revert i. induction l as [|y l IH]; simpl; intros i H; [discriminate|].
  destruct (p y) eqn:E.
  - injection H as <-. exists y. repeat split; assumption.
  - destruct (findIndex p l) as [j|]; simpl in H; [|discriminate].
    injection H as <-. destruct (IH j eq_refl) as [x [H1 [H2 H3]]].
    exists x. repeat split; assumption.
Qed.

Lemma find_set_nth {A : Type} (p : A -> bool) (l : list A) (i : nat) (x : A) :
  findIndex p l = Some i -> p x = true -> find p (set_nth i x l) = Some x.
Proof.
  revert i. induction l as [|y l IH]; simpl; intros i H Hx; [discriminate|].
  destruct (p y) eqn:E.
  - injection H as <-. simpl. rewrite Hx. reflexivity.
  - destruct (findIndex p l) as [j|]; simpl in H; [|discriminate].
    injection H as <-. simpl. rewrite E. now apply IH.
Qed.

Lemma map_set_nth {A B : Type} (g : A -> B) (l : list A) (i : nat) (x old : A) :
  nth_error l i = Some old -> g x = g old -> map g (set_nth i x l) = map g l.
Proof.
  revert i. induction l as [|y l IH]; intros i H Hg; [destruct i; discriminate|].
  destruct i as [|i]; simpl in *.
  - injection H as ->. rewrite Hg. reflexivity.
  - f_equal. now apply IH.
Qed.

Lemma set_nth_others {A : Type} (l : list A) (i : nat) (x old y : A) :
  nth_error l i = Some old -> In y (set_nth i x l) -> y = x \/ In y l.
Proof.
  revert i. induction l as [|z l IH]; intros i H Hy; [destruct i; discriminate|].
  destruct i as [|i]; simpl in *.
  - destruct Hy as [<-|Hy]; [left; reflexivity|right; right; exact Hy].
  - destruct Hy as [<-|Hy]; [right; left; reflexivity|].
    destruct (IH i H Hy) as [E|Hin]; [left; exact E|right; right; exact Hin].
Qed.

Lemma find_map_join {A B : Type} (p : A -> bool) (q : B -> bool) (f : A -> B)
    (l : list A) :
  (forall x, q (f x) = p x) -> find q (map f l) = option_map f (find p l).
Proof.
  intros H. induction l as [|x l IH]; simpl; [reflexivity|].
  rewrite H. destruct (p x); [reflexivity|exact IH].
Qed.

Lemma filter_app_split {A : Type} (p : A -> bool) (l1 l2 : list A) :
  (forall x, In x l1 -> p x = false) -> (forall x, In x l2 -> p x = true) ->
  filter p (l1 ++ l2) = l2.
Proof.
  intros H1 H2. rewrite filter_app.
  assert (E1 : filter p l1 = []).
  { induction l1 as [|x l IH]; simpl; [reflexivity|].
    rewrite (H1 x (or_introl eq_refl)). apply IH. intros y Hy. apply H1. now right. }
  rewrite E1. simpl. apply filter_id_iff. exact H2.
Qed.

Lemma filter_filter_negb {A : Type} (p : A -> bool) (l : list A) :
  filter p (filter (fun x => negb (p x)) l) = [].
Proof.
  induction l as [|x l IH]; simpl; [reflexivity|].
  destruct (p x) eqn:E; simpl; [exact IH|]. rewrite E. exact IH.
Qed.

Lemma filter_idempotent {A : Type} (p : A -> bool) (l : list A) :
  filter p (filter p l) = filter p l.
Proof.
  apply filter_id_iff. intros x Hx. apply filter_In in Hx. tauto.
Qed.

Lemma map_of_map_indexed {A B : Type} (f : nat -> A -> B) (g : B -> A) (k : nat)
    (l : list A) :
  (forall i x, g (f i x) = x) -> map g (map_indexed f k l) = l.
Proof.
  intros H. revert k. induction l as [|x l IH]; intros k; simpl; [reflexivity|].
  rewrite H, IH. reflexivity.
Qed.

Lemma updated_items_ids (id : string) (items : list ItemFields.t) (uuid now : nat -> string) :
  (forall r, In r (updated_items id items uuid now) ->
             QuotationItemRecord.quotation_id r = id) /\
  map fields_of (updated_items id items uuid now) = items.
Proof.
  unfold updated_items. split.
  - intros r Hr. apply in_map_indexed in Hr. destruct Hr as [i [x [_ ->]]]. reflexivity.
  - apply map_of_map_indexed. intros i [n d q ty c up p tp]. reflexivity.
Qed.

(** ** Updating a quotation *)

Lemma updateQuotation_absent (id : string) (updates : QuotationUpdates.t)
    (items : option (list ItemFields.t)) (uuid now : nat -> string) (s : Store) :
  ~ In id (map Quotation.id (quotations_json s)) ->
  updateQuotation id updates items uuid now s = (None, s).
Proof.
  intros Hno. unfold updateQuotation.
  assert (F : findIndex (fun q => String.eqb (Quotation.id q) id) (quotations_json s) = None).
  { apply findIndex_none. intros q Hq.
    destruct (String.eqb_spec (Quotation.id q) id) as [E|E]; [|reflexivity].
    exfalso. apply Hno. rewrite <- E. now apply in_map. }
  rewrite F. reflexivity.
Qed.

Lemma updateQuotation_present (id : string) (updates : QuotationUpdates.t)
    (items : option (list ItemFields.t)) (uuid now : nat -> string) (s : Store) :
  In id (map Quotation.id (quotations_json s)) ->
  exists index old,
    findIndex (fun q => String.eqb (Quotation.id q) id) (quotations_json s) = Some index /\
    nth_error (quotations_json s) index = Some old /\
    Quotation.id old = id /\
    find (fun q => String.eqb (Quotation.id q) id) (quotations_json s) = Some old /\
    updateQuotation id updates items uuid now s =
    (Some (merge_quotation old updates (now 0%nat)),
     let s1 := write_quotations
                 (set_nth index (merge_quotation old updates (now 0%nat))
                          (quotations_json s)) s in
     match items with
     | None => s1
     | Some items =>
         write_quotation_items
           (items_not_of id s ++ updated_items id items uuid now) s1
     end).
Proof.
  intros Hin.
  destruct (findIndex (fun q => String.eqb (Quotation.id q) id) (quotations_json s))
    as [index|] eqn:F.
  - destruct (findIndex_some _ _ _ F) as [old [Hn [Hp Hf]]].
    exists index, old. split; [reflexivity|]. split; [exact Hn|].
    split; [now apply String.eqb_eq|]. split; [exact Hf|].
    unfold updateQuotation. rewrite F, Hn. destruct items; reflexivity.
  - exfalso. apply in_map_iff in Hin. destruct Hin as [q [Hid Hq]].
    pose proof (proj1 (findIndex_none _ _) F q Hq) as Hc. simpl in Hc.
    rewrite Hid, String.eqb_refl in Hc. discriminate.
Qed.

(** X1.  [updateQuotation] on an id that no stored quotation has returns
    [null] and leaves the store as it is.  On an id of the store it returns
    the first quotation of that id merged with the updates: the id and the
    creation time are kept whatever the updates say, [updated_at] is the
    current time, the stored quotations keep their number, order and ids,
    and no collection other than the quotations and (when items are given)
    the items is written. *)
Theorem updateQuotation_outcome (id : string) (updates : QuotationUpdates.t)
    (items : option (list ItemFields.t)) (uuid now : nat -> string) (s : Store) :
  let r := updateQuotation id updates items uuid now s in
  (~ In id (map Quotation.id (quotations_json s)) -> r = (None, s)) /\
  (In id (map Quotation.id (quotations_json s)) ->
   exists old updated,
     find (fun q => String.eqb (Quotation.id q) id) (quotations_json s) = Some old /\
     fst r = Some updated /\
     updated = merge_quotation old updates (now 0%nat) /\
     Quotation.id updated = id /\
     Quotation.created_at updated = Quotation.created_at old /\
     Quotation.updated_at updated = now 0%nat /\
     map Quotation.id (quotations_json (snd r)) = map Quotation.id (quotations_json s) /\
     (forall q, In q (quotations_json (snd r)) -> q = updated \/ In q (quotations_json s)) /\
     In updated (quotations_json (snd r)) /\
     (items = None -> quotation_items_json (snd r) = quotation_items_json s) /\
     vendors_json (snd r) = vendors_json s /\
     recipients_json (snd r) = recipients_json s /\
     categories_json (snd r) = categories_json s /\
     item_types_json (snd r) = item_types_json s /\
     exchange_rates_json (snd r) = exchange_rates_json s /\
     settings_json (snd r) = settings_json s /\
     vendor_documents_json (snd r) = vendor_documents_json s).
Proof.
  intros r. subst r. split; [apply updateQuotation_absent|].
  intros Hin.
  destruct (updateQuotation_present id updates items uuid now s Hin)
    as [index [old [F [Hn [Hid [Hf ->]]]]]].
  exists old, (merge_quotation old updates (now 0%nat)).
  assert (Hfind : find (fun q => String.eqb (Quotation.id q) id)
                       (set_nth index (merge_quotation old updates (now 0%nat))
                                (quotations_json s))
                  = Some (merge_quotation old updates (now 0%nat))).
  { apply find_set_nth; [exact F|]. simpl. rewrite Hid. apply String.eqb_refl. }
  split; [exact Hf|]. split; [reflexivity|]. split; [reflexivity|].
  split; [exact Hid|]. split; [reflexivity|]. split; [reflexivity|].
  destruct items as [l|]; simpl.
  - split; [apply (map_set_nth Quotation.id _ _ _ old Hn); reflexivity|].
    split; [intros q Hq; exact (set_nth_others _ _ _ old _ Hn Hq)|].
    split; [apply find_some in Hfind; tauto|].
    split; [discriminate|]. repeat split; reflexivity.
  - split; [apply (map_set_nth Quotation.id _ _ _ old Hn); reflexivity|].
    split; [intros q Hq; exact (set_nth_others _ _ _ old _ Hn Hq)|].
    split; [apply find_some in Hfind; tauto|].
    repeat split; reflexivity.
Qed.

Lemma updateQuotation_outcome_witness :
  In "q1" (map Quotation.id (quotations_json (profit_store []))) /\
  option_map Quotation.status
    (fst (updateQuotation "q1" (status_update approved) None sample_uuid sample_now
            (profit_store [])))
  = Some approved /\
  updateQuotation "q7" (status_update approved) None sample_uuid sample_now
    (profit_store [])
  = (None, profit_store []).
Proof.
  assert (Hin : In "q1" (map Quotation.id (quotations_json (profit_store []))))
    by (left; reflexivity).
  split; [exact Hin|].
  destruct (updateQuotation_outcome "q1" (status_update approved) None sample_uuid
              sample_now (profit_store [])) as [_ H].
  destruct (H Hin) as [old [updated [Hf [Hr [Hu _]]]]].
  split.
  - rewrite Hr. simpl. rewrite Hu. simpl in Hf. injection Hf as <-. reflexivity.
  - apply (proj1 (updateQuotation_outcome "q7" (status_update approved) None sample_uuid
                    sample_now (profit_store []))).
    simpl. intros [E|[]]. discriminate.
Defined.

Lemma replaced_items_split (id : string) (l new : list QuotationItemRecord.t) :
  (forall r, In r new -> QuotationItemRecord.quotation_id r = id) ->
  filter (fun i => String.eqb (QuotationItemRecord.quotation_id i) id)
         (filter (fun i => negb (String.eqb (QuotationItemRecord.quotation_id i) id)) l
          ++ new) = new /\
  filter (fun i => negb (String.eqb (QuotationItemRecord.quotation_id i) id))
         (filter (fun i => negb (String.eqb (QuotationItemRecord.quotation_id i) id)) l
          ++ new)
  = filter (fun i => negb (String.eqb (QuotationItemRecord.quotation_id i) id)) l.
Proof.
  intros Hq. split.
  - apply filter_app_split.
    + intros x Hx. apply filter_In in Hx. destruct Hx as [_ Hx].
      now apply negb_true_iff in Hx.
    + intros x Hx. rewrite (Hq x Hx). apply String.eqb_refl.
  - rewrite filter_app, filter_idempotent.
    assert (E : filter (fun i => negb (String.eqb (QuotationItemRecord.quotation_id i) id))
                       new = []).
    { induction new as [|x new IH]; simpl; [reflexivity|].
      rewrite (Hq x (or_introl eq_refl)), String.eqb_refl. simpl.
      apply IH. intros r Hr. apply Hq. now right. }
    rewrite E. apply app_nil_r.
Qed.

(** X2.  When [updateQuotation] is given items for a stored quotation, the
    items of that quotation are afterwards exactly the records built from the
    given ones, in their order and with the caller's fields; the items of
    every other quotation are untouched; and [getQuotation] for that id then
    returns the updated quotation together with these items. *)
Theorem updateQuotation_replaces_items (id : string) (updates : QuotationUpdates.t)
    (items : list ItemFields.t) (uuid now : nat -> string) (s : Store) :
  In id (map Quotation.id (quotations_json s)) ->
  let r := updateQuotation id updates (Some items) uuid now s in
  items_of id (snd r) = updated_items id items uuid now /\
  map fields_of (items_of id (snd r)) = items /\
  items_not_of id (snd r) = items_not_of id s /\
  exists q, getQuotation id (snd r) = Some q /\
            Some (QuotationWithItems.base q) = fst r /\
            QuotationWithItems.quotation_items q = items_of id (snd r).
Proof.
  intros Hin r. subst r.
  destruct (updateQuotation_present id updates (Some items) uuid now s Hin)
    as [index [old [F [Hn [Hid [Hf ->]]]]]].
  destruct (updated_items_ids id items uuid now) as [Hq Hfields].
  destruct (replaced_items_split id (quotation_items_json s)
              (updated_items id items uuid now) Hq) as [Hof Hnot].
  unfold items_of, items_not_of. simpl.
  split; [exact Hof|]. split; [rewrite Hof; exact Hfields|]. split; [exact Hnot|].
  unfold getQuotation, getQuotations. simpl.
  rewrite (find_map_join (fun q => String.eqb (Quotation.id q) id)) by reflexivity.
  rewrite (find_set_nth _ _ _ _ F)
    by (simpl; rewrite Hid; apply String.eqb_refl).
  simpl. eexists. split; [reflexivity|]. split; [reflexivity|].
  simpl. rewrite Hid. reflexivity.
Qed.

Lemma updateQuotation_replaces_items_witness :
  In "q1" (map Quotation.id (quotations_json (profit_store []))) /\
  map fields_of
    (items_of "q1"
       (snd (updateQuotation "q1" no_updates (Some sample_item_fields) sample_uuid
               sample_now (profit_store []))))
  = sample_item_fields.
Proof.
  assert (Hin : In "q1" (map Quotation.id (quotations_json (profit_store []))))
    by (left; reflexivity).
  split; [exact Hin|].
  exact (proj1 (proj2 (updateQuotation_replaces_items "q1" no_updates sample_item_fields
                         sample_uuid sample_now (profit_store []) Hin))).
Defined.

(** ** Creating a quotation *)

Lemma created_items_ids (quotation : QuotationFields.t) (items : list ItemFields.t)
    (uuid now : nat -> string) (s : Store) :
  let r := createQuotation quotation items uuid now s in
  exists newItems,
    quotation_items_json (snd r) = (quotation_items_json s ++ newItems)%list /\
    quotations_json (snd r) = (quotations_json s ++ [fst r])%list /\
    Quotation.id (fst r) = uuid 0%nat /\
    (forall i, In i newItems -> QuotationItemRecord.quotation_id i = uuid 0%nat) /\
    map fields_of newItems = items.
Proof.
  unfold createQuotation. simpl. eexists. split; [reflexivity|].
  split; [reflexivity|]. split; [reflexivity|]. split.
  - intros i Hi. apply in_map_indexed in Hi. destruct Hi as [k [x [_ ->]]]. reflexivity.
  - apply map_of_map_indexed. intros i [n d q ty c up p tp]. reflexivity.
Qed.


Lemma fresh_filters (id : string) (s : Store) :
  fresh_quotation_id id s ->
  (forall q, In q (quotations_json s) -> String.eqb (Quotation.id q) id = false) /\
  (forall i, In i (quotation_items_json s) ->
             String.eqb (QuotationItemRecord.quotation_id i) id = false).
Proof.
  intros [H1 H2]. split.
  - intros q Hq. destruct (String.eqb_spec (Quotation.id q) id) as [E|E]; [|reflexivity].
    exfalso. apply H1. rewrite <- E. now apply in_map.
  - intros i Hi.
    destruct (String.eqb_spec (QuotationItemRecord.quotation_id i) id) as [E|E];
      [|reflexivity].
    exfalso. apply H2. rewrite <- E. now apply in_map.
Qed.



(** X4.  Deleting a quotation right after it was created with a fresh
    identifier restores the store exactly: the cascade removes the created
    items and nothing else. *)
Theorem createQuotation_then_delete (quotation : QuotationFields.t)
    (items : list ItemFields.t) (uuid now : nat -> string) (s : Store) :
  fresh_quotation_id (uuid 0%nat) s ->
  let r := createQuotation quotation items uuid now s in
  deleteQuotation (Quotation.id (fst r)) (snd r) = (true, s).
Proof.
  intros Hfresh r.
  pose proof (created_items_ids quotation items uuid now s) as H.
  cbv zeta in H. fold r in H.
  assert (Hrest : vendors_json (snd r) = vendors_json s /\
                  recipients_json (snd r) = recipients_json s /\
                  categories_json (snd r) = categories_json s /\
                  item_types_json (snd r) = item_types_json s /\
                  exchange_rates_json (snd r) = exchange_rates_json s /\
                  settings_json (snd r) = settings_json s /\
                  vendor_documents_json (snd r) = vendor_documents_json s)
    by (repeat split; reflexivity).
  clearbody r. destruct H as [newItems [Hi [Hq [Hid [Hnew Hfields]]]]].
  destruct Hrest as [R1 [R2 [R3 [R4 [R5 [R6 R7]]]]]].
  destruct (fresh_filters _ _ Hfresh) as [Fq Fi].
  rewrite deleteQuotation_present
    by (rewrite Hq, map_app; apply in_or_app; right; left; reflexivity).
  f_equal. rewrite Hq, Hi, Hid.
  assert (E1 : filter (fun q => negb (String.eqb (Quotation.id q) (uuid 0%nat)))
                      (quotations_json s ++ [fst r]) = quotations_json s).
  { rewrite filter_app. simpl. rewrite Hid, String.eqb_refl. simpl.
    rewrite app_nil_r. apply filter_id_iff. intros x Hx. rewrite (Fq x Hx). reflexivity. }
  assert (E2 : filter (fun i => negb (String.eqb (QuotationItemRecord.quotation_id i)
                                                 (uuid 0%nat)))
                      (quotation_items_json s ++ newItems) = quotation_items_json s).
  { rewrite filter_app.
    assert (E : filter (fun i => negb (String.eqb (QuotationItemRecord.quotation_id i)
                                                  (uuid 0%nat))) newItems = []).
    { clear Hi Hfields. induction newItems as [|x l IH]; simpl; [reflexivity|].
      rewrite (Hnew x (or_introl eq_refl)), String.eqb_refl. simpl.
      apply IH. intros i Hi. apply Hnew. now right. }
    rewrite E, app_nil_r. apply filter_id_iff. intros x Hx. rewrite (Fi x Hx). reflexivity. }
  rewrite E1, E2. unfold write_quotation_items, write_quotations. simpl.
  rewrite R1, R2, R3, R4, R5, R6, R7. apply store_eta.
Qed.

Lemma createQuotation_then_delete_witness :
  fresh_quotation_id (sample_uuid 0) (profit_store []) /\
  deleteQuotation "u0"
    (snd (createQuotation sample_fields sample_item_fields sample_uuid sample_now
            (profit_store [])))
  = (true, profit_store []).
Proof.
  assert (Hf : fresh_quotation_id (sample_uuid 0) (profit_store [])).
  { split; simpl; intros H; repeat (destruct H as [H|H]; [discriminate|]); exact H. }
  split; [exact Hf|].
  exact (createQuotation_then_delete sample_fields sample_item_fields sample_uuid
           sample_now (profit_store []) Hf).
Defined.

(** X5.  Deleting the same quotation a second time finds nothing: it returns
    [false] and leaves the store as the first deletion left it. *)
Theorem deleteQuotation_twice (id : string) (s : Store) :
  deleteQuotation id (snd (deleteQuotation id s))
  = (false, snd (deleteQuotation id s)).
Proof.
  apply deleteQuotation_absent.
  destruct (in_dec string_dec id (map Quotation.id (quotations_json s))) as [Hin|Hno].
  - rewrite (deleteQuotation_present id s Hin). simpl.
    intros H. apply in_map_iff in H. destruct H as [q [Hid Hq]].
    apply filter_In in Hq. destruct Hq as [_ Hq].
    rewrite Hid, String.eqb_refl in Hq. discriminate.
  - rewrite (deleteQuotation_absent id s Hno). exact Hno.
Qed.

(** ** Quotation numbers in sequence *)

(** X6.  When every numeric suffix among the stored quotation numbers of the
    year is at most 2^53 - 1, the number [generateQuotationNumber] returns is
    the number of no stored quotation. *)
Theorem generateQuotationNumber_unused (year : Z) (s : Store) (q : Quotation.t) :
  Forall (suffix_at_most MAX_SAFE_INTEGER (quotation_prefix year)) (quotations_json s) ->
  In q (quotations_json s) ->
  Quotation.quotation_number q <> generateQuotationNumber year s.
Proof.
  intros Hb Hq E.
  pose proof (generated_suffix year s Hb) as G. rewrite <- E in G.
  destruct (max_suffix_bounds (suffixes (quotation_prefix year) (quotations_json s)))
    as [_ [B _]].
  pose proof (B _ (suffixes_In _ _ _ _ Hq G)). lia.
Qed.

Lemma generateQuotationNumber_unused_witness :
  Forall (suffix_at_most MAX_SAFE_INTEGER (quotation_prefix 2024))
         (quotations_json numbered_store) /\
  In (numbered "QT-2024-0012") (quotations_json numbered_store) /\
  Quotation.quotation_number (numbered "QT-2024-0012")
  <> generateQuotationNumber 2024 numbered_store.
Proof.
  assert (Hb : Forall (suffix_at_most MAX_SAFE_INTEGER (quotation_prefix 2024))
                      (quotations_json numbered_store)).
  { repeat constructor; vm_compute; try discriminate; exact I. }
  assert (Hin : In (numbered "QT-2024-0012") (quotations_json numbered_store))
    by (simpl; tauto).
  split; [exact Hb|]. split; [exact Hin|].
  exact (generateQuotationNumber_unused 2024 numbered_store _ Hb Hin).
Defined.

Lemma suffixes_app (p : string) (l1 l2 : list Quotation.t) :
  suffixes p (l1 ++ l2) = (suffixes p l1 ++ suffixes p l2)%list.
Proof.
  induction l1 as [|q l1 IH]; simpl; [reflexivity|].
  destruct (quotation_suffix p (Quotation.quotation_number q)); simpl; rewrite IH;
    reflexivity.
Qed.

Lemma max_suffix_snoc (l : list Z) (x : Z) :
  max_suffix (l ++ [x]) = Z.max x (max_suffix l).
Proof.
  unfold max_suffix. rewrite fold_right_app. simpl.
  rewrite Z.max_comm. apply fold_max_shift.
Qed.

Lemma suffix_at_most_mono (b b' : Z) (p : string) (qs : list Quotation.t) :
  b <= b' -> Forall (suffix_at_most b p) qs -> Forall (suffix_at_most b' p) qs.
Proof.
  intros Hle Hb. apply Forall_forall. intros q Hq.
  pose proof (proj1 (Forall_forall _ _) Hb q Hq) as H. unfold suffix_at_most in *.
  destruct (quotation_suffix p (Quotation.quotation_number q)); [exact I|lia|exact H].
Qed.

(** X7.  When every numeric suffix among the stored quotation numbers of the
    year is at most 2^53 - 2 and the quotation created carries the number
    that [generateQuotationNumber] has just returned, the next call returns
    the number whose suffix is one higher: numbers handed out in sequence
    within a year are consecutive. *)
Theorem generateQuotationNumber_consecutive (year : Z) (quotation : QuotationFields.t)
    (items : list ItemFields.t) (uuid now : nat -> string) (s : Store) :
  Forall (suffix_at_most (MAX_SAFE_INTEGER - 1) (quotation_prefix year))
         (quotations_json s) ->
  QuotationFields.quotation_number quotation = generateQuotationNumber year s ->
  exists n,
    quotation_suffix (quotation_prefix year) (generateQuotationNumber year s) = finite n /\
    quotation_suffix (quotation_prefix year)
      (generateQuotationNumber year (snd (createQuotation quotation items uuid now s)))
    = finite (n + 1).
Proof.
  intros Hb1 E.
  assert (Hb : Forall (suffix_at_most MAX_SAFE_INTEGER (quotation_prefix year))
                      (quotations_json s))
    by (apply (suffix_at_most_mono (MAX_SAFE_INTEGER - 1)); [lia|exact Hb1]).
  assert (H1 : 0 <= MAX_SAFE_INTEGER - 1) by (unfold MAX_SAFE_INTEGER; lia).
  pose proof (max_suffix_at_most _ _ _ H1 Hb1) as Hm.
  pose proof (generated_suffix year s Hb) as G.
  destruct (max_suffix_bounds (suffixes (quotation_prefix year) (quotations_json s)))
    as [B1 _].
  exists (max_suffix (suffixes (quotation_prefix year) (quotations_json s)) + 1).
  split; [exact G|].
  assert (Hb' : Forall (suffix_at_most MAX_SAFE_INTEGER (quotation_prefix year))
                       (quotations_json (snd (createQuotation quotation items uuid now s)))).
  { simpl quotations_json. apply Forall_app. split; [exact Hb|].
    constructor; [|constructor].
    unfold suffix_at_most. simpl Quotation.quotation_number. rewrite E, G. lia. }
  rewrite (generated_suffix _ _ Hb'). f_equal. f_equal.
  simpl quotations_json. rewrite suffixes_app. simpl suffixes.
  rewrite E, G, max_suffix_snoc. lia.
Qed.

Lemma generateQuotationNumber_consecutive_witness :
  Forall (suffix_at_most (MAX_SAFE_INTEGER - 1) (quotation_prefix 2024))
         (quotations_json numbered_store) /\
  generateQuotationNumber 2024 numbered_store = "QT-2024-0013" /\
  generateQuotationNumber 2024
    (snd (createQuotation
            (QuotationFields.mk "QT-2024-0013" "Third" "2024-03-02" "2024-04-02" ma
               "Client" iqd None 0 iqd 0 None None draft)
            [] sample_uuid sample_now numbered_store))
  = "QT-2024-0014" /\
  exists n,
    quotation_suffix (quotation_prefix 2024) (generateQuotationNumber 2024 numbered_store)
    = finite n.
Proof.
  assert (Hb : Forall (suffix_at_most (MAX_SAFE_INTEGER - 1) (quotation_prefix 2024))
                      (quotations_json numbered_store)).
  { repeat constructor; vm_compute; try discriminate; exact I. }
  split; [exact Hb|]. split; [reflexivity|]. split; [reflexivity|].
  destruct (generateQuotationNumber_consecutive 2024
              (QuotationFields.mk "QT-2024-0013" "Third" "2024-03-02" "2024-04-02" ma
                 "Client" iqd None 0 iqd 0 None None draft)
              [] sample_uuid sample_now numbered_store Hb eq_refl) as [n [H _]].
  exists n. exact H.
Defined.

(** ** Lookup collections *)

Lemma find_none_name_fresh (name : string) (l : list Lookup.t) :
  find (same_name name) l = None ->
  ~ In (toLowerCase name) (map (fun x => toLowerCase (Lookup.name x)) l).
Proof.
  intros F H. apply in_map_iff in H. destruct H as [x [E Hx]].
  pose proof (find_none _ _ F x Hx) as Hc. unfold same_name in Hc.
  rewrite E, String.eqb_refl in Hc. discriminate.
Qed.

Lemma names_unique_snoc (l : list Lookup.t) (x : Lookup.t) :
  names_unique l ->
  ~ In (toLowerCase (Lookup.name x)) (map (fun y => toLowerCase (Lookup.name y)) l) ->
  names_unique (l ++ [x]).
Proof.
  unfold names_unique. intros Hu Hx. rewrite map_app. simpl.
  induction l as [|y l IH]; simpl in *.
  - constructor; [intros []|constructor].
  - inversion Hu as [|? ? Hy Hl]; subst. constructor.
    + intros H. apply in_app_or in H. destruct H as [H|[H|[]]].
      * contradiction.
      * apply Hx. left. symmetry. exact H.
    + apply IH; [exact Hl|]. intros H. apply Hx. now right.
Qed.

Lemma creator_body (coll : list Lookup.t) (name uuid t1 t2 : string) :
  match find (same_name name) coll with
  | Some existing =>
      toLowerCase (Lookup.name existing) = toLowerCase name /\ In existing coll
  | None =>
      names_unique coll -> names_unique (coll ++ [Lookup.mk uuid name t1 t2])
  end.
Proof.
  destruct (find (same_name name) coll) as [e|] eqn:F.
  - apply find_some in F. destruct F as [Hin F]. split; [|exact Hin].
    unfold same_name in F. now apply String.eqb_eq in F.
  - intros Hu. apply names_unique_snoc; [exact Hu|].
    simpl. now apply find_none_name_fresh.
Qed.

Ltac creator_outcome_tac coll name uuid t1 t2 :=
  pose proof (creator_body coll name uuid t1 t2) as Hc;
  destruct (find (same_name name) coll) as [e|];
  [ destruct Hc as [Hc1 Hc2]; simpl;
    split; [exact Hc1|]; split; [exact Hc2|];
    split; [left; reflexivity|]; intros Hu; exact Hu
  | simpl; split; [reflexivity|];
    split; [apply in_or_app; right; left; reflexivity|];
    split; [right; reflexivity|]; exact Hc ].

(** X8.  Each of [createVendor], [createRecipient], [createCategory] and
    [createItemType] returns a stored record whose name is the requested one
    up to case, keeps every record of its collection in place, adding at
    most one at the end, and keeps the names of the collection distinct up
    to case when they were. *)
Theorem create_lookup_outcome (name uuid t1 t2 : string) (s : Store) :
  creator_outcome vendors_json name (createVendor name uuid t1 t2 s) s /\
  creator_outcome recipients_json name (createRecipient name uuid t1 t2 s) s /\
  creator_outcome categories_json name (createCategory name uuid t1 t2 s) s /\
  creator_outcome item_types_json name (createItemType name uuid t1 t2 s) s.
Proof.
  unfold creator_outcome. split; [|split; [|split]].
  - unfold createVendor. creator_outcome_tac (vendors_json s) name uuid t1 t2.
  - unfold createRecipient. creator_outcome_tac (recipients_json s) name uuid t1 t2.
  - unfold createCategory. creator_outcome_tac (categories_json s) name uuid t1 t2.
  - unfold createItemType. creator_outcome_tac (item_types_json s) name uuid t1 t2.
Qed.

Lemma create_lookup_outcome_witness :
  names_unique (vendors_json acme_store) /\
  names_unique (vendors_json (snd (createVendor "Bolt" "id-2" "t1" "t2" acme_store))) /\
  names_unique (vendors_json (snd (createVendor "ACME" "id-3" "t1" "t2" acme_store))).
Proof.
  assert (Hu : names_unique (vendors_json acme_store)).
  { unfold names_unique. simpl. constructor; [intros []|constructor]. }
  split; [exact Hu|].
  destruct (create_lookup_outcome "Bolt" "id-2" "t1" "t2" acme_store)
    as [[_ [_ [_ H1]]] _].
  destruct (create_lookup_outcome "ACME" "id-3" "t1" "t2" acme_store)
    as [[_ [_ [_ H2]]] _].
  split; [exact (H1 Hu) | exact (H2 Hu)].
Defined.

(** ** Deleting a vendor or a recipient *)

Lemma filter_out_spec {A : Type} (g : A -> string) (id : string) (l : list A) :
  let filtered := filter (fun x => negb (String.eqb (g x) id)) l in
  (Nat.eqb (List.length filtered) (List.length l) = true <-> ~ In id (map g l)) /\
  (~ In id (map g l) -> filtered = l) /\
  (forall x, In x filtered <-> In x l /\ g x <> id).
Proof.
  intros filtered. subst filtered. split; [|split].
  - rewrite Nat.eqb_eq. split.
    + intros E H. apply filter_length_eq in E.
      apply in_map_iff in H. destruct H as [x [Hid Hx]].
      pose proof (proj1 (filter_id_iff _ _) E x Hx) as Hc. simpl in Hc.
      rewrite Hid, String.eqb_refl in Hc. discriminate.
    + intros Hno. f_equal. apply filter_id_iff. intros x Hx.
      destruct (String.eqb_spec (g x) id) as [E|E]; [|reflexivity].
      exfalso. apply Hno. rewrite <- E. now apply in_map.
  - intros Hno. apply filter_id_iff. intros x Hx.
    destruct (String.eqb_spec (g x) id) as [E|E]; [|reflexivity].
    exfalso. apply Hno. rewrite <- E. now apply in_map.
  - intros x. rewrite filter_In.
    destruct (String.eqb_spec (g x) id); simpl; intuition congruence.
Qed.





(** ** Exchange rates *)

Lemma hd_sort_insert {A : Type} (key : A -> Z) (x : A) (l : list A) :
  hd_error (sort_insert (fun a b => key b - key a) x l)
  = match hd_error l with
    | Some y => if key y >? key x then Some y else Some x
    | None => Some x
    end.
Proof.
  destruct l as [|y l]; simpl; [reflexivity|].
  destruct (Z.gtb_spec (key y - key x) 0), (Z.gtb_spec (key y) (key x));
    try reflexivity; lia.
Qed.

Lemma hd_sort_first_greatest {A : Type} (key : A -> Z) (l : list A) :
  hd_error (sort (fun a b => key b - key a) l) = first_greatest key l.
Proof.
  induction l as [|x l IH]; simpl; [reflexivity|].
  rewrite hd_sort_insert, IH. reflexivity.
Qed.

Lemma first_greatest_spec {A : Type} (key : A -> Z) (l : list A) (r : A) :
  first_greatest key l = Some r ->
  exists l1 l2, l = (l1 ++ r :: l2)%list /\
                (forall x, In x l1 -> key x < key r) /\
                (forall x, In x l2 -> key x <= key r).
Proof.
  revert r. induction l as [|x l IH]; simpl; intros r H; [discriminate|].
  destruct (first_greatest key l) as [y|] eqn:F.
  - destruct (IH y eq_refl) as [l1 [l2 [E [H1 H2]]]].
    destruct (Z.gtb_spec (key y) (key x)) as [Hgt|Hle]; injection H as <-.
    + exists (x :: l1), l2. split; [rewrite E; reflexivity|]. split; [|exact H2].
      intros z [<-|Hz]; [lia|now apply H1].
    + exists [], l. split; [reflexivity|]. split; [intros z []|].
      intros z Hz. rewrite E in Hz. apply in_app_or in Hz.
      destruct Hz as [Hz|[<-|Hz]].
      * specialize (H1 z Hz). lia.
      * lia.
      * specialize (H2 z Hz). lia.
  - injection H as <-. exists [], l. split; [reflexivity|]. split; [intros z []|].
    destruct l as [|z l]; [intros z []|simpl in F].
    destruct (first_greatest key l) as [w|]; [destruct (key w >? key z)|]; discriminate.
Qed.

Lemma first_greatest_nonempty {A : Type} (key : A -> Z) (l : list A) :
  l <> [] -> exists r, first_greatest key l = Some r.
Proof.
  destruct l as [|x l]; [contradiction|]. intros _. simpl.
  destruct (first_greatest key l) as [y|]; [destruct (key y >? key x)|]; eexists;
    reflexivity.
Qed.

Lemma forallb_is_time {A : Type} (f : A -> option Z) (l : list A) :
  forallb (fun x => is_time (f x)) l = true <-> forall x, In x l -> f x <> None.
Proof.
  rewrite forallb_forall. split; intros H x Hx; specialize (H x Hx).
  - destruct (f x); [discriminate|discriminate H].
  - destruct (f x); [reflexivity|contradiction].
Qed.

Lemma sort_descending_dates {A : Type} (f : A -> option Z) (l : list A) :
  (forall x, In x l -> f x <> None) ->
  sort_descending f l
  = determined (sort (fun a b => time_value (f b) - time_value (f a)) l).
Proof.
  intros H. unfold sort_descending.
  rewrite (proj2 (forallb_is_time f l) H). reflexivity.
Qed.

Lemma sort_descending_not_a_date {A : Type} (f : A -> option Z) (l : list A) (x : A) :
  In x l -> f x = None -> sort_descending f l = implementation_defined.
Proof.
  intros Hx Hn. unfold sort_descending.
  destruct (forallb (fun y => is_time (f y)) l) eqn:E; [|reflexivity].
  exfalso. exact (proj1 (forallb_is_time f l) E x Hx Hn).
Qed.

Lemma getLatestExchangeRate_first_greatest (getTime : string -> option Z) (s : Store) :
  (forall r, In r (exchange_rates_json s) -> getTime (ExchangeRate.date r) <> None) ->
  getLatestExchangeRate getTime s
  = determined (first_greatest (fun r => time_value (getTime (ExchangeRate.date r)))
                               (exchange_rates_json s)).
Proof.
  intros Hd. unfold getLatestExchangeRate.
  destruct (exchange_rates_json s) as [|x l] eqn:E; [reflexivity|].
  change (Nat.eqb (List.length (x :: l)) 0) with false. cbv iota.
  rewrite (sort_descending_dates _ _ Hd). unfold Determined_map. f_equal.
  apply (hd_sort_first_greatest (fun r => time_value (getTime (ExchangeRate.date r)))).
Qed.

Lemma time_value_date (d : option Z) : d <> None -> d = Some (time_value d).
Proof. destruct d; [reflexivity|contradiction]. Qed.

(** X11.  [getLatestExchangeRate] returns [null] exactly when no rate is
    stored.  When every stored rate has a date that parses, it returns a
    stored rate whose date is not earlier than any other, and among the
    rates of that latest date the one stored first: every rate stored before
    it is strictly earlier.  When some stored rate has a date that does not
    parse, the comparator returns [NaN] and the language does not fix which
    rate comes first. *)
Theorem getLatestExchangeRate_latest (getTime : string -> option Z) (s : Store) :
  (getLatestExchangeRate getTime s = determined None <-> exchange_rates_json s = []) /\
  ((forall r, In r (exchange_rates_json s) -> getTime (ExchangeRate.date r) <> None) ->
   exists result,
     getLatestExchangeRate getTime s = determined result /\
     (exchange_rates_json s <> [] -> result <> None) /\
     forall latest,
       result = Some latest ->
       exists before after t,
         exchange_rates_json s = (before ++ latest :: after)%list /\
         getTime (ExchangeRate.date latest) = Some t /\
         (forall r, In r before ->
                    exists tr, getTime (ExchangeRate.date r) = Some tr /\ tr < t) /\
         (forall r, In r after ->
                    exists tr, getTime (ExchangeRate.date r) = Some tr /\ tr <= t)) /\
  (forall r, In r (exchange_rates_json s) -> getTime (ExchangeRate.date r) = None ->
             getLatestExchangeRate getTime s = implementation_defined).
Proof.
  split; [|split].
  - split; [|apply getLatestExchangeRate_empty].
    unfold getLatestExchangeRate.
    destruct (exchange_rates_json s) as [|x l]; [reflexivity|].
    change (Nat.eqb (List.length (x :: l)) 0) with false. cbv iota.
    unfold sort_descending, Determined_map.
    destruct (forallb _ (x :: l)); [|discriminate].
    intros H. exfalso.
    assert (H' : hd_error
                   (sort (fun a b => time_value (getTime (ExchangeRate.date b))
                                     - time_value (getTime (ExchangeRate.date a)))
                         (x :: l)) = None) by (injection H as H; exact H).
    clear H. rename H' into H.
    rewrite (hd_sort_first_greatest
               (fun r => time_value (getTime (ExchangeRate.date r)))) in H.
    destruct (first_greatest_nonempty
                (fun r => time_value (getTime (ExchangeRate.date r))) (x :: l)
                ltac:(discriminate)) as [r Hr].
    rewrite Hr in H. discriminate.
  - intros Hd. rewrite (getLatestExchangeRate_first_greatest _ _ Hd).
    eexists. split; [reflexivity|]. split.
    + intros Hne.
      destruct (first_greatest_nonempty
                  (fun r => time_value (getTime (ExchangeRate.date r))) _ Hne) as [r Hr].
      rewrite Hr. discriminate.
    + intros latest H.
      destruct (first_greatest_spec
                  (fun r => time_value (getTime (ExchangeRate.date r))) _ _ H)
        as [before [after [E [H1 H2]]]].
      assert (Hin : forall r, In r before \/ latest = r \/ In r after ->
                              In r (exchange_rates_json s)).
      { intros r Hr. rewrite E. apply in_or_app. simpl. tauto. }
      exists before, after, (time_value (getTime (ExchangeRate.date latest))).
      split; [exact E|].
      split; [apply time_value_date, Hd, Hin; auto|]. split.
      * intros r Hr. exists (time_value (getTime (ExchangeRate.date r))).
        split; [apply time_value_date, Hd, Hin; auto|exact (H1 r Hr)].
      * intros r Hr. exists (time_value (getTime (ExchangeRate.date r))).
        split; [apply time_value_date, Hd, Hin; auto|exact (H2 r Hr)].
  - intros r Hr Hn. unfold getLatestExchangeRate.
    destruct (exchange_rates_json s) as [|x l] eqn:E; [contradiction|].
    change (Nat.eqb (List.length (x :: l)) 0) with false. cbv iota.
    rewrite (sort_descending_not_a_date _ _ r Hr Hn). reflexivity.
Qed.

Lemma getLatestExchangeRate_latest_witness :
  (forall r, In r (exchange_rates_json (profit_store sample_rates)) ->
             sample_Date_getTime (ExchangeRate.date r) <> None) /\
  getLatestExchangeRate sample_Date_getTime (profit_store sample_rates)
  = determined (Some (ExchangeRate.mk "r2" 1500 "2024-06-01" "2024-06-01" "2024-06-01")) /\
  exists result,
    getLatestExchangeRate sample_Date_getTime (profit_store sample_rates)
    = determined result.
Proof.
  assert (Hd : forall r, In r (exchange_rates_json (profit_store sample_rates)) ->
                         sample_Date_getTime (ExchangeRate.date r) <> None).
  { intros r [<-|[<-|[]]]; discriminate. }
  split; [exact Hd|]. split; [reflexivity|].
  destruct (proj1 (proj2 (getLatestExchangeRate_latest sample_Date_getTime
                            (profit_store sample_rates))) Hd) as [result [H _]].
  exists result. exact H.
Defined.

Lemma first_greatest_snoc {A : Type} (key : A -> Z) (l : list A) (x : A) :
  first_greatest key (l ++ [x])
  = match first_greatest key l with
    | Some y => if key x >? key y then Some x else Some y
    | None => Some x
    end.
Proof.
  induction l as [|z l IH]; simpl; [reflexivity|].
  rewrite IH. destruct (first_greatest key l) as [y|]; simpl.
  - destruct (Z.gtb_spec (key x) (key y)), (Z.gtb_spec (key y) (key z)); simpl;
      repeat match goal with
             | |- context [?a >? ?b] => destruct (Z.gtb_spec a b)
             end; try reflexivity; lia.
  - destruct (Z.gtb_spec (key x) (key z)); reflexivity.
Qed.

(** X12.  When the dates of the stored rates and the date of the new rate
    all parse, after [createExchangeRate] the latest rate is the new record
    if its date is strictly later than the date of the rate that was the
    latest (or if no rate was stored), and it is still the former latest rate
    otherwise; the rates of before are all kept. *)
Theorem createExchangeRate_latest (getTime : string -> option Z) (rate : Z)
    (date uuid t1 t2 : string) (s : Store) (t : Z) :
  (forall r, In r (exchange_rates_json s) -> getTime (ExchangeRate.date r) <> None) ->
  getTime date = Some t ->
  let r := createExchangeRate rate date uuid t1 t2 s in
  exchange_rates_json (snd r) = (exchange_rates_json s ++ [fst r])%list /\
  ExchangeRate.rate (fst r) = rate /\
  ExchangeRate.date (fst r) = date /\
  exists former,
    getLatestExchangeRate getTime s = determined former /\
    getLatestExchangeRate getTime (snd r)
    = determined
        match former with
        | Some latest =>
            match getTime (ExchangeRate.date latest) with
            | Some t' => if t >? t' then Some (fst r) else Some latest
            | None => None
            end
        | None => Some (fst r)
        end.
Proof.
  intros Hd Ht r. subst r. simpl. repeat split.
  rewrite (getLatestExchangeRate_first_greatest _ _ Hd).
  eexists. split; [reflexivity|].
  rewrite getLatestExchangeRate_first_greatest.
  - simpl. f_equal.
    rewrite (first_greatest_snoc (fun r => time_value (getTime (ExchangeRate.date r)))).
    destruct (first_greatest _ (exchange_rates_json s)) as [latest|] eqn:F; [|reflexivity].
    destruct (first_greatest_spec _ _ _ F) as [l1 [l2 [E _]]].
    assert (Hl : getTime (ExchangeRate.date latest) <> None).
    { apply Hd. rewrite E. apply in_or_app. right. left. reflexivity. }
    simpl. rewrite Ht.
    destruct (getTime (ExchangeRate.date latest)) as [t'|]; [reflexivity|contradiction].
  - simpl. intros x Hx. apply in_app_or in Hx. destruct Hx as [Hx|[<-|[]]].
    + now apply Hd.
    + simpl. rewrite Ht. discriminate.
Qed.

Lemma createExchangeRate_latest_witness :
  (forall r, In r (exchange_rates_json (profit_store sample_rates)) ->
             sample_Date_getTime (ExchangeRate.date r) <> None) /\
  sample_Date_getTime "2024-01-01" = Some 1704067200000 /\
  getLatestExchangeRate sample_Date_getTime
    (snd (createExchangeRate 1480 "2024-01-01" "r3" "t" "t" (profit_store sample_rates)))
  = determined (Some (ExchangeRate.mk "r2" 1500 "2024-06-01" "2024-06-01" "2024-06-01")) /\
  exists former,
    getLatestExchangeRate sample_Date_getTime (profit_store sample_rates)
    = determined former.
Proof.
  assert (Hd : forall r, In r (exchange_rates_json (profit_store sample_rates)) ->
                         sample_Date_getTime (ExchangeRate.date r) <> None).
  { intros r [<-|[<-|[]]]; discriminate. }
  split; [exact Hd|]. split; [reflexivity|]. split; [reflexivity|].
  destruct (createExchangeRate_latest sample_Date_getTime 1480 "2024-01-01" "r3" "t" "t"
              (profit_store sample_rates) 1704067200000 Hd eq_refl)
    as [_ [_ [_ [former [H _]]]]].
  exists former. exact H.
Defined.

(** ** Settings *)



(** ** Vendor documents *)



(** X15.  [deleteVendorDocument(id)] returns [true] exactly when a document
    of that id is stored, then removes every document of that id and no
    other; on an unknown id the store is unchanged.  Quotations and items are
    never written. *)
Theorem deleteVendorDocument_outcome (id : string) (s : Store) :
  let r := deleteVendorDocument id s in
  (fst r = true <-> In id (map VendorDocument.id (vendor_documents_json s))) /\
  (fst r = false -> snd r = s) /\
  (forall d, In d (vendor_documents_json (snd r)) <->
             In d (vendor_documents_json s) /\ VendorDocument.id d <> id) /\
  quotations_json (snd r) = quotations_json s /\
  quotation_items_json (snd r) = quotation_items_json s.
Proof.
  intros r. subst r. unfold deleteVendorDocument.
  destruct (filter_out_spec VendorDocument.id id (vendor_documents_json s))
    as [H1 [H2 H3]].
  cbv zeta in H1, H2, H3.
  destruct (Nat.eqb _ _) eqn:E; simpl.
  - pose proof (proj1 H1 eq_refl) as Hno.
    split; [split; [discriminate|contradiction]|]. split; [reflexivity|].
    split; [intros v; rewrite <- H3, (H2 Hno); tauto|].
    repeat split; reflexivity.
  - split.
    { split; [intros _|reflexivity].
      destruct (in_dec string_dec id (map VendorDocument.id (vendor_documents_json s)))
        as [Hin|Hno]; [exact Hin|].
      pose proof (proj2 H1 Hno) as Hc. discriminate. }
    split; [discriminate|]. split; [exact H3|].
    repeat split; reflexivity.
Qed.

Lemma deleteVendorDocument_outcome_witness :
  fst (deleteVendorDocument "d1" store_with_document) = true /\
  snd (deleteVendorDocument "d1" store_with_document) = empty_store /\
  snd (deleteVendorDocument "d9" store_with_document) = store_with_document.
Proof.
  destruct (deleteVendorDocument_outcome "d1" store_with_document) as [H1 _].
  destruct (deleteVendorDocument_outcome "d9" store_with_document) as [_ [H2 _]].
  split; [apply H1; left; reflexivity|]. split; [reflexivity|].
  apply H2. reflexivity.
Defined.

(** ** Import after import, export after import *)

(** X16.  When a bundle is accepted, exporting right after the import gives
    back the seven mandatory collections of the bundle and its settings (an
    absent [settings] as the empty list), never any vendor documents; and
    importing the same bundle once more changes nothing. *)
Theorem importData_then_export (data : ExportData.t) (t : string) (s : Store) :
  mandatory_present data ->
  let s1 := snd (importData data s) in
  ExportData.quotations (exportAllData t s1) = ExportData.quotations data /\
  ExportData.quotation_items (exportAllData t s1) = ExportData.quotation_items data /\
  ExportData.vendors (exportAllData t s1) = ExportData.vendors data /\
  ExportData.recipients (exportAllData t s1) = ExportData.recipients data /\
  ExportData.categories (exportAllData t s1) = ExportData.categories data /\
  ExportData.item_types (exportAllData t s1) = ExportData.item_types data /\
  ExportData.exchange_rates (exportAllData t s1) = ExportData.exchange_rates data /\
  ExportData.settings (exportAllData t s1) = Some (or_empty (ExportData.settings data)) /\
  ExportData.vendor_documents (exportAllData t s1) = None /\
  snd (importData data s1) = s1.
Proof.
  intros M s1. subst s1.
  rewrite (importData_accepts data s M). simpl.
  rewrite (importData_accepts data _ M). simpl.
  destruct M as [H1 [H2 [H3 [H4 [H5 [H6 H7]]]]]].
  destruct (ExportData.quotations data); [|contradiction].
  destruct (ExportData.quotation_items data); [|contradiction].
  destruct (ExportData.vendors data); [|contradiction].
  destruct (ExportData.recipients data); [|contradiction].
  destruct (ExportData.categories data); [|contradiction].
  destruct (ExportData.item_types data); [|contradiction].
  destruct (ExportData.exchange_rates data); [|contradiction].
  simpl. repeat split; reflexivity.
Qed.

Lemma importData_then_export_witness :
  mandatory_present minimal_bundle /\
  ExportData.settings
    (exportAllData "t" (snd (importData minimal_bundle store_with_document)))
  = Some [].
Proof.
  assert (M : mandatory_present minimal_bundle).
  { unfold mandatory_present. simpl. repeat split; discriminate. }
  split; [exact M|].
  destruct (importData_then_export minimal_bundle "t" store_with_document M)
    as [_ [_ [_ [_ [_ [_ [_ [H _]]]]]]]].
  exact H.
Defined.

(** * Further properties of the pages *)

(** ** The table of buckets *)

Lemma table_get_set_other (k k' : string) (v : TypeStats) (t : StatsTable) :
  k' <> k -> table_get k (table_set k' v t) = table_get k t.
Proof.
  intros Hne. induction t as [|[k0 v0] t IH]; simpl.
  - destruct (String.eqb_spec k' k); [contradiction|reflexivity].
  - destruct (String.eqb_spec k0 k') as [E|E]; simpl.
    + subst k0. destruct (String.eqb_spec k' k); [contradiction|reflexivity].
    + destruct (String.eqb k0 k); [reflexivity|exact IH].
Qed.

Lemma table_get_none_keys (k : string) (t : StatsTable) :
  table_get k t = None <-> ~ In k (map fst t).
Proof.
  induction t as [|[k0 v0] t IH]; simpl.
  - split; [intros _ []|reflexivity].
  - destruct (String.eqb_spec k0 k) as [E|E].
    + split; [discriminate|]. intros H. exfalso. apply H. left. exact E.
    + rewrite IH. split; [intros H [H'|H']; contradiction|intros H H'; apply H; now right].
Qed.

Lemma table_set_keys (k : string) (v : TypeStats) (t : StatsTable) :
  map fst (table_set k v t)
  = match table_get k t with
    | Some _ => map fst t
    | None => (map fst t ++ [k])%list
    end.
Proof.
  induction t as [|[k0 v0] t IH]; simpl; [reflexivity|].
  destruct (String.eqb_spec k0 k) as [E|E]; simpl.
  - subst k0. reflexivity.
  - rewrite IH. destruct (table_get k t); reflexivity.
Qed.

Lemma table_set_nodup (k : string) (v : TypeStats) (t : StatsTable) :
  NoDup (map fst t) -> NoDup (map fst (table_set k v t)).
Proof.
  intros Hn. rewrite table_set_keys.
  destruct (table_get k t) eqn:G; [exact Hn|].
  apply table_get_none_keys in G.
  apply NoDup_rev in Hn. rewrite <- rev_involutive. apply NoDup_rev.
  rewrite rev_app_distr. simpl. constructor; [|exact Hn].
  intros H. apply G. now apply in_rev.
Qed.

Lemma table_get_in (k : string) (b : TypeStats) (t : StatsTable) :
  NoDup (map fst t) -> In (k, b) t -> table_get k t = Some b.
Proof.
  induction t as [|[k0 v0] t IH]; simpl; intros Hn Hin; [contradiction|].
  inversion Hn as [|? ? Hk Hn']; subst.
  destruct Hin as [E|Hin].
  - injection E as -> ->. rewrite String.eqb_refl. reflexivity.
  - destruct (String.eqb_spec k0 k) as [E|E]; [|now apply IH].
    subst k0. exfalso. apply Hk. change k with (fst (k, b)). now apply in_map.
Qed.

Lemma initial_typeStats_nodup (itemTypes : list ItemType) :
  NoDup (map fst (ReportsIndex.initial_typeStats itemTypes)).
Proof.
  unfold ReportsIndex.initial_typeStats. apply table_set_nodup.
  assert (H : forall t, NoDup (map fst t) ->
              NoDup (map fst
                       (fold_left (fun t type => table_set (Lookup.id type)
                                                   (empty_stats (Lookup.name type)) t)
                                  itemTypes t))).
  { induction itemTypes as [|ty l IH]; intros t Hn; simpl; [exact Hn|].
    apply IH. now apply table_set_nodup. }
  apply H. constructor.
Qed.

Lemma report_item_get (k : string) (q : QuotationWithItems.t) (st : ReportState)
    (item : QuotationItemRecord.t) :
  let st' := ReportsIndex.report_item q st item in
  NoDup (map fst (typeStats st)) ->
  NoDup (map fst (typeStats st')) /\
  (ReportsIndex.typeId_of item <> k ->
   table_get k (typeStats st') = table_get k (typeStats st)) /\
  (ReportsIndex.typeId_of item = k ->
   exists b',
     table_get k (typeStats st') = Some b' /\
     quantity b' = quantity_at k (typeStats st) + QuotationItemRecord.quantity item /\
     totalAmount b' = amount_at k (typeStats st) + QuotationItemRecord.total_price item /\
     typeName b' = match table_get k (typeStats st) with
                   | Some b => typeName b
                   | None => "Unknown"
                   end).
Proof.
  intros st' Hn. subst st'. unfold ReportsIndex.report_item, quantity_at, amount_at.
  set (typeId := ReportsIndex.typeId_of item).
  set (key := (Quotation.id (QuotationWithItems.base q) ++ "-" ++ typeId)%string).
  destruct (table_get typeId (typeStats st)) as [b|] eqn:G.
  - rewrite G.
    destruct (set_has key (quotationsWithType st)); cbn [typeStats];
      (split; [now apply table_set_nodup|]; split;
       [ intros Hne; now apply table_get_set_other
       | intros <-; rewrite G, table_get_set_same; eexists; split; [reflexivity|];
         repeat split; reflexivity ]).
  - rewrite table_get_set_same.
    destruct (set_has key (quotationsWithType st)); cbn [typeStats];
      (split; [now apply table_set_nodup, table_set_nodup|]; split;
       [ intros Hne; rewrite !table_get_set_other by exact Hne; reflexivity
       | intros <-; rewrite G, table_get_set_same; eexists; split; [reflexivity|];
         repeat split; reflexivity ]).
Qed.

(** ** Buckets, type by type *)

Lemma report_item_at (k : string) (q : QuotationWithItems.t) (st : ReportState)
    (item : QuotationItemRecord.t) :
  NoDup (map fst (typeStats st)) ->
  quantity_at k (typeStats (ReportsIndex.report_item q st item))
  = quantity_at k (typeStats st)
    + (if String.eqb (ReportsIndex.typeId_of item) k
       then QuotationItemRecord.quantity item else 0) /\
  amount_at k (typeStats (ReportsIndex.report_item q st item))
  = amount_at k (typeStats st)
    + (if String.eqb (ReportsIndex.typeId_of item) k
       then QuotationItemRecord.total_price item else 0).
Proof.
  intros Hn. destruct (report_item_get k q st item Hn) as [_ [Hother Hsame]].
  destruct (String.eqb_spec (ReportsIndex.typeId_of item) k) as [E|E].
  - destruct (Hsame E) as [b' [Hg [Hq [Ha _]]]].
    unfold quantity_at at 1, amount_at at 1. rewrite Hg. split; assumption.
  - unfold quantity_at, amount_at. rewrite (Hother E). split; lia.
Qed.

Lemma report_items_at (k : string) (q : QuotationWithItems.t)
    (items : list QuotationItemRecord.t) (st : ReportState) :
  NoDup (map fst (typeStats st)) ->
  NoDup (map fst (typeStats (fold_left (ReportsIndex.report_item q) items st))) /\
  quantity_at k (typeStats (fold_left (ReportsIndex.report_item q) items st))
  = quantity_at k (typeStats st)
    + fold_right (fun item acc =>
                    if String.eqb (ReportsIndex.typeId_of item) k
                    then QuotationItemRecord.quantity item + acc else acc) 0 items /\
  amount_at k (typeStats (fold_left (ReportsIndex.report_item q) items st))
  = amount_at k (typeStats st)
    + fold_right (fun item acc =>
                    if String.eqb (ReportsIndex.typeId_of item) k
                    then QuotationItemRecord.total_price item + acc else acc) 0 items.
Proof.
  revert st. induction items as [|item items IH]; intros st Hn; simpl.
  - split; [exact Hn|]. split; lia.
  - destruct (report_item_get k q st item Hn) as [Hn' _].
    destruct (report_item_at k q st item Hn) as [Hq Ha].
    destruct (IH _ Hn') as [Hn'' [Hq' Ha']]. split; [exact Hn''|].
    rewrite Hq', Ha', Hq, Ha.
    destruct (String.eqb (ReportsIndex.typeId_of item) k); split; lia.
Qed.

Lemma report_fold_at (k : string) (qs : list QuotationWithItems.t) (st : ReportState) :
  NoDup (map fst (typeStats st)) ->
  NoDup (map fst (typeStats (fold_left ReportsIndex.report_quotation qs st))) /\
  quantity_at k (typeStats (fold_left ReportsIndex.report_quotation qs st))
  = quantity_at k (typeStats st) + type_quantity k qs /\
  amount_at k (typeStats (fold_left ReportsIndex.report_quotation qs st))
  = amount_at k (typeStats st) + type_amount k qs.
Proof.
  revert st. induction qs as [|q qs IH]; intros st Hn; simpl.
  - split; [exact Hn|]. split; lia.
  - destruct (report_items_at k q (QuotationWithItems.quotation_items q) st Hn)
      as [Hn' [Hq Ha]].
    change (fold_left (ReportsIndex.report_item q)
              (QuotationWithItems.quotation_items q) st)
      with (ReportsIndex.report_quotation st q) in Hn', Hq, Ha.
    destruct (IH _ Hn') as [Hn'' [Hq' Ha']]. split; [exact Hn''|].
    rewrite Hq', Ha', Hq, Ha. split; lia.
Qed.

Lemma table_zero_at (k : string) (t : StatsTable) :
  table_zero t -> quantity_at k t = 0 /\ amount_at k t = 0.
Proof.
  intros Hz. unfold quantity_at, amount_at.
  induction Hz as [|[k0 v0] t [Hq Ha] Ht IH]; simpl; [split; reflexivity|].
  destruct (String.eqb k0 k); [split; assumption|exact IH].
Qed.

Lemma report_state_at (k : string) (itemTypes : list ItemType)
    (qs : list QuotationWithItems.t) :
  NoDup (map fst (typeStats (ReportsIndex.report_state itemTypes qs))) /\
  quantity_at k (typeStats (ReportsIndex.report_state itemTypes qs)) = type_quantity k qs /\
  amount_at k (typeStats (ReportsIndex.report_state itemTypes qs)) = type_amount k qs.
Proof.
  unfold ReportsIndex.report_state.
  destruct (report_fold_at k qs
              (mkReportState (ReportsIndex.initial_typeStats itemTypes) [])
              (initial_typeStats_nodup itemTypes)) as [Hn [Hq Ha]].
  destruct (table_zero_at k _ (initial_typeStats_zero itemTypes)) as [Zq Za].
  simpl in Hq, Ha. rewrite Zq in Hq. rewrite Za in Ha.
  split; [exact Hn|]. split; [rewrite Hq|rewrite Ha]; lia.
Qed.

(** ** The drill-down *)








(** ** Labels of the rows *)

Lemma table_get_set (k k' : string) (v : TypeStats) (t : StatsTable) :
  table_get k (table_set k' v t) = if String.eqb k' k then Some v else table_get k t.
Proof.
  destruct (String.eqb_spec k' k) as [->|E].
  - apply table_get_set_same.
  - now apply table_get_set_other.
Qed.

Lemma types_fold_labels (itemTypes l : list ItemType) (t : StatsTable) :
  incl l itemTypes ->
  (forall k b, table_get k t = Some b ->
     exists type, In type itemTypes /\ Lookup.id type = k /\ Lookup.name type = typeName b) ->
  let t' := fold_left (fun t type => table_set (Lookup.id type)
                                       (empty_stats (Lookup.name type)) t) l t in
  (forall k b, table_get k t' = Some b ->
     exists type, In type itemTypes /\ Lookup.id type = k /\ Lookup.name type = typeName b) /\
  (forall k, table_get k t <> None \/ In k (map Lookup.id l) -> table_get k t' <> None).
Proof.
  revert t. induction l as [|ty l IH]; intros t Hincl Hl; simpl.
  - split; [exact Hl|]. intros k [H|[]]. exact H.
  - assert (Hl' : forall k b,
              table_get k (table_set (Lookup.id ty) (empty_stats (Lookup.name ty)) t)
              = Some b ->
              exists type, In type itemTypes /\ Lookup.id type = k /\
                           Lookup.name type = typeName b).
    { intros k b. rewrite table_get_set.
      destruct (String.eqb_spec (Lookup.id ty) k) as [E|E]; [|apply Hl].
      intros H. injection H as <-. exists ty. split; [apply Hincl; now left|].
      split; [exact E|reflexivity]. }
    destruct (IH _ (fun x Hx => Hincl x (or_intror Hx)) Hl') as [I1 I2].
    split; [exact I1|]. intros k Hk. apply I2.
    rewrite table_get_set. destruct (String.eqb_spec (Lookup.id ty) k) as [E|E].
    + left. discriminate.
    + destruct Hk as [Hk|[Hk|Hk]]; [left; exact Hk|contradiction|right; exact Hk].
Qed.

Lemma initial_typeStats_labels (itemTypes : list ItemType) :
  (forall k b, table_get k (ReportsIndex.initial_typeStats itemTypes) = Some b ->
               label_ok itemTypes k (typeName b)) /\
  (forall k, k = "no_type" \/ In k (map Lookup.id itemTypes) ->
             table_get k (ReportsIndex.initial_typeStats itemTypes) <> None).
Proof.
  unfold ReportsIndex.initial_typeStats.
  destruct (types_fold_labels itemTypes itemTypes [] (incl_refl _)
              ltac:(intros k b H; discriminate)) as [I1 I2].
  cbv zeta in I1, I2. split.
  - intros k b. rewrite table_get_set.
    destruct (String.eqb_spec "no_type" k) as [E|E].
    + intros H. injection H as <-. left. split; [now symmetry|reflexivity].
    + intros H. right. left. split; [congruence|]. exact (I1 k b H).
  - intros k Hk. rewrite table_get_set.
    destruct (String.eqb_spec "no_type" k) as [E|E]; [discriminate|].
    apply I2. destruct Hk as [Hk|Hk]; [congruence|right; exact Hk].
Qed.

Lemma report_fold_labels (itemTypes : list ItemType) (qs : list QuotationWithItems.t)
    (st : ReportState) :
  NoDup (map fst (typeStats st)) ->
  (forall k b, table_get k (typeStats st) = Some b -> label_ok itemTypes k (typeName b)) ->
  (forall k, k = "no_type" \/ In k (map Lookup.id itemTypes) ->
             table_get k (typeStats st) <> None) ->
  forall k b, table_get k (typeStats (fold_left ReportsIndex.report_quotation qs st))
              = Some b -> label_ok itemTypes k (typeName b).
Proof.
  assert (Hitem : forall q item st,
            NoDup (map fst (typeStats st)) ->
            (forall k b, table_get k (typeStats st) = Some b ->
                         label_ok itemTypes k (typeName b)) ->
            (forall k, k = "no_type" \/ In k (map Lookup.id itemTypes) ->
                       table_get k (typeStats st) <> None) ->
            NoDup (map fst (typeStats (ReportsIndex.report_item q st item))) /\
            (forall k b, table_get k (typeStats (ReportsIndex.report_item q st item))
                         = Some b -> label_ok itemTypes k (typeName b)) /\
            (forall k, k = "no_type" \/ In k (map Lookup.id itemTypes) ->
                       table_get k (typeStats (ReportsIndex.report_item q st item))
                       <> None)).
  { intros q item st0 Hn HL HP.
    split; [exact (proj1 (report_item_get "" q st0 item Hn))|]. split.
    - intros k b Hg. destruct (report_item_get k q st0 item Hn) as [_ [Ho Hs]].
      destruct (String.eqb_spec (ReportsIndex.typeId_of item) k) as [E|E].
      + destruct (Hs E) as [b' [Hg' [_ [_ Hname]]]].
        rewrite Hg' in Hg. injection Hg as <-. rewrite Hname.
        destruct (table_get k (typeStats st0)) as [b0|] eqn:G; [now apply HL|].
        right. right.
        split; [intros Ek; exact (HP k (or_introl Ek) G)|].
        split; [intros Hin; exact (HP k (or_intror Hin) G)|reflexivity].
      + rewrite (Ho E) in Hg. now apply HL.
    - intros k Hk. destruct (report_item_get k q st0 item Hn) as [_ [Ho Hs]].
      destruct (String.eqb_spec (ReportsIndex.typeId_of item) k) as [E|E].
      + destruct (Hs E) as [b' [Hg' _]]. rewrite Hg'. discriminate.
      + rewrite (Ho E). now apply HP. }
  assert (Hitems : forall q items st,
            NoDup (map fst (typeStats st)) ->
            (forall k b, table_get k (typeStats st) = Some b ->
                         label_ok itemTypes k (typeName b)) ->
            (forall k, k = "no_type" \/ In k (map Lookup.id itemTypes) ->
                       table_get k (typeStats st) <> None) ->
            NoDup (map fst (typeStats (fold_left (ReportsIndex.report_item q) items st))) /\
            (forall k b,
               table_get k (typeStats (fold_left (ReportsIndex.report_item q) items st))
               = Some b -> label_ok itemTypes k (typeName b)) /\
            (forall k, k = "no_type" \/ In k (map Lookup.id itemTypes) ->
                       table_get k
                         (typeStats (fold_left (ReportsIndex.report_item q) items st))
                       <> None)).
  { intros q items. induction items as [|item items IH]; intros st0 Hn HL HP; simpl.
    - repeat split; assumption.
    - destruct (Hitem q item st0 Hn HL HP) as [Hn' [HL' HP']]. now apply IH. }
  revert st. induction qs as [|q qs IH]; intros st Hn HL HP; simpl; [exact HL|].
  destruct (Hitems q (QuotationWithItems.quotation_items q) st Hn HL HP)
    as [Hn' [HL' HP']].
  now apply IH.
Qed.

(** X18.  Every row of the report carries the label its key calls for: the
    row of key ["no_type"] is named ["No Type"], a row whose key is the id of
    an item type bears the name of an item type of that id, and a row whose
    key is neither, that is, a type id that no item type has any more, is
    named ["Unknown"]. *)
Theorem reportData_labels (itemTypes : list ItemType)
    (filteredQuotations : list QuotationWithItems.t) (row : ReportRow) :
  In row (ReportsIndex.reportData itemTypes filteredQuotations) ->
  label_ok itemTypes (row_id row) (row_typeName row).
Proof.
  intros Hrow.
  apply (Permutation_in _ (reportData_perm itemTypes filteredQuotations)) in Hrow.
  apply in_map_iff in Hrow. destruct Hrow as [[k b] [<- Hin]].
  apply filter_In in Hin. destruct Hin as [Hin _]. simpl.
  destruct (report_state_at k itemTypes filteredQuotations) as [Hn _].
  pose proof (table_get_in _ _ _ Hn Hin) as G.
  destruct (initial_typeStats_labels itemTypes) as [HL HP].
  exact (report_fold_labels itemTypes filteredQuotations
           (mkReportState (ReportsIndex.initial_typeStats itemTypes) [])
           (initial_typeStats_nodup itemTypes) HL HP k b G).
Qed.

Lemma reportData_labels_witness :
  In (mkReportRow "gone" "Unknown" 4 800 1)
     (ReportsIndex.reportData sample_types report_quotations) /\
  label_ok sample_types "gone" "Unknown".
Proof.
  assert (Hin : In (mkReportRow "gone" "Unknown" 4 800 1)
                   (ReportsIndex.reportData sample_types report_quotations))
    by (left; reflexivity).
  split; [exact Hin|].
  exact (reportData_labels sample_types report_quotations _ Hin).
Defined.

Lemma type_sums_occur (k : string) (qs : list QuotationWithItems.t) :
  type_quantity k qs <> 0 \/ type_amount k qs <> 0 ->
  exists q item, In q qs /\ In item (QuotationWithItems.quotation_items q) /\
                 ReportsIndex.typeId_of item = k.
Proof.
  assert (Hitems : forall items : list QuotationItemRecord.t,
            fold_right (fun item acc =>
                          if String.eqb (ReportsIndex.typeId_of item) k
                          then QuotationItemRecord.quantity item + acc else acc) 0 items
            <> 0 \/
            fold_right (fun item acc =>
                          if String.eqb (ReportsIndex.typeId_of item) k
                          then QuotationItemRecord.total_price item + acc else acc) 0 items
            <> 0 ->
            exists item, In item items /\ ReportsIndex.typeId_of item = k).
  { induction items as [|item items IH]; simpl; [intros [H|H]; contradiction|].
    destruct (String.eqb_spec (ReportsIndex.typeId_of item) k) as [E|E].
    - intros _. exists item. split; [left; reflexivity|exact E].
    - intros H. destruct (IH H) as [i [Hi Ei]]. exists i. split; [right; exact Hi|exact Ei]. }
  unfold type_quantity, type_amount. induction qs as [|q qs IH]; simpl.
  - intros [H|H]; contradiction.
  - intros H.
    destruct (Z.eq_dec
                (fold_right (fun item acc =>
                               if String.eqb (ReportsIndex.typeId_of item) k
                               then QuotationItemRecord.quantity item + acc else acc) 0
                            (QuotationWithItems.quotation_items q)) 0) as [Zq|Nq];
    [destruct (Z.eq_dec
                 (fold_right (fun item acc =>
                                if String.eqb (ReportsIndex.typeId_of item) k
                                then QuotationItemRecord.total_price item + acc else acc) 0
                             (QuotationWithItems.quotation_items q)) 0) as [Za|Na]|].
    + rewrite Zq, Za in H. simpl in H. destruct (IH H) as [q' [i [Hq [Hi Ei]]]].
      exists q', i. split; [right; exact Hq|]. split; assumption.
    + destruct (Hitems _ (or_intror Na)) as [i [Hi Ei]].
      exists q, i. split; [left; reflexivity|]. split; assumption.
    + destruct (Hitems _ (or_introl Nq)) as [i [Hi Ei]].
      exists q, i. split; [left; reflexivity|]. split; assumption.
Qed.

(** X19.  The report has a row only for a type that occurs: each row's key
    is the type of some item of some filtered quotation (["no_type"] for an
    item without type).  Item types that no filtered item uses are left out,
    and when the filtered quotations have no items the report has no rows. *)
Theorem reportData_only_occurring (itemTypes : list ItemType)
    (filteredQuotations : list QuotationWithItems.t) :
  (forall row, In row (ReportsIndex.reportData itemTypes filteredQuotations) ->
     exists q item, In q filteredQuotations /\
                    In item (QuotationWithItems.quotation_items q) /\
                    ReportsIndex.typeId_of item = row_id row) /\
  ((forall q, In q filteredQuotations -> QuotationWithItems.quotation_items q = []) ->
   ReportsIndex.reportData itemTypes filteredQuotations = []).
Proof.
  assert (H : forall row, In row (ReportsIndex.reportData itemTypes filteredQuotations) ->
     exists q item, In q filteredQuotations /\
                    In item (QuotationWithItems.quotation_items q) /\
                    ReportsIndex.typeId_of item = row_id row).
  { intros row Hrow.
    apply (Permutation_in _ (reportData_perm itemTypes filteredQuotations)) in Hrow.
    apply in_map_iff in Hrow. destruct Hrow as [[k b] [<- Hin]].
    apply filter_In in Hin. destruct Hin as [Hin Hne]. simpl.
    destruct (report_state_at k itemTypes filteredQuotations) as [Hn [Hq Ha]].
    pose proof (table_get_in _ _ _ Hn Hin) as G.
    unfold quantity_at in Hq. unfold amount_at in Ha. rewrite G in Hq, Ha.
    apply type_sums_occur. unfold ReportsIndex.non_empty in Hne. simpl in Hne.
    apply orb_true_iff in Hne. rewrite !Z.gtb_lt in Hne. lia. }
  split; [exact H|]. intros Hempty.
  destruct (ReportsIndex.reportData itemTypes filteredQuotations) as [|row rows] eqn:E;
    [reflexivity|].
  destruct (H row (or_introl eq_refl)) as [q [item [Hq [Hi _]]]].
  rewrite (Hempty q Hq) in Hi. contradiction.
Qed.

Lemma reportData_only_occurring_witness :
  ReportsIndex.reportData sample_types [] = [] /\
  exists q item, In q report_quotations /\
                 In item (QuotationWithItems.quotation_items q) /\
                 ReportsIndex.typeId_of item = "gone".
Proof.
  split.
  - apply (proj2 (reportData_only_occurring sample_types [])). intros q [].
  - apply (proj1 (reportData_only_occurring sample_types report_quotations)
             (mkReportRow "gone" "Unknown" 4 800 1)).
    left. reflexivity.
Defined.

(** ** The quotation list *)

Lemma includes_empty (s : string) : includes s "" = true.
Proof. destruct s; reflexivity. Qed.

Lemma prefix_occurs (p s : string) :
  String.prefix p s = true <-> exists after, s = (p ++ after)%string.
Proof.
  split.
  - revert s. induction p as [|c p IH]; intros s H.
    + exists s. reflexivity.
    + destruct s as [|d s]; [discriminate H|]. simpl in H.
      destruct (ascii_dec c d) as [->|N]; [|discriminate H].
      destruct (IH s H) as [after ->]. exists after. reflexivity.
  - intros [after ->]. apply prefix_app.
Qed.

Lemma includes_unfold (s sub : string) :
  includes s sub =
  if String.prefix sub s then true
  else match s with
       | EmptyString => false
       | String _ r => includes r sub
       end.
Proof. destruct s; reflexivity. Qed.

Lemma includes_occurs (s sub : string) : includes s sub = true <-> occurs sub s.
Proof.
  unfold occurs. induction s as [|c s IH]; rewrite includes_unfold.
  - destruct (String.prefix sub "") eqn:P.
    + split; [intros _|reflexivity].
      apply prefix_occurs in P. destruct P as [after E]. exists "", after. exact E.
    + split; [discriminate|]. intros [before [after E]].
      destruct before as [|d before]; [|discriminate E].
      simpl in E. rewrite (proj2 (prefix_occurs sub "")) in P; [discriminate|].
      exists after. exact E.
  - destruct (String.prefix sub (String c s)) eqn:P.
    + split; [intros _|reflexivity].
      apply prefix_occurs in P. destruct P as [after E]. exists "", after. exact E.
    + rewrite IH. split.
      * intros [before [after ->]]. exists (String c before), after. reflexivity.
      * intros [before [after E]]. destruct before as [|d before].
        -- simpl in E. rewrite (proj2 (prefix_occurs sub (String c s))) in P;
             [discriminate|]. exists after. exact E.
        -- simpl in E. injection E as _ E. exists before, after. exact E.
Qed.

Lemma matches_listed (search : string) (statusFilter : StatusFilter)
    (budgetFilter : BudgetFilter) (q : QuotationWithItems.t) :
  QuotationsIndex.matches search statusFilter budgetFilter q = true
  <-> listed search statusFilter budgetFilter q.
Proof.
  unfold QuotationsIndex.matches, listed. cbv zeta.
  rewrite !andb_true_iff, orb_true_iff, !includes_occurs.
  assert (Hs : match statusFilter with
               | filter_all => true
               | filter_status st =>
                   QuotationStatus_eqb (Quotation.status (QuotationWithItems.base q)) st
               | filter_other _ => false
               end = true
               <-> statusFilter = filter_all \/
                   statusFilter = filter_status (Quotation.status (QuotationWithItems.base q))).
  { destruct statusFilter as [|st|v].
    - split; [left; reflexivity|reflexivity].
    - destruct (Quotation.status (QuotationWithItems.base q)), st; simpl;
        split; intros H; try discriminate H; try reflexivity;
        try (right; reflexivity); destruct H as [H|H]; discriminate H.
    - split; [discriminate|]. intros [H|H]; discriminate H. }
  assert (Hb : match budgetFilter with
               | budget_all => true
               | budget_type_is b =>
                   BudgetType_eqb (Quotation.budget_type (QuotationWithItems.base q)) b
               | budget_other _ => false
               end = true
               <-> budgetFilter = budget_all \/
                   budgetFilter
                   = budget_type_is (Quotation.budget_type (QuotationWithItems.base q))).
  { destruct budgetFilter as [|b|v].
    - split; [left; reflexivity|reflexivity].
    - destruct (Quotation.budget_type (QuotationWithItems.base q)), b; simpl;
        split; intros H; try discriminate H; try reflexivity;
        try (right; reflexivity); destruct H as [H|H]; discriminate H.
    - split; [discriminate|]. intros [H|H]; discriminate H. }
  rewrite Hs, Hb. tauto.
Qed.

Lemma filter_split_perm {A : Type} (p : A -> bool) (l : list A) :
  Permutation (filter p l ++ filter (fun x => negb (p x)) l) l.
Proof.
  induction l as [|x l IH]; simpl; [constructor|].
  destruct (p x); simpl.
  - constructor. exact IH.
  - apply Permutation_sym, Permutation_cons_app, Permutation_sym. exact IH.
Qed.

Lemma StronglySorted_among {A : Type} (R R' : A -> A -> Prop) (l : list A) :
  (forall a b, In a l -> In b l -> R a b -> R' a b) ->
  StronglySorted R l -> StronglySorted R' l.
Proof.
  intros H S. induction S as [|a l S IH F]; constructor.
  - apply IH. intros x y Hx Hy. apply H; now right.
  - apply Forall_forall. intros b Hb. apply H; [now left|now right|].
    exact (proj1 (Forall_forall _ _) F b Hb).
Qed.

(** X20.  When the creation times of the stored quotations parse, the
    quotation list is the stored quotations split in two: those listed are
    the ones that have the search text in the project name or in the number
    (whatever the case of the letters) and have the status and the budget
    type selected, if any is; the others are left out; none is lost or
    repeated.  The list has the most recently created first, two search
    texts that differ in case only give the same list, and with an empty
    search and both filters on ["all"] every quotation is listed. *)
Theorem QuotationsIndex_listing (getTime : string -> option Z) (search : string)
    (statusFilter : StatusFilter) (budgetFilter : BudgetFilter)
    (quotations : list QuotationWithItems.t) :
  (forall q, In q quotations ->
             getTime (Quotation.created_at (QuotationWithItems.base q)) <> None) ->
  exists listing,
    QuotationsIndex.filteredQuotations getTime search statusFilter budgetFilter quotations
    = determined listing /\
    (exists hidden,
       Permutation (listing ++ hidden) quotations /\
       Forall (listed search statusFilter budgetFilter) listing /\
       Forall (fun q => ~ listed search statusFilter budgetFilter q) hidden) /\
    StronglySorted (created_not_before getTime) listing /\
    (forall search', toLowerCase search' = toLowerCase search ->
       QuotationsIndex.filteredQuotations getTime search' statusFilter budgetFilter
         quotations
       = determined listing) /\
    (search = "" -> statusFilter = filter_all -> budgetFilter = budget_all ->
     Permutation listing quotations).
Proof.
  intros Hd.
  set (key := fun q => getTime (Quotation.created_at (QuotationWithItems.base q))).
  set (m := QuotationsIndex.matches search statusFilter budgetFilter).
  assert (Hf : forall q, In q (filter m quotations) -> key q <> None).
  { intros q Hq. apply filter_In in Hq. apply Hd. tauto. }
  pose proof (sort_perm (fun q => time_value (key q)) (filter m quotations)) as P.
  exists (sort (fun a b => time_value (key b) - time_value (key a)) (filter m quotations)).
  split; [|split; [|split; [|split]]].
  - unfold QuotationsIndex.filteredQuotations. fold key. fold m.
    apply sort_descending_dates. exact Hf.
  - exists (filter (fun q => negb (m q)) quotations). split; [|split].
    + apply Permutation_trans with (filter m quotations
                                      ++ filter (fun q => negb (m q)) quotations)%list.
      * apply Permutation_app_tail. exact P.
      * apply filter_split_perm.
    + apply Forall_forall. intros q Hq. apply (Permutation_in _ P) in Hq.
      apply filter_In in Hq. apply matches_listed. tauto.
    + apply Forall_forall. intros q Hq. apply filter_In in Hq. destruct Hq as [_ Hq].
      intros Hl. apply matches_listed in Hl. fold m in Hl. rewrite Hl in Hq. discriminate.
  - apply (StronglySorted_among (fun a b => time_value (key a) >= time_value (key b))).
    + intros a b Ha Hb Hab. apply (Permutation_in _ P) in Ha, Hb.
      exists (time_value (key a)), (time_value (key b)).
      split; [apply time_value_date, Hf, Ha|]. split; [apply time_value_date, Hf, Hb|lia].
    + apply (sort_sorted (fun q => time_value (key q))).
  - intros search' E. unfold QuotationsIndex.filteredQuotations. fold key.
    assert (Em : QuotationsIndex.matches search' statusFilter budgetFilter = m).
    { unfold m, QuotationsIndex.matches. rewrite E. reflexivity. }
    rewrite Em. apply sort_descending_dates. exact Hf.
  - intros -> -> ->.
    assert (E : filter m quotations = quotations).
    { apply filter_id_iff. intros q _. unfold m, QuotationsIndex.matches.
      change (toLowerCase "") with "". rewrite includes_empty. reflexivity. }
    rewrite E in P. rewrite E. exact P.
Qed.

Lemma QuotationsIndex_listing_witness :
  (forall q, In q report_quotations ->
             sample_Date_getTime (Quotation.created_at (QuotationWithItems.base q)) <> None) /\
  Determined_map (map (fun q => Quotation.id (QuotationWithItems.base q)))
    (QuotationsIndex.filteredQuotations sample_Date_getTime "" filter_all budget_all
       report_quotations)
  = determined ["q2"; "q1"] /\
  Determined_map (map (fun q => Quotation.id (QuotationWithItems.base q)))
    (QuotationsIndex.filteredQuotations sample_Date_getTime "BETA" filter_all budget_all
       report_quotations)
  = determined ["q2"] /\
  exists listing,
    QuotationsIndex.filteredQuotations sample_Date_getTime "beta" filter_all budget_all
      report_quotations
    = determined listing.
Proof.
  assert (Hd : forall q, In q report_quotations ->
                 sample_Date_getTime (Quotation.created_at (QuotationWithItems.base q))
                 <> None).
  { intros q [<-|[<-|[]]]; discriminate. }
  split; [exact Hd|]. split; [reflexivity|]. split; [reflexivity|].
  destruct (QuotationsIndex_listing sample_Date_getTime "beta" filter_all budget_all
              report_quotations Hd) as [listing [H _]].
  exists listing. exact H.
Defined.

(** ** The dashboard with a rate of zero *)



(** ** The amount fields *)

Lemma is_digit_facts (c : ascii) :
  is_digit c = true ->
  is_space c = false /\ Ascii.eqb c "," = false /\ Ascii.eqb c "." = false /\
  Ascii.eqb c "e" = false /\ Ascii.eqb c "E" = false /\ Ascii.eqb c "I" = false /\
  Ascii.eqb c "-" = false /\ Ascii.eqb c "+" = false /\ 0 <= digit_value c.
Proof.
  destruct c as [[] [] [] [] [] [] [] []]; intros H; try discriminate H;
    repeat split; try reflexivity; vm_compute; discriminate.
Qed.

Lemma digits_value_nonneg (s : string) (a : Z) : 0 <= a -> 0 <= digits_value a s.
Proof.
  revert a. induction s as [|c s IH]; intros a Ha; [exact Ha|].
  rewrite digits_value_cons. destruct (is_digit c) eqn:D; [|exact Ha].
  apply IH. pose proof (is_digit_facts c D) as [_ [_ [_ [_ [_ [_ [_ [_ Hv]]]]]]]]. lia.
Qed.

Lemma drop_digits_all (s : string) : all_digits s = true -> drop_digits s = "".
Proof.
  induction s as [|c s IH]; simpl; [reflexivity|].
  intros H. apply andb_prop in H. destruct H as [Hc Hs]. rewrite Hc. now apply IH.
Qed.

Lemma parseFloat_unsigned_digits (s : string) :
  all_digits s = true ->
  parseFloat_unsigned s
  = float_number match s with
                 | EmptyString => NaN
                 | String _ _ => to_double (digits_value 0 s)
                 end.
Proof.
  intros H. unfold parseFloat_unsigned. destruct s as [|c s]; [reflexivity|].
  assert (Hc : is_digit c = true) by (simpl in H; apply andb_prop in H; tauto).
  change (starts_with_digit (String c s)) with (is_digit c). rewrite Hc.
  rewrite (drop_digits_all _ H). reflexivity.
Qed.

Lemma parseFloat_digits (s : string) :
  all_digits s = true ->
  parseFloat s
  = float_number match s with
                 | EmptyString => NaN
                 | String _ _ => to_double (digits_value 0 s)
                 end.
Proof.
  intros H. rewrite <- (parseFloat_unsigned_digits s H).
  destruct s as [|c s]; [reflexivity|].
  assert (Hc : is_digit c = true) by (simpl in H; apply andb_prop in H; tauto).
  unfold parseFloat. simpl trimStart.
  rewrite (proj1 (is_digit_facts c Hc)).
  destruct c as [[] [] [] [] [] [] [] []]; try discriminate Hc; reflexivity.
Qed.

Lemma to_double_sign (n : Z) :
  0 <= n -> to_double n = infinite false \/ exists m, 0 <= m /\ to_double n = finite m.
Proof.
  intros Hn. unfold to_double. rewrite (Z.abs_eq n Hn).
  destruct (Z.ltb_spec n (2 ^ 53)) as [_|Hge]; [right; exists n; split; [exact Hn|reflexivity]|].
  assert (Hpos : 0 < n) by (change (2 ^ 53) with 9007199254740992 in Hge; lia).
  rewrite (proj2 (Z.ltb_ge n 0) Hn), (Z.sgn_pos n Hpos).
  match goal with
  | |- context [2 ^ 1024 <=? ?v] =>
      assert (Hv : 0 <= v);
      [|destruct (2 ^ 1024 <=? v);
        [left; reflexivity|right; exists v; split; [exact Hv|f_equal; lia]]]
  end.
  apply Z.mul_nonneg_nonneg; [|apply Z.pow_nonneg; lia].
  pose proof (Z.div_pos n (2 ^ (Z.log2 n - 52)) Hn) as Hq.
  assert (Hp : 0 < 2 ^ (Z.log2 n - 52)).
  { apply Z.pow_pos_nonneg; [lia|].
    pose proof (Z.log2_le_mono _ _ Hge) as Hl.
    change (Z.log2 (2 ^ 53)) with 53 in Hl. lia. }
  specialize (Hq Hp).
  destruct (_ || _)%bool; lia.
Qed.

Lemma to_double_not_NaN (n : Z) : isNaN (to_double n) = false.
Proof.
  unfold to_double. destruct (Z.abs n <? 2 ^ 53); [reflexivity|].
  match goal with
  | |- context [2 ^ 1024 <=? ?v] => destruct (2 ^ 1024 <=? v); reflexivity
  end.
Qed.

Lemma to_double_opp (n : Z) : to_double (- n) = double_opp (to_double n).
Proof.
  unfold to_double. rewrite Z.abs_opp.
  destruct (Z.ltb_spec (Z.abs n) (2 ^ 53)) as [_|Hge]; [reflexivity|].
  assert (Hnz : n <> 0) by (change (2 ^ 53) with 9007199254740992 in Hge; lia).
  rewrite Z.sgn_opp.
  match goal with
  | |- context [2 ^ 1024 <=? ?v] => destruct (2 ^ 1024 <=? v)
  end; simpl double_opp.
  - f_equal. destruct (Z.ltb_spec n 0), (Z.ltb_spec (- n) 0); try reflexivity; lia.
  - f_equal. lia.
Qed.

Lemma candidates_nonneg (x : Z) (j : nat) (c : Z) :
  0 <= x -> In c (candidates x j) -> 0 <= c.
Proof.
  intros Hx. unfold candidates.
  assert (Hp : 0 < 10 ^ Z.of_nat j) by (apply Z.pow_pos_nonneg; lia).
  assert (Hq : 0 <= x / 10 ^ Z.of_nat j * 10 ^ Z.of_nat j).
  { apply Z.mul_nonneg_nonneg; [apply Z.div_pos; lia|lia]. }
  destruct (_ || _)%bool; intros [<-|[<-|[]]]; lia.
Qed.

Lemma found_reads (x : Z) (j : nat) (c : Z) :
  0 <= x -> find (reads_as x) (candidates x j) = Some c ->
  0 <= c /\ to_double c = finite x.
Proof.
  intros Hx F. apply find_some in F. destruct F as [Hin Hr].
  split; [exact (candidates_nonneg x j c Hx Hin)|].
  unfold reads_as in Hr. destruct (to_double c) as [|y|neg]; try discriminate Hr.
  apply Z.eqb_eq in Hr. subst y. reflexivity.
Qed.

(** The printed digits of a double read as that double. *)
Lemma shortest_from_reads (x : Z) (j : nat) :
  0 <= x -> is_double x ->
  0 <= shortest_from x j /\ to_double (shortest_from x j) = finite x.
Proof.
  intros Hx Hd. induction j as [|j IH]; cbn [shortest_from].
  - destruct (find (reads_as x) (candidates x 0)) as [c|] eqn:F.
    + exact (found_reads x 0 c Hx F).
    + split; [exact Hx|exact Hd].
  - destruct (find (reads_as x) (candidates x (S j))) as [c|] eqn:F.
    + exact (found_reads x (S j) c Hx F).
    + exact IH.
Qed.

Lemma shortest_decimal_reads (x : Z) :
  0 <= x -> is_double x ->
  0 <= shortest_decimal x /\ to_double (shortest_decimal x) = finite x.
Proof.
  intros Hx Hd. unfold shortest_decimal.
  destruct (x <=? 2 ^ 53); [split; [exact Hx|exact Hd]|].
  now apply shortest_from_reads.
Qed.

Lemma remove_commas_digits (s : string) : all_digits s = true -> remove_commas s = s.
Proof.
  induction s as [|c s IH]; simpl; [reflexivity|].
  intros H. apply andb_prop in H. destruct H as [Hc Hs].
  destruct (is_digit_facts c Hc) as [_ [E _]]. rewrite E, (IH Hs). reflexivity.
Qed.

Lemma remove_commas_cons (c : ascii) (r : string) :
  remove_commas (String c r)
  = if Ascii.eqb c "," then remove_commas r else String c (remove_commas r).
Proof. reflexivity. Qed.

Lemma keep_digits_and_commas_cons (c : ascii) (r : string) :
  keep_digits_and_commas (String c r)
  = if (is_digit c || Ascii.eqb c ",")%bool then String c (keep_digits_and_commas r)
    else keep_digits_and_commas r.
Proof. reflexivity. Qed.

Lemma group_digits_facts (s : string) :
  all_digits s = true ->
  remove_commas (group_digits s) = s /\
  keep_digits_and_commas (group_digits s) = group_digits s.
Proof.
  induction s as [|c s IH]; [split; reflexivity|].
  intros H. simpl in H. apply andb_prop in H. destruct H as [Hc Hs].
  destruct (IH Hs) as [IH1 IH2].
  destruct (is_digit_facts c Hc) as [_ [E _]].
  cbn [group_digits].
  destruct (Nat.eqb (Nat.modulo (String.length s) 3) 0
            && negb (Nat.eqb (String.length s) 0))%bool.
  - rewrite remove_commas_cons, E, remove_commas_cons.
    rewrite keep_digits_and_commas_cons, Hc, keep_digits_and_commas_cons.
    change (Ascii.eqb "," ",") with true. rewrite orb_true_r. cbn [orb].
    rewrite IH1, IH2. split; reflexivity.
  - rewrite remove_commas_cons, E, keep_digits_and_commas_cons, Hc. cbn [orb].
    rewrite IH1, IH2. split; reflexivity.
Qed.

Lemma keep_digits_facts (raw : string) :
  all_digits (keep_digits raw) = true /\
  remove_commas (keep_digits_and_commas raw) = keep_digits raw.
Proof.
  induction raw as [|c raw [IH1 IH2]]; [split; reflexivity|].
  rewrite keep_digits_and_commas_cons. cbn [keep_digits].
  destruct (is_digit c) eqn:D; cbn [orb].
  - destruct (is_digit_facts c D) as [_ [E _]].
    rewrite remove_commas_cons, E, IH2. cbn [all_digits]. rewrite D, IH1.
    split; reflexivity.
  - destruct (Ascii.eqb c ",") eqn:C.
    + rewrite remove_commas_cons, C. split; assumption.
    + split; assumption.
Qed.

(** X22.  Whatever is typed into an amount field, the value its handler
    stores is a number and is not negative: it is the double nearest to the
    number spelled by the digits of the text, every other character (a minus
    sign, a dot, letters, the commas) being ignored.  That is the number
    spelled itself as long as it is at most 2^53, an infinity when there are
    too many digits for a double, and 0 when the text has no digit. *)
Theorem amount_onChange_digits (raw : string) :
  let typed := digits_value 0 (keep_digits raw) in
  0 <= typed /\
  amount_onChange raw = Some (to_double typed) /\
  (typed <= 2 ^ 53 -> amount_onChange raw = Some (finite typed)) /\
  (amount_onChange raw = Some (infinite false) \/
   exists n, 0 <= n /\ amount_onChange raw = Some (finite n)) /\
  (keep_digits raw = "" -> amount_onChange raw = Some (finite 0)).
Proof.
  intros typed.
  destruct (keep_digits_facts raw) as [Hd Hr].
  assert (Hn : 0 <= typed) by (apply digits_value_nonneg; lia).
  assert (E : amount_onChange raw = Some (to_double typed)).
  { unfold amount_onChange, parseFormattedNumber. rewrite Hr, (parseFloat_digits _ Hd).
    unfold typed. destruct (keep_digits raw); [reflexivity|].
    rewrite to_double_not_NaN. reflexivity. }
  split; [exact Hn|]. split; [exact E|]. split; [|split].
  - intros Hb. rewrite E, to_double_safe; [reflexivity|]. lia.
  - rewrite E. destruct (to_double_sign typed Hn) as [H|[n [H0 H]]]; rewrite H.
    + left. reflexivity.
    + right. exists n. split; [exact H0|reflexivity].
  - intros Hempty. rewrite E. unfold typed. rewrite Hempty. reflexivity.
Qed.

Lemma amount_onChange_digits_witness :
  keep_digits "-?" = "" /\
  amount_onChange "-?" = Some (finite 0) /\
  digits_value 0 (keep_digits "-1,2x3.4") <= 2 ^ 53 /\
  amount_onChange "-1,2x3.4" = Some (finite 1234) /\
  amount_onChange "9007199254740993" = Some (finite 9007199254740992).
Proof.
  split; [reflexivity|].
  split; [exact (proj2 (proj2 (proj2 (proj2 (amount_onChange_digits "-?")))) eq_refl)|].
  assert (Hb : digits_value 0 (keep_digits "-1,2x3.4") <= 2 ^ 53) by (vm_compute; discriminate).
  split; [exact Hb|].
  split; [exact (proj1 (proj2 (proj2 (amount_onChange_digits "-1,2x3.4"))) Hb)|].
  exact (proj1 (proj2 (amount_onChange_digits "9007199254740993"))).
Defined.

(** X23.  A number shown by [formatNumberWithCommas] reads back as itself
    with [parseFormattedNumber]; passed through the handler of an amount
    field it reads back as its absolute value, so a field showing a
    non-negative amount keeps that amount. *)
Theorem formatNumberWithCommas_roundtrip (n : Z) :
  is_double n ->
  parseFormattedNumber (formatNumberWithCommas (finite n)) = Some (finite n) /\
  amount_onChange (formatNumberWithCommas (finite n)) = Some (finite (Z.abs n)) /\
  (0 <= n -> amount_onChange (formatNumberWithCommas (finite n)) = Some (finite n)).
Proof.
  intros Hdouble.
  assert (Hpos : forall m, 0 <= m -> is_double m ->
            let shown := group_digits (decimal (shortest_decimal m)) in
            parseFormattedNumber shown = Some (finite m) /\
            amount_onChange shown = Some (finite m) /\
            parseFormattedNumber (String "-" shown) = Some (finite (- m)) /\
            amount_onChange (String "-" shown) = Some (finite m)).
  { intros m Hm Hdm shown. subst shown.
    destruct (shortest_decimal_reads m Hm Hdm) as [Hc Hread].
    set (c := shortest_decimal m) in *.
    destruct (decimal_digits c Hc) as [Hd [Hl Hv]].
    destruct (group_digits_facts _ Hd) as [G1 G2].
    assert (P : parseFormattedNumber (group_digits (decimal c)) = Some (finite m)).
    { unfold parseFormattedNumber. rewrite G1, (parseFloat_digits _ Hd).
      destruct (decimal c); [simpl in Hl; lia|]. rewrite Hv, Hread. reflexivity. }
    split; [exact P|]. split; [unfold amount_onChange; rewrite G2; exact P|].
    split.
    - unfold parseFormattedNumber.
      change (remove_commas (String "-" (group_digits (decimal c))))
        with (String "-" (remove_commas (group_digits (decimal c)))).
      rewrite G1.
      change (parseFloat (String "-" (decimal c)))
        with (float_opp (parseFloat_unsigned (decimal c))).
      rewrite (parseFloat_unsigned_digits _ Hd).
      destruct (decimal c); [simpl in Hl; lia|].
      cbn [float_opp]. rewrite Hv, Hread. reflexivity.
    - unfold amount_onChange.
      change (keep_digits_and_commas (String "-" (group_digits (decimal c))))
        with (keep_digits_and_commas (group_digits (decimal c))).
      rewrite G2. exact P. }
  unfold formatNumberWithCommas, toLocaleString. cbn [isNaN].
  destruct (Z.ltb_spec n 0) as [Hneg|Hnn].
  - assert (Hd' : is_double (- n)).
    { unfold is_double in *. rewrite to_double_opp, Hdouble. reflexivity. }
    destruct (Hpos (- n) ltac:(lia) Hd') as [_ [_ [P A]]].
    rewrite P, A. replace (- - n) with n by lia. replace (Z.abs n) with (- n) by lia.
    split; [reflexivity|]. split; [reflexivity|]. lia.
  - destruct (Hpos n Hnn Hdouble) as [P [A _]].
    rewrite P, A. replace (Z.abs n) with n by lia. repeat split; reflexivity.
Qed.

Lemma formatNumberWithCommas_roundtrip_witness :
  is_double 1234567 /\
  formatNumberWithCommas (finite 1234567) = "1,234,567" /\
  amount_onChange (formatNumberWithCommas (finite 1234567)) = Some (finite 1234567) /\
  is_double 18014398509481988 /\
  formatNumberWithCommas (finite 18014398509481988) = "18,014,398,509,481,988" /\
  parseFormattedNumber (formatNumberWithCommas (finite 18014398509481988))
  = Some (finite 18014398509481988).
Proof.
  assert (H1 : is_double 1234567) by reflexivity.
  assert (H2 : is_double 18014398509481988) by (vm_compute; reflexivity).
  split; [exact H1|]. split; [reflexivity|].
  split; [apply (proj2 (proj2 (formatNumberWithCommas_roundtrip 1234567 H1))); lia|].
  split; [exact H2|]. split; [vm_compute; reflexivity|].
  exact (proj1 (formatNumberWithCommas_roundtrip 18014398509481988 H2)).
Defined.

(** ** Submitting the new-quotation form *)

Lemma createVendor_frame (name uuid t1 t2 : string) (s : Store) :
  let r := createVendor name uuid t1 t2 s in
  quotations_json (snd r) = quotations_json s /\
  quotation_items_json (snd r) = quotation_items_json s /\
  recipients_json (snd r) = recipients_json s.
Proof.
  unfold createVendor. destruct (find (same_name name) (vendors_json s)); simpl; auto.
Qed.

Lemma createRecipient_frame (name uuid t1 t2 : string) (s : Store) :
  let r := createRecipient name uuid t1 t2 s in
  quotations_json (snd r) = quotations_json s /\
  quotation_items_json (snd r) = quotation_items_json s /\
  vendors_json (snd r) = vendors_json s.
Proof.
  unfold createRecipient. destruct (find (same_name name) (recipients_json s)); simpl; auto.
Qed.

Lemma createVendor_stored (name uuid t1 t2 : string) (s : Store) :
  let r := createVendor name uuid t1 t2 s in
  In (fst r) (vendors_json (snd r)) /\
  toLowerCase (Lookup.name (fst r)) = toLowerCase name /\
  (names_unique (vendors_json s) -> names_unique (vendors_json (snd r))).
Proof.
  unfold createVendor.
  pose proof (creator_body (vendors_json s) name uuid t1 t2) as Hc.
  destruct (find (same_name name) (vendors_json s)) as [e|]; simpl.
  - destruct Hc as [Hn Hin]. auto.
  - split; [apply in_or_app; right; left; reflexivity|]. split; [reflexivity|exact Hc].
Qed.

Lemma createRecipient_unique (name uuid t1 t2 : string) (s : Store) :
  names_unique (recipients_json s) ->
  names_unique (recipients_json (snd (createRecipient name uuid t1 t2 s))).
Proof.
  unfold createRecipient.
  pose proof (creator_body (recipients_json s) name uuid t1 t2) as Hc.
  destruct (find (same_name name) (recipients_json s)) as [e|]; simpl; auto.
Qed.

(** The store after the vendor and recipient steps of [handleSubmit]. *)
Lemma handleSubmit_lookups (form : FormState.t) (recipients : list Recipient)
    (clock : SubmitClock.t) (s : Store) :
  exists vendorId s2,
    (trim (FormState.projectName form) <> "" -> FormState.items form <> [] ->
     NewQuotation.handleSubmit form recipients clock s =
     let created :=
       createQuotation
         (QuotationFields.mk (generateQuotationNumber (SubmitClock.year clock) s2)
            (FormState.projectName form) (FormState.date form)
            (FormState.validityDate form) (FormState.budgetType form)
            (FormState.recipient form) (FormState.currencyType form) vendorId
            (FormState.vendorCost form) (FormState.vendorCurrencyType form)
            (FormState.discount form)
            (if String.eqb (FormState.note form) "" then None
             else Some (FormState.note form))
            None draft)
         (submitted_items (FormState.items form))
         (SubmitClock.quotation_uuid clock) (SubmitClock.quotation_now clock) s2 in
     (quotation_created (fst created), snd created)) /\
    quotations_json s2 = quotations_json s /\
    quotation_items_json s2 = quotation_items_json s /\
    match vendorId with
    | None => trim (FormState.vendorName form) = "" /\ vendors_json s2 = vendors_json s
    | Some id =>
        trim (FormState.vendorName form) <> "" /\
        exists v, In v (vendors_json s2) /\ Lookup.id v = id /\
                  toLowerCase (Lookup.name v) = toLowerCase (FormState.vendorName form)
    end /\
    (names_unique (vendors_json s) -> names_unique (vendors_json s2)) /\
    (names_unique (recipients_json s) -> names_unique (recipients_json s2)).
Proof.
  set (stage1 :=
         if String.eqb (trim (FormState.vendorName form)) "" then (None, s)
         else
           let '(vendor, s') :=
             createVendor (FormState.vendorName form) (SubmitClock.vendor_uuid clock)
               (SubmitClock.vendor_t1 clock) (SubmitClock.vendor_t2 clock) s in
           (Some (Lookup.id vendor), s')).
  set (stage2 := fun s1 : Store =>
         if String.eqb (trim (FormState.recipient form)) "" then s1
         else
           match find (same_name (FormState.recipient form)) recipients with
           | Some _ => s1
           | None =>
               snd (createRecipient (FormState.recipient form)
                      (SubmitClock.recipient_uuid clock) (SubmitClock.recipient_t1 clock)
                      (SubmitClock.recipient_t2 clock) s1)
           end).
  exists (fst stage1), (stage2 (snd stage1)).
  assert (H2 : forall s1,
             quotations_json (stage2 s1) = quotations_json s1 /\
             quotation_items_json (stage2 s1) = quotation_items_json s1 /\
             vendors_json (stage2 s1) = vendors_json s1 /\
             (names_unique (recipients_json s1) ->
              names_unique (recipients_json (stage2 s1)))).
  { intros s1. unfold stage2.
    destruct (String.eqb (trim (FormState.recipient form)) ""); [auto|].
    destruct (find (same_name (FormState.recipient form)) recipients); [auto|].
    destruct (createRecipient_frame (FormState.recipient form)
                (SubmitClock.recipient_uuid clock) (SubmitClock.recipient_t1 clock)
                (SubmitClock.recipient_t2 clock) s1) as [F1 [F2 F3]].
    split; [exact F1|]. split; [exact F2|]. split; [exact F3|].
    apply createRecipient_unique. }
  destruct (H2 (snd stage1)) as [Q2 [I2 [V2 U2]]].
  assert (H1 : quotations_json (snd stage1) = quotations_json s /\
               quotation_items_json (snd stage1) = quotation_items_json s /\
               recipients_json (snd stage1) = recipients_json s /\
               match fst stage1 with
               | None => trim (FormState.vendorName form) = "" /\
                         vendors_json (snd stage1) = vendors_json s
               | Some id =>
                   trim (FormState.vendorName form) <> "" /\
                   exists v, In v (vendors_json (snd stage1)) /\ Lookup.id v = id /\
                             toLowerCase (Lookup.name v)
                             = toLowerCase (FormState.vendorName form)
               end /\
               (names_unique (vendors_json s) -> names_unique (vendors_json (snd stage1)))).
  { unfold stage1.
    destruct (String.eqb_spec (trim (FormState.vendorName form)) "") as [E|E].
    - simpl. repeat (split; [reflexivity|]). split; [split; [exact E|reflexivity]|].
      intros Hu; exact Hu.
    - pose proof (createVendor_frame (FormState.vendorName form)
                    (SubmitClock.vendor_uuid clock) (SubmitClock.vendor_t1 clock)
                    (SubmitClock.vendor_t2 clock) s) as F.
      pose proof (createVendor_stored (FormState.vendorName form)
                    (SubmitClock.vendor_uuid clock) (SubmitClock.vendor_t1 clock)
                    (SubmitClock.vendor_t2 clock) s) as G.
      cbv zeta in F, G.
      destruct (createVendor (FormState.vendorName form) (SubmitClock.vendor_uuid clock)
                  (SubmitClock.vendor_t1 clock) (SubmitClock.vendor_t2 clock) s)
        as [vendor s'].
      simpl in *. destruct F as [F1 [F2 F3]]. destruct G as [G1 [G2 G3]].
      split; [exact F1|]. split; [exact F2|]. split; [exact F3|].
      split; [|exact G3]. split; [exact E|]. exists vendor. auto. }
  destruct H1 as [Q1 [I1 [R1 [V1 U1]]]].
  split; [|split; [|split; [|split; [|split]]]].
  - intros Hp Hi. unfold NewQuotation.handleSubmit.
    destruct (String.eqb_spec (trim (FormState.projectName form)) "") as [E|_];
      [contradiction|].
    destruct (FormState.items form) as [|i items] eqn:EI; [contradiction|].
    simpl Nat.eqb. cbv iota. rewrite <- EI. clear - form. subst stage1 stage2. cbv beta.
    destruct (String.eqb (trim (FormState.vendorName form)) "").
    + reflexivity.
    + destruct (createVendor (FormState.vendorName form) (SubmitClock.vendor_uuid clock)
                  (SubmitClock.vendor_t1 clock) (SubmitClock.vendor_t2 clock) s)
        as [vendor s'].
      reflexivity.
  - now rewrite Q2.
  - now rewrite I2.
  - destruct (fst stage1) as [id|].
    + destruct V1 as [E [v Hv]]. split; [exact E|]. exists v. now rewrite V2.
    + destruct V1 as [E Hv]. split; [exact E|]. now rewrite V2.
  - intros Hu. rewrite V2. now apply U1.
  - intros Hu. apply U2. now rewrite R1.
Qed.

(** X24.  [handleSubmit] of the new-quotation form ends in one of three ways.
    With a blank project name, or with a project name and no item, it reports
    the matching message and leaves the store as it was.  Otherwise it stores
    exactly one more quotation, after those of before: a draft without
    description, numbered by [generateQuotationNumber] on the quotations of
    before, which is a number none of them has when their numeric suffixes of
    the year are at most 2^53 - 1; its vendor is absent when the vendor field
    is blank and otherwise a stored vendor of that name up to case; and the
    items of the form are stored after the items of before, in order and
    under the new quotation's identifier. *)
Theorem handleSubmit_outcome (form : FormState.t) (recipients : list Recipient)
    (clock : SubmitClock.t) (s : Store) :
  let r := NewQuotation.handleSubmit form recipients clock s in
  match fst r with
  | project_name_required => trim (FormState.projectName form) = "" /\ snd r = s
  | add_at_least_one_item =>
      trim (FormState.projectName form) <> "" /\ FormState.items form = [] /\ snd r = s
  | quotation_created q =>
      trim (FormState.projectName form) <> "" /\ FormState.items form <> [] /\
      quotations_json (snd r) = (quotations_json s ++ [q])%list /\
      Quotation.status q = draft /\ Quotation.description q = None /\
      Quotation.quotation_number q
      = generateQuotationNumber (SubmitClock.year clock) s /\
      (Forall (suffix_at_most MAX_SAFE_INTEGER (quotation_prefix (SubmitClock.year clock)))
              (quotations_json s) ->
       forall q', In q' (quotations_json s) ->
                  Quotation.quotation_number q' <> Quotation.quotation_number q) /\
      match Quotation.vendor_id q with
      | None => trim (FormState.vendorName form) = ""
      | Some id =>
          trim (FormState.vendorName form) <> "" /\
          exists v, In v (vendors_json (snd r)) /\ Lookup.id v = id /\
                    toLowerCase (Lookup.name v) = toLowerCase (FormState.vendorName form)
      end /\
      exists newItems,
        quotation_items_json (snd r) = (quotation_items_json s ++ newItems)%list /\
        map fields_of newItems = submitted_items (FormState.items form) /\
        forall i, In i newItems -> QuotationItemRecord.quotation_id i = Quotation.id q
  end.
Proof.
  intros r.
  destruct (String.eqb_spec (trim (FormState.projectName form)) "") as [Ep|Ep].
  { subst r. unfold NewQuotation.handleSubmit.
    rewrite (proj2 (String.eqb_eq _ _) Ep). simpl. split; [exact Ep|reflexivity]. }
  destruct (FormState.items form) as [|i0 items0] eqn:Ei.
  { subst r. unfold NewQuotation.handleSubmit.
    rewrite (proj2 (String.eqb_neq _ _) Ep), Ei. simpl.
    split; [exact Ep|]. split; reflexivity. }
  destruct (handleSubmit_lookups form recipients clock s)
    as [vendorId [s2 [Heq [Q2 [I2 [V2 _]]]]]].
  assert (Hi : FormState.items form <> []) by (rewrite Ei; discriminate).
  specialize (Heq Ep Hi). cbv zeta in Heq. subst r. rewrite Heq. clear Heq.
  rewrite <- Ei.
  match goal with
  | |- context [createQuotation ?a ?b ?c ?d ?e] =>
      pose proof (created_items_ids a b c d e) as Hc; cbv zeta in Hc;
      assert (Hf : Quotation.status (fst (createQuotation a b c d e)) = draft /\
                   Quotation.description (fst (createQuotation a b c d e)) = None /\
                   Quotation.quotation_number (fst (createQuotation a b c d e))
                   = generateQuotationNumber (SubmitClock.year clock) s2 /\
                   Quotation.vendor_id (fst (createQuotation a b c d e)) = vendorId /\
                   vendors_json (snd (createQuotation a b c d e)) = vendors_json s2)
        by (repeat split; reflexivity);
      destruct (createQuotation a b c d e) as [q s3]
  end.
  simpl fst in *. simpl snd in *.
  destruct Hc as [newItems [Hitems [Hq [Hid [Hnew Hfields]]]]].
  destruct Hf as [Hst [Hd [Hn [Hv Hvs]]]].
  assert (Hnum : generateQuotationNumber (SubmitClock.year clock) s2
                 = generateQuotationNumber (SubmitClock.year clock) s).
  { unfold generateQuotationNumber. now rewrite Q2. }
  split; [exact Ep|]. split; [exact Hi|].
  split; [now rewrite Hq, Q2|]. split; [exact Hst|]. split; [exact Hd|].
  split; [now rewrite Hn|]. split.
  - intros Hb q' Hq' E. rewrite Hn, Hnum in E.
    pose proof (generated_suffix (SubmitClock.year clock) s Hb) as G. rewrite <- E in G.
    destruct (max_suffix_bounds
                (suffixes (quotation_prefix (SubmitClock.year clock)) (quotations_json s)))
      as [_ [B _]].
    pose proof (B _ (suffixes_In _ _ _ _ Hq' G)). lia.
  - split.
    + rewrite Hv, Hvs. destruct vendorId as [id|]; [exact V2|exact (proj1 V2)].
    + exists newItems. split; [now rewrite Hitems, I2|]. split; [exact Hfields|].
      intros i Hin. rewrite Hid. now apply Hnew.
Qed.

Lemma handleSubmit_outcome_witness :
  Forall (suffix_at_most MAX_SAFE_INTEGER (quotation_prefix 2024))
         (quotations_json numbered_store) /\
  (exists q,
     fst (NewQuotation.handleSubmit sample_form [] sample_clock numbered_store)
     = quotation_created q /\
     Quotation.quotation_number q = "QT-2024-0013" /\
     forall q', In q' (quotations_json numbered_store) ->
                Quotation.quotation_number q' <> Quotation.quotation_number q).
Proof.
  assert (Hb : Forall (suffix_at_most MAX_SAFE_INTEGER (quotation_prefix 2024))
                      (quotations_json numbered_store)).
  { repeat constructor; vm_compute; try discriminate; exact I. }
  split; [exact Hb|].
  pose proof (handleSubmit_outcome sample_form [] sample_clock numbered_store) as H.
  cbv zeta in H.
  destruct (fst (NewQuotation.handleSubmit sample_form [] sample_clock numbered_store))
    as [| |q] eqn:E; [discriminate E|discriminate E|].
  exists q. split; [reflexivity|].
  destruct H as [_ [_ [_ [_ [_ [Hn [Hu _]]]]]]].
  split; [rewrite Hn; reflexivity|exact (Hu Hb)].
Defined.

(** X25.  [handleSubmit] keeps vendor names and recipient names unique up to
    case, whatever list of recipients the page holds. *)
Theorem handleSubmit_names_unique (form : FormState.t) (recipients : list Recipient)
    (clock : SubmitClock.t) (s : Store) :
  names_unique (vendors_json s) ->
  names_unique (recipients_json s) ->
  let r := NewQuotation.handleSubmit form recipients clock s in
  names_unique (vendors_json (snd r)) /\ names_unique (recipients_json (snd r)).
Proof.
  intros Hv Hr r.
  destruct (String.eqb_spec (trim (FormState.projectName form)) "") as [Ep|Ep].
  { subst r. unfold NewQuotation.handleSubmit.
    rewrite (proj2 (String.eqb_eq _ _) Ep). simpl. split; assumption. }
  destruct (FormState.items form) as [|i0 items0] eqn:Ei.
  { subst r. unfold NewQuotation.handleSubmit.
    rewrite (proj2 (String.eqb_neq _ _) Ep), Ei. simpl. split; assumption. }
  destruct (handleSubmit_lookups form recipients clock s)
    as [vendorId [s2 [Heq [_ [_ [_ [U1 U2]]]]]]].
  assert (Hi : FormState.items form <> []) by (rewrite Ei; discriminate).
  specialize (Heq Ep Hi). cbv zeta in Heq. subst r. rewrite Heq. clear Heq.
  unfold createQuotation. simpl. split; [now apply U1|now apply U2].
Qed.

Lemma handleSubmit_names_unique_witness :
  names_unique (vendors_json acme_store) /\
  names_unique (recipients_json acme_store) /\
  map Lookup.name
    (vendors_json (snd (NewQuotation.handleSubmit sample_form [] sample_clock acme_store)))
  = ["acme"] /\
  names_unique
    (recipients_json (snd (NewQuotation.handleSubmit sample_form [] sample_clock acme_store))).
Proof.
  assert (Hv : names_unique (vendors_json acme_store)).
  { unfold names_unique. simpl. constructor; [intros []|constructor]. }
  assert (Hr : names_unique (recipients_json acme_store)).
  { unfold names_unique. simpl. constructor. }
  split; [exact Hv|]. split; [exact Hr|]. split; [reflexivity|].
  exact (proj2 (handleSubmit_names_unique sample_form [] sample_clock acme_store Hv Hr)).
Defined.
